(** * HR sample-data generator: a shallow embedding of
      [sample_data/generate_sample_data.py] and the properties of its tables.

    Conventions of the embedding.
    - Python [int] is [Z].  A Python [float] is held as a rational [Q].
      In the leave and meal tables, where a product can fall on a tie of the
      rounding, the rational is the exact value of the double and every
      operation rounds to binary64 ([rnd64], [fadd], [fsub], [fmul],
      [float_round]).  In the attendance and contribution tables the
      rational is the decimal the double stands for, and [py_round] is
      [round(x, ndigits)] on it: the nearest decimal, ties to even; the
      doubles the script computes there are the doubles of these decimals
      ([worked_hours_on_doubles], [contribution_amounts_on_doubles],
      [contribution_totals_on_doubles]).
      Infinities and NaN are left out: no float of the script reaches
      2^1024.
    - The module-level generator [random] is a tape of raw draws with a
      read position: every primitive reads one cell and reduces it into its
      range, so every outcome the library can return is the outcome of some
      tape.  The system clock is a sequence of readings with a read
      position.  Both live in [world], threaded by the monad [M].
    - A raised exception ([ValueError], [IndexError], [OverflowError]) is
      [None].
    - A row (a Python dict with fixed keys) is a record; the Chinese keys
      are given next to each field. *)

From Stdlib Require Import ZArith QArith List String Ascii Bool Lia.
From Stdlib Require Import DecimalString DecimalPos DecimalZ.
Import ListNotations.

Local Open Scope Z_scope.

(* ================================================================== *)
(** ** Numbers *)

(** Nearest integer to [num / den] for [0 < den], ties to the even one. *)
Definition round_half_even (num den : Z) : Z :=
  let fl := num / den in
  match 2 * (num mod den) ?= den with
  | Lt => fl
  | Gt => fl + 1
  | Eq => if Z.even fl then fl else fl + 1
  end.

Definition pow10 (ndigits : nat) : positive := Z.to_pos (10 ^ Z.of_nat ndigits).

(** [round(x, ndigits)]: the decimal with [ndigits] digits nearest to [x]. *)
Definition py_round (x : Q) (ndigits : nat) : Q :=
  Qmake (round_half_even (Qnum x * Zpos (pow10 ndigits)) (Zpos (Qden x)))
        (pow10 ndigits).

(* ================================================================== *)
(** ** Binary64 floats

    A double is held as its exact value, a rational in lowest terms. *)

(** [floor (log2 (n / d))] for [0 < n] and [0 < d]. *)
Definition floor_log2 (n d : Z) : Z :=
  let g := Z.log2 n - Z.log2 d in
  if (if 0 <=? g then d * 2 ^ g <=? n else d <=? n * 2 ^ (- g)) then g
  else g - 1.

(** The exponent of the last bit of the 53-bit significand of [q]; -1074
    is the last bit of the subnormal numbers. *)
Definition ulp_exp (q : Q) : Z :=
  Z.max (floor_log2 (Z.abs (Qnum q)) (Zpos (Qden q)) - 52) (-1074).

(** The double nearest to [q], ties to the even significand. *)
Definition rnd64 (q : Q) : Q :=
  if Qnum q =? 0 then 0%Q
  else
    let e := ulp_exp q in
    Qred (if 0 <=? e
          then inject_Z (round_half_even (Qnum q) (Zpos (Qden q) * 2 ^ e)
                         * 2 ^ e)
          else Qmake (round_half_even (Qnum q * 2 ^ (- e)) (Zpos (Qden q)))
                     (Z.to_pos (2 ^ (- e)))).

(** [float(z)], the conversion Python applies to an [int] operand. *)
Definition float_of_Z (z : Z) : Q := rnd64 (inject_Z z).

(** A decimal literal of the source, such as [0.6]. *)
Definition float_lit (q : Q) : Q := rnd64 q.

(** [x + y], [x - y], [x * y] and [x / y] on floats. *)
Definition fadd (x y : Q) : Q := rnd64 (x + y).
Definition fsub (x y : Q) : Q := rnd64 (x - y).
Definition fmul (x y : Q) : Q := rnd64 (x * y).
Definition fdiv (x y : Q) : Q := rnd64 (x / y).

(** The count of units of 10^-ndigits nearest to [x], ties to even. *)
Definition units (x : Q) (ndigits : nat) : Z :=
  round_half_even (Qnum x * Zpos (pow10 ndigits)) (Zpos (Qden x)).

(** The float written with [ndigits] decimals as [t / 10^ndigits]: the
    double nearest to that decimal number. *)
Definition dec (ndigits : nat) (t : Z) : Q := rnd64 (Qmake t (pow10 ndigits)).

(** [round(x, ndigits)] on a float: the exact value of [x] is rounded to
    the nearest decimal, ties to even, and the decimal is read back as a
    double. *)
Definition float_round (x : Q) (ndigits : nat) : Q := dec ndigits (units x ndigits).

(** [x == y] on floats. *)
Definition same_float (x y : Q) : bool :=
  (Qnum x =? Qnum y) && (Z.pos (Qden x) =? Z.pos (Qden y)).

(* ================================================================== *)
(** ** The world: random source and clock *)

Record world := mkWorld {
  tape  : nat -> Z;   (* raw draws of the shared generator *)
  pos   : nat;        (* draws consumed so far *)
  clock : nat -> Z;   (* clock readings, microseconds since day 0, 00:00 *)
  tick  : nat         (* readings consumed so far *)
}.

Definition M (A : Type) : Type := world -> option (A * world).

Definition ret {A} (a : A) : M A := fun w => Some (a, w).

Definition bind {A B} (m : M A) (k : A -> M B) : M B :=
  fun w => match m w with
           | Some (a, w') => k a w'
           | None => None
           end.

Definition raise {A} : M A := fun _ => None.

Definition lift {A} (o : option A) : M A :=
  fun w => match o with Some a => Some (a, w) | None => None end.

Notation "x <- c ;; k" := (bind c (fun x => k))
  (at level 61, c at next level, right associativity).

(** The value of a computation, the final world dropped. *)
Definition run {A} (m : M A) (w : world) : option A :=
  match m w with Some (a, _) => Some a | None => None end.

(** One raw draw. *)
Definition draw : M Z :=
  fun w => Some (tape w (pos w),
                 mkWorld (tape w) (S (pos w)) (clock w) (tick w)).

(** [_randbelow(n)] for [0 < n]. *)
Definition randbelow (n : Z) : M Z :=
  t <- draw ;; ret (t mod n).

(** [random.randrange(stop)]: [ValueError] on an empty range. *)
Definition randrange (stop : Z) : M Z :=
  if 0 <? stop then randbelow stop else raise.

(** [random.randint(a, b)] is [randrange(a, b + 1)]: [a + _randbelow(b + 1 - a)]. *)
Definition randint (a b : Z) : M Z :=
  let width := b + 1 - a in
  if 0 <? width then (r <- randbelow width ;; ret (a + r)) else raise.

(** [random.choice(seq)] is [seq[_randbelow(len(seq))]]: [IndexError] on []. *)
Definition choice {A} (seq : list A) : M A :=
  match seq with
  | [] => raise
  | _ => i <- randbelow (Z.of_nat (List.length seq)) ;;
         lift (nth_error seq (Z.to_nat i))
  end.

(** [random.random()]: a multiple of 2^-53 in [0, 1). *)
Definition random : M Q :=
  t <- draw ;; ret (Qmake (t mod 2 ^ 53) (Z.to_pos (2 ^ 53))).

(** [random.uniform(a, b)] is [a + (b - a) * random()]; both callers
    pass [int] bounds, so [b - a] is exact and is converted to a float by
    the product, and [a] by the sum. *)
Definition uniform (a b : Z) : M Q :=
  r <- random ;; ret (fadd (float_of_Z a) (fmul (float_of_Z (b - a)) r)).

(** [for i in range(count): rows.append(body(i))], from index [i]. *)
Fixpoint for_range_from {A} (i : Z) (count : nat) (body : Z -> M A) : M (list A) :=
  match count with
  | O => ret []
  | S c => x <- body i ;; xs <- for_range_from (i + 1) c body ;; ret (x :: xs)
  end.

Definition for_range {A} (count : nat) (body : Z -> M A) : M (list A) :=
  for_range_from 0 count body.

(* ================================================================== *)
(** ** Strings *)

Local Open Scope string_scope.

(** [str(n)] for an int. *)
Definition str (n : Z) : string := NilZero.string_of_int (Z.to_int n).

Fixpoint zeros (n : nat) : string :=
  match n with O => "" | S k => String "0" (zeros k) end.

(** [s.zfill(width)]: zeros go after a leading sign. *)
Definition zfill (s : string) (width : nat) : string :=
  let pad := zeros (width - String.length s) in
  match s with
  | String c rest =>
      if (Ascii.eqb c "-" || Ascii.eqb c "+")%bool
      then String c (pad ++ rest) else pad ++ s
  | EmptyString => pad
  end.

Definition digit_of (c : ascii) : option Z :=
  let n := Z.of_nat (nat_of_ascii c) in
  if ((48 <=? n)%Z && (n <=? 57)%Z)%bool then Some (n - 48)%Z else None.

(** Reads back two decimal digits. *)
Definition parse2 (a b : ascii) : option Z :=
  match digit_of a, digit_of b with
  | Some x, Some y => Some (10 * x + y)%Z
  | _, _ => None
  end.

(** Reads back a time of day printed as HH:MM:SS. *)
Definition parse_HMS (s : string) : option (Z * Z * Z) :=
  match s with
  | String h1 (String h2 (String c1 (String m1 (String m2
      (String c2 (String s1 (String s2 EmptyString))))))) =>
      if (Ascii.eqb c1 ":" && Ascii.eqb c2 ":")%bool then
        match parse2 h1 h2, parse2 m1 m2, parse2 s1 s2 with
        | Some h, Some m, Some s => Some (h, m, s)
        | _, _, _ => None
        end
      else None
  | _ => None
  end.

Local Close Scope string_scope.

(* ================================================================== *)
(** ** [timedelta] and [datetime]

    A [datetime] holds its date as the proleptic Gregorian ordinal
    ([toordinal()]: day 1 is 0001-01-01) and its time of day as fields;
    year, month and day are recovered for printing by [ord2ymd]. *)

Record timedelta := mkTimedelta { days : Z; seconds : Z; microseconds : Z }.

(** [timedelta(days, seconds, microseconds)]: the constructor normalises to
    [0 <= seconds < 86400] and [0 <= microseconds < 1000000]. *)
Definition timedelta_of (d s us : Z) : timedelta :=
  let total := (d * 86400 + s) * 1000000 + us in
  mkTimedelta (total / 86400000000)
              ((total mod 86400000000) / 1000000)
              (total mod 1000000).

Definition td_add (a b : timedelta) : timedelta :=
  timedelta_of (days a + days b) (seconds a + seconds b)
               (microseconds a + microseconds b).

Definition td_neg (a : timedelta) : timedelta :=
  timedelta_of (- days a) (- seconds a) (- microseconds a).

Record datetime := mkDatetime {
  ordinal : Z; hour : Z; minute : Z; second : Z; microsecond : Z
}.

Definition MAXORDINAL : Z := 3652059.   (* 9999-12-31 *)

(** The invariant of a Python [datetime] object. *)
Definition valid_datetime (d : datetime) : Prop :=
  1 <= ordinal d <= MAXORDINAL /\ 0 <= hour d < 24 /\ 0 <= minute d < 60 /\
  0 <= second d < 60 /\ 0 <= microsecond d < 1000000.

Definition is_leap (year : Z) : bool :=
  (year mod 4 =? 0) && (negb (year mod 100 =? 0) || (year mod 400 =? 0)).

Definition DAYS_IN_MONTH : list Z :=
  [-1; 31; 28; 31; 30; 31; 30; 31; 31; 30; 31; 30; 31].

Definition DAYS_BEFORE_MONTH : list Z :=
  [-1; 0; 31; 59; 90; 120; 151; 181; 212; 243; 273; 304; 334].

Definition days_before_year (year : Z) : Z :=
  let y := year - 1 in y * 365 + y / 4 - y / 100 + y / 400.

Definition days_before_month (year month : Z) : Z :=
  nth (Z.to_nat month) DAYS_BEFORE_MONTH 0
  + (if (2 <? month) && is_leap year then 1 else 0).

Definition ymd2ord (year month day : Z) : Z :=
  days_before_year year + days_before_month year month + day.

(** [datetime(year, month, day)], at midnight. *)
Definition datetime_ymd (year month day : Z) : datetime :=
  mkDatetime (ymd2ord year month day) 0 0 0 0.

(** Ordinal to (year, month, day), by 400-, 100-, 4- and 1-year cycles. *)
Definition ord2ymd (n0 : Z) : Z * Z * Z :=
  let n := n0 - 1 in
  let n400 := n / 146097 in let n := n mod 146097 in
  let year := n400 * 400 + 1 in
  let n100 := n / 36524 in let n := n mod 36524 in
  let n4 := n / 1461 in let n := n mod 1461 in
  let n1 := n / 365 in let n := n mod 365 in
  let year := year + n100 * 100 + n4 * 4 + n1 in
  if (n1 =? 4) || (n100 =? 4) then (year - 1, 12, 31)
  else
    let leapyear := (n1 =? 3) && (negb (n4 =? 24) || (n100 =? 3)) in
    let month := Z.shiftr (n + 50) 5 in
    let preceding := nth (Z.to_nat month) DAYS_BEFORE_MONTH 0
                     + (if (2 <? month) && leapyear then 1 else 0) in
    if n <? preceding then
      let month := month - 1 in
      let preceding := preceding
                       - (nth (Z.to_nat month) DAYS_IN_MONTH 0
                          + (if (month =? 2) && leapyear then 1 else 0)) in
      (year, month, n - preceding + 1)
    else (year, month, n - preceding + 1).

(** [a - b] for two datetimes. *)
Definition dt_sub (a b : datetime) : timedelta :=
  timedelta_of (ordinal a - ordinal b)
               ((second a + minute a * 60 + hour a * 3600)
                - (second b + minute b * 60 + hour b * 3600))
               (microsecond a - microsecond b).

(** [a + td]: [OverflowError] when the date leaves years 1..9999. *)
Definition dt_add (a : datetime) (td : timedelta) : option datetime :=
  let delta := td_add (timedelta_of (ordinal a)
                                    (hour a * 3600 + minute a * 60 + second a)
                                    (microsecond a)) td in
  let h := seconds delta / 3600 in
  let rem := seconds delta mod 3600 in
  if (0 <? days delta) && (days delta <=? MAXORDINAL)
  then Some (mkDatetime (days delta) h (rem / 60) (rem mod 60) (microseconds delta))
  else None.

(** [a - td] is [a + (-td)]. *)
Definition dt_sub_td (a : datetime) (td : timedelta) : option datetime :=
  dt_add a (td_neg td).

(** [d.replace(hour=h, minute=m)]: [ValueError] outside 0..23 and 0..59. *)
Definition dt_replace (d : datetime) (h m : Z) : option datetime :=
  if (0 <=? h) && (h <? 24) && (0 <=? m) && (m <? 60)
  then Some (mkDatetime (ordinal d) h m (second d) (microsecond d))
  else None.

(** The reading of the clock as a datetime; the date must be in years 1..9999. *)
Definition fromtimestamp (t : Z) : option datetime :=
  let d := t / 86400000000 in
  let us := t mod 86400000000 in
  if (1 <=? d) && (d <=? MAXORDINAL)
  then Some (mkDatetime d (us / 3600000000) (us / 60000000 mod 60)
                        (us / 1000000 mod 60) (us mod 1000000))
  else None.

(** [datetime.now()]: consumes one clock reading. *)
Definition datetime_now : M datetime :=
  fun w => match fromtimestamp (clock w (tick w)) with
           | Some d => Some (d, mkWorld (tape w) (pos w) (clock w) (S (tick w)))
           | None => None
           end.

(** Position of a datetime on the time line, in microseconds; datetimes
    compare by it. *)
Definition dt_key (d : datetime) : Z :=
  (((ordinal d * 24 + hour d) * 60 + minute d) * 60 + second d) * 1000000
  + microsecond d.

Definition dt_le (a b : datetime) : Prop := dt_key a <= dt_key b.
Definition dt_lt (a b : datetime) : Prop := dt_key a < dt_key b.

Local Open Scope string_scope.

(** [d.strftime('%Y-%m-%d')]. *)
Definition strftime_Ymd (d : datetime) : string :=
  let '(y, m, dd) := ord2ymd (ordinal d) in
  zfill (str y) 4 ++ "-" ++ zfill (str m) 2 ++ "-" ++ zfill (str dd) 2.

(** [d.strftime('%H:%M:%S')]. *)
Definition strftime_HMS (d : datetime) : string :=
  zfill (str (hour d)) 2 ++ ":" ++ zfill (str (minute d)) 2 ++ ":"
  ++ zfill (str (second d)) 2.

(** [d.strftime('%Y-%m')]. *)
Definition strftime_Ym (d : datetime) : string :=
  let '(y, m, _) := ord2ymd (ordinal d) in
  zfill (str y) 4 ++ "-" ++ zfill (str m) 2.

(** [d.strftime('%Y%m')]. *)
Definition strftime_Ym_compact (d : datetime) : string :=
  let '(y, m, _) := ord2ymd (ordinal d) in
  zfill (str y) 4 ++ zfill (str m) 2.

(** [f'EMP{str(n).zfill(4)}']. *)
Definition emp_id (n : Z) : string := "EMP" ++ zfill (str n) 4.

(* ================================================================== *)
(** ** Reading printed dates back *)

(** Reads back four decimal digits. *)
Definition parse4 (a b c d : ascii) : option Z :=
  match digit_of a, digit_of b, digit_of c, digit_of d with
  | Some x, Some y, Some z, Some t => Some (1000 * x + 100 * y + 10 * z + t)%Z
  | _, _, _, _ => None
  end.

(** Reads back a date printed as YYYY-MM-DD. *)
Definition parse_Ymd (s : string) : option (Z * Z * Z) :=
  match s with
  | String y1 (String y2 (String y3 (String y4 (String c1 (String m1
      (String m2 (String c2 (String d1 (String d2 EmptyString))))))))) =>
      if (Ascii.eqb c1 "-" && Ascii.eqb c2 "-")%bool then
        match parse4 y1 y2 y3 y4, parse2 m1 m2, parse2 d1 d2 with
        | Some y, Some m, Some d => Some (y, m, d)
        | _, _, _ => None
        end
      else None
  | _ => None
  end.

(** The day number of a printed date. *)
Definition date_ordinal (s : string) : option Z :=
  match parse_Ymd s with
  | Some (y, m, d) => Some (ymd2ord y m d)
  | None => None
  end.

(** Checks run over a range of integers. *)
Fixpoint all_from (check : Z -> bool) (n : Z) (count : nat) : bool :=
  match count with
  | O => true
  | S c => (check n && all_from check (n + 1)%Z c)%bool
  end.

(** A year printed on four digits reads back. *)
Definition four_digits_ok (y : Z) : bool :=
  match zfill (str y) 4 with
  | String a (String b (String c (String d EmptyString))) =>
      match parse4 a b c d with Some v => (v =? y)%Z | None => false end
  | _ => false
  end.

(** Day [n] of the first 400-year cycle: [ord2ymd] gives a date of years
    1..400 whose day number is [n]. *)
Definition cycle_day_ok (n : Z) : bool :=
  let '(y, m, d) := ord2ymd n in
  ((ymd2ord y m d =? n) && (1 <=? y) && (y <=? 400)
   && (1 <=? m) && (m <=? 12) && (1 <=? d) && (d <=? 31))%Z%bool.

(* ================================================================== *)
(** ** Lookup pools and helpers of the script *)

Definition LAST_NAMES : list string :=
  ["张"; "王"; "李"; "赵"; "陈"; "刘"; "杨"; "黄"; "周"; "吴";
   "徐"; "孙"; "马"; "朱"; "胡"; "郭"; "何"; "高"; "林"; "罗"].

Definition FIRST_NAMES : list string :=
  ["伟"; "芳"; "娜"; "敏"; "静"; "丽"; "强"; "磊"; "军"; "洋";
   "勇"; "艳"; "杰"; "涛"; "明"; "超"; "秀英"; "霞"; "平"; "刚";
   "桂英"; "建华"; "建国"; "国强"; "志强"; "秀兰"; "桂兰"; "春梅"].

Definition generate_name : M string :=
  a <- choice LAST_NAMES ;; b <- choice FIRST_NAMES ;; ret (a ++ b).

Local Close Scope string_scope.

Definition random_date (start_date end_date : datetime) : M datetime :=
  let time_between := dt_sub end_date start_date in
  let days_between := days time_between in
  random_days <- randrange days_between ;;
  lift (dt_add start_date (timedelta_of random_days 0 0)).

(* ================================================================== *)
(** ** Table 3: attendance ([generate_attendance]) *)

Module Attendance.
Local Open Scope string_scope.

Record row := mkRow {
  emp : string;           (* 工号 *)
  name : string;          (* 姓名 *)
  date : string;          (* 考勤日期 *)
  check_in : string;      (* 上班打卡时间 *)
  check_out : string;     (* 下班打卡时间 *)
  work_hours : Q;         (* 工作时长(小时) *)
  status : string;        (* 考勤状态 *)
  late_minutes : Z;       (* 迟到分钟 *)
  early_minutes : Z;      (* 早退分钟 *)
  location : string;      (* 打卡地点 *)
  source : string;        (* 打卡来源 *)
  remark : string         (* 异常说明 *)
}.

Definition LATE := "迟到".
Definition EARLY := "早退".
Definition NORMAL := "正常".
Definition LEAVE := "请假".

(** One iteration of the loop: the row appended. *)
Definition body (i : Z) : M row :=
  now <- datetime_now ;;
  back <- randint 1 30 ;;
  attendance_date <- lift (dt_sub_td now (timedelta_of back 0 0)) ;;
  drawn_minute <- randint 0 60 ;;
  let check_in_hour := if (30 <? drawn_minute)%Z then 9%Z else 8%Z in
  let check_in_minute :=
    if (30 <? drawn_minute)%Z then (drawn_minute - 30)%Z else drawn_minute in
  check_in_time <- lift (dt_replace attendance_date check_in_hour check_in_minute) ;;
  check_out_hour <- randint 17 18 ;;
  check_out_minute <-
    (if (check_out_hour =? 17)%Z then randint 30 59 else randint 0 59) ;;
  check_out_time <- lift (dt_replace attendance_date check_out_hour check_out_minute) ;;
  let work_hours :=
    py_round (inject_Z (seconds (dt_sub check_out_time check_in_time)) / 3600)%Q 2 in
  status <-
    (if ((30 <? check_in_minute)%Z && (check_in_hour =? 9)%Z)%bool then ret LATE
     else if (check_out_hour <? 18)%Z then ret EARLY
     else choice [NORMAL; NORMAL; NORMAL; NORMAL; LEAVE]) ;;
  emp_no <- randint 1 20 ;;
  name <- generate_name ;;
  location <- choice ["公司总部"; "分公司"; "客户现场"] ;;
  source <- choice ["钉钉"; "钉钉"; "钉钉"; "手动录入"] ;;
  remark <-
    (if String.eqb status NORMAL then ret ""
     else choice ["交通拥堵"; "临时会议"; "外出办事"; ""]) ;;
  ret (mkRow (emp_id emp_no) name
             (strftime_Ymd attendance_date)
             (strftime_HMS check_in_time)
             (strftime_HMS check_out_time)
             work_hours
             status
             (if (check_in_hour =? 9)%Z then Z.max 0 (check_in_minute - 30) else 0%Z)
             (Z.max 0 (18 * 60 - (check_out_hour * 60 + check_out_minute)))
             location source remark).

Definition generate_attendance (count : nat) : M (list row) :=
  for_range count body.

End Attendance.

(* ================================================================== *)
(** ** Table 4: leave balances ([generate_annual_leaves]) *)

Module AnnualLeave.
Local Open Scope string_scope.

Record row := mkRow {
  emp : string;           (* 工号 *)
  name : string;          (* 姓名 *)
  year : Z;               (* 年度 *)
  total_days : Z;         (* 总天数 *)
  used_days : Q;          (* 已使用天数 *)
  remaining_days : Q;     (* 剩余天数 *)
  annual_days : Q;        (* 年假天数 *)
  sick_days : Q;          (* 病假天数 *)
  personal_days : Q;      (* 事假天数 *)
  comp_days : Z;          (* 调休天数 *)
  comp_used : Z;          (* 已使用调休 *)
  seniority : Z;          (* 工龄(年) *)
  status : string         (* 状态 *)
}.

Definition body (i : Z) : M row :=
  total <- choice [5; 7; 10; 12; 15]%Z ;;
  u <- uniform 0 total ;;
  let used := float_round u 1 in
  name <- generate_name ;;
  comp <- randint 0 3 ;;
  comp_u <- randint 0 2 ;;
  years <- randint 1 10 ;;
  ret (mkRow (emp_id (i + 1)) name 2024 total used
             (float_round (fsub (float_of_Z total) used) 1)
             (float_round (fmul used (float_lit 0.6)) 1)
             (float_round (fmul used (float_lit 0.2)) 1)
             (float_round (fmul used (float_lit 0.2)) 1)
             comp comp_u years "生效").

Definition generate_annual_leaves (count : nat) : M (list row) :=
  for_range count body.

End AnnualLeave.

(* ================================================================== *)
(** ** Table 5: social security and housing fund ([generate_social_security]) *)

Module SocialSecurity.
Local Open Scope string_scope.

Record row := mkRow {
  emp : string;                   (* 工号 *)
  name : string;                  (* 姓名 *)
  month : string;                 (* 年月 *)
  base_amount : Z;                (* 缴纳基数 *)
  pension_company : Q;            (* 养老保险-公司 *)
  pension_personal : Q;           (* 养老保险-个人 *)
  medical_company : Q;            (* 医疗保险-公司 *)
  medical_personal : Q;           (* 医疗保险-个人 *)
  unemployment_company : Q;       (* 失业保险-公司 *)
  unemployment_personal : Q;      (* 失业保险-个人 *)
  injury_company : Q;             (* 工伤保险-公司 *)
  maternity_company : Q;          (* 生育保险-公司 *)
  housing_fund_company : Q;       (* 住房公积金-公司 *)
  housing_fund_personal : Q;      (* 住房公积金-个人 *)
  company_total : Q;              (* 公司合计 *)
  personal_total : Q;             (* 个人合计 *)
  grand_total : Q;                (* 总计 *)
  pay_status : string             (* 缴纳状态 *)
}.

Definition body (i : Z) : M row :=
  base <- choice [5000; 6000; 8000; 10000; 12000; 15000; 20000]%Z ;;
  let b := inject_Z base in
  let pension_c := py_round (b * 0.16) 2 in
  let pension_p := py_round (b * 0.08) 2 in
  let medical_c := py_round (b * 0.10) 2 in
  let medical_p := py_round (b * 0.02) 2 in
  let unemployment_c := py_round (b * 0.007) 2 in
  let unemployment_p := py_round (b * 0.003) 2 in
  let injury_c := py_round (b * 0.005) 2 in
  let maternity_c := py_round (b * 0.008) 2 in
  let housing_c := py_round (b * 0.12) 2 in
  let housing_p := py_round (b * 0.12) 2 in
  let total_company :=
    (pension_c + medical_c + unemployment_c + injury_c + maternity_c + housing_c)%Q in
  let total_personal :=
    (pension_p + medical_p + unemployment_p + housing_p)%Q in
  name <- generate_name ;;
  now <- datetime_now ;;
  back <- randint 0 180 ;;
  paid <- lift (dt_sub_td now (timedelta_of back 0 0)) ;;
  st <- choice ["已缴纳"; "已缴纳"; "待缴纳"] ;;
  ret (mkRow (emp_id (i + 1)) name (strftime_Ym paid) base
             pension_c pension_p medical_c medical_p
             unemployment_c unemployment_p injury_c maternity_c
             housing_c housing_p
             (py_round total_company 2)
             (py_round total_personal 2)
             (py_round (total_company + total_personal) 2)
             st).

Definition generate_social_security (count : nat) : M (list row) :=
  for_range count body.

End SocialSecurity.

(* ================================================================== *)
(** ** Table 6: business trips ([generate_business_trips]) *)

Module BusinessTrip.
Local Open Scope string_scope.

Record row := mkRow {
  trip_no : string;        (* 出差单号 *)
  emp : string;            (* 工号 *)
  name : string;           (* 姓名 *)
  destination : string;    (* 出差目的地 *)
  reason : string;         (* 出差事由 *)
  start_date : string;     (* 开始日期 *)
  end_date : string;       (* 结束日期 *)
  trip_days : Z;           (* 出差天数 *)
  daily_allowance : Z;     (* 日补助标准 *)
  accommodation : Z;       (* 住宿补助 *)
  transportation : Z;      (* 交通补助 *)
  meal : Z;                (* 餐饮补助 *)
  total : Z;               (* 补助总额 *)
  approval : string;       (* 审批状态 *)
  submitted : string       (* 提交日期 *)
}.

Definition destinations : list string :=
  ["北京"; "上海"; "广州"; "深圳"; "杭州"; "成都"; "武汉"; "西安"; "南京"; "重庆"].

Definition body (i : Z) : M row :=
  now1 <- datetime_now ;;
  from <- lift (dt_sub_td now1 (timedelta_of 90 0 0)) ;;
  now2 <- datetime_now ;;
  start <- random_date from now2 ;;
  n <- randint 1 7 ;;
  finish <- lift (dt_add start (timedelta_of n 0 0)) ;;
  daily <- choice [200; 300; 400; 500]%Z ;;
  room_rate <- randint 200 800 ;;
  let accommodation := (room_rate * n)%Z in
  transportation <- randint 500 2000 ;;
  meal_rate <- randint 100 300 ;;
  let meal := (meal_rate * n)%Z in
  let total := (daily * n + accommodation + transportation + meal)%Z in
  now3 <- datetime_now ;;
  emp_no <- randint 1 20 ;;
  name <- generate_name ;;
  dest <- choice destinations ;;
  why <- choice ["客户拜访"; "项目实施"; "技术培训"; "业务洽谈"; "会议参加"] ;;
  appr <- choice ["待审批"; "已批准"; "已批准"; "已支付"] ;;
  ret (mkRow ("BT" ++ strftime_Ym_compact now3 ++ zfill (str (i + 1)) 4)
             (emp_id emp_no) name dest why
             (strftime_Ymd start) (strftime_Ymd finish)
             n daily accommodation transportation meal total
             appr (strftime_Ymd start)).

Definition generate_business_trips (count : nat) : M (list row) :=
  for_range count body.

End BusinessTrip.

(* ================================================================== *)
(** ** Table 7: canteen meals ([generate_meal_records]) *)

Module Meal.
Local Open Scope string_scope.

Record row := mkRow {
  emp : string;            (* 工号 *)
  name : string;           (* 姓名 *)
  date : string;           (* 就餐日期 *)
  meal_type : string;      (* 餐次类型 *)
  canteen : string;        (* 食堂位置 *)
  original_amount : Q;     (* 原价金额 *)
  subsidy : Q;             (* 补贴金额 *)
  actual_amount : Q;       (* 实付金额 *)
  payment : string;        (* 支付方式 *)
  rating : Z               (* 评分 *)
}.

(** The dict [meal_types], in insertion order. *)
Definition meal_types : list (string * (Z * Z)) :=
  [("早餐", (5, 15)); ("午餐", (15, 30)); ("晚餐", (15, 35))]%Z.

(** [meal_types[key]]: [KeyError] on a missing key. *)
Fixpoint lookup (key : string) (d : list (string * (Z * Z))) : option (Z * Z) :=
  match d with
  | [] => None
  | (k, v) :: rest => if String.eqb k key then Some v else lookup key rest
  end.

(** The subsidy ratios [[0.5, 0.6, 0.8]]. *)
Definition ratios : list Q := [float_lit 0.5; float_lit 0.6; float_lit 0.8].

Definition body (i : Z) : M row :=
  mt <- choice (map fst meal_types) ;;
  price_range <- lift (lookup mt meal_types) ;;
  u <- uniform (fst price_range) (snd price_range) ;;
  let original := float_round u 2 in
  fraction <- choice ratios ;;
  let subsidy := float_round (fmul original fraction) 2 in
  let actual := float_round (fsub original subsidy) 2 in
  emp_no <- randint 1 20 ;;
  name <- generate_name ;;
  now <- datetime_now ;;
  back <- randint 1 30 ;;
  day <- lift (dt_sub_td now (timedelta_of back 0 0)) ;;
  place <- choice ["总部一楼食堂"; "总部二楼食堂"; "分部食堂"] ;;
  pay <- choice ["饭卡"; "饭卡"; "手机支付"; "现金"] ;;
  stars <- randint 3 5 ;;
  ret (mkRow (emp_id emp_no) name (strftime_Ymd day) mt place
             original subsidy actual pay stars).

Definition generate_meal_records (count : nat) : M (list row) :=
  for_range count body.

End Meal.

(* ================================================================== *)
(** ** Field synthesizers of the script *)

Local Open Scope string_scope.

(** [''.join([str(random.randint(0, 9)) for _ in range(n)])]. *)
Definition random_digits (n : nat) : M string :=
  ds <- for_range n (fun _ => d <- randint 0 9 ;; ret (str d)) ;;
  ret (String.concat "" ds).

Definition PHONE_PREFIXES : list string :=
  ["130"; "131"; "132"; "133"; "134"; "135"; "136"; "137"; "138"; "139";
   "150"; "151"; "152"; "153"; "155"; "156"; "157"; "158"; "159";
   "180"; "181"; "182"; "183"; "184"; "185"; "186"; "187"; "188"; "189"].

Definition generate_phone : M string :=
  prefix <- choice PHONE_PREFIXES ;;
  rest <- random_digits 8 ;;
  ret (prefix ++ rest).

Definition generate_id_card : M string :=
  let area_code := "110101" in
  birth_year <- randint 1970 2000 ;;
  m <- randint 1 12 ;;
  let birth_month := zfill (str m) 2 in
  d <- randint 1 28 ;;
  let birth_day := zfill (str d) 2 in
  let birth_date := str birth_year ++ birth_month ++ birth_day in
  sequence <- random_digits 3 ;;
  c <- randint 0 9 ;;
  let check_code := str c in
  ret (area_code ++ birth_date ++ sequence ++ check_code).

Definition generate_bank_card : M string :=
  rest <- random_digits 15 ;;
  ret ("6217" ++ rest).

(** [s.lower()] on the ASCII letters.  Python also lowers cased letters
    outside ASCII; the script lowers only names of the pools, which have no
    cased letter at all. *)
Definition lower_ascii (c : ascii) : ascii :=
  let n := nat_of_ascii c in
  if ((65 <=? n) && (n <=? 90))%nat then ascii_of_nat (n + 32) else c.

Fixpoint lower (s : string) : string :=
  match s with
  | EmptyString => EmptyString
  | String c rest => String (lower_ascii c) (lower rest)
  end.

Definition generate_email (name company : string) : M string :=
  n <- randint 100 999 ;;
  ret (lower name ++ "." ++ str n ++ "@" ++ company).

(** [d[key]] on a dict given in insertion order: [KeyError] is [None]. *)
Fixpoint dict_get {V} (d : list (string * V)) (key : string) : option V :=
  match d with
  | [] => None
  | (k, v) :: rest => if String.eqb k key then Some v else dict_get rest key
  end.

(** [for x in xs: rows.append(body(x))]. *)
Fixpoint for_each {A B} (xs : list A) (body : A -> M B) : M (list B) :=
  match xs with
  | [] => ret []
  | x :: rest => y <- body x ;; ys <- for_each rest body ;; ret (y :: ys)
  end.

(** [d.strftime('%Y-%m-%d %H:%M:%S')]. *)
Definition strftime_full (d : datetime) : string :=
  strftime_Ymd d ++ " " ++ strftime_HMS d.

Definition DEPARTMENTS : list string :=
  ["技术部"; "产品部"; "人力资源部"; "财务部"; "市场部"; "运营部"; "销售部"; "客服部"].

Definition POSITIONS_BY_DEPT : list (string * list string) :=
  [("技术部", ["Java工程师"; "Python工程师"; "前端工程师"; "测试工程师";
               "运维工程师"; "架构师"]);
   ("产品部", ["产品经理"; "产品助理"; "产品运营"; "UI设计师"; "UX设计师"]);
   ("人力资源部", ["HR专员"; "招聘经理"; "薪酬专员"; "HRBP"; "培训专员"]);
   ("财务部", ["会计"; "出纳"; "财务经理"; "审计专员"; "成本会计"]);
   ("市场部", ["市场专员"; "品牌经理"; "市场策划"; "渠道经理"; "商务拓展"]);
   ("运营部", ["运营专员"; "数据分析师"; "运营经理"; "用户运营"; "内容运营"]);
   ("销售部", ["销售代表"; "大客户经理"; "销售总监"; "销售助理"; "渠道销售"]);
   ("客服部", ["客服专员"; "客服主管"; "售后专员"; "客服经理"])].

Definition CITIES : list string :=
  ["北京"; "上海"; "广州"; "深圳"; "杭州"; "成都"; "武汉"; "西安"; "南京"; "重庆"].

Definition STREETS : list string :=
  ["中山路"; "人民路"; "建设路"; "解放路"; "和平路"; "新华路"; "胜利路"; "文化路"].

Local Close Scope string_scope.

(* ================================================================== *)
(** ** Table 1: employees ([generate_employees]) *)

Module Employee.
Local Open Scope string_scope.

Record row := mkRow {
  emp : string;                 (* 工号 *)
  name : string;                (* 姓名 *)
  gender : string;              (* 性别 *)
  birth_date : string;          (* 出生日期 *)
  id_card : string;             (* 身份证号 *)
  phone : string;               (* 手机号 *)
  email : string;               (* 邮箱 *)
  department : string;          (* 部门 *)
  position : string;            (* 职位 *)
  entry_date : string;          (* 入职日期 *)
  emp_status : string;          (* 员工状态 *)
  emp_type : string;            (* 用工类型 *)
  bank_card : string;           (* 银行卡号 *)
  address : string;             (* 家庭住址 *)
  emergency_contact : string;   (* 紧急联系人 *)
  emergency_phone : string      (* 紧急联系电话 *)
}.

Definition body (i : Z) : M row :=
  name <- generate_name ;;
  department <- choice DEPARTMENTS ;;
  positions <- lift (dict_get POSITIONS_BY_DEPT department) ;;
  position <- choice positions ;;
  entry <- random_date (datetime_ymd 2018 1 1) (datetime_ymd 2024 10 1) ;;
  gender <- choice ["男"; "女"] ;;
  birth <- random_date (datetime_ymd 1980 1 1) (datetime_ymd 2002 12 31) ;;
  id_card <- generate_id_card ;;
  phone <- generate_phone ;;
  email <- generate_email name "company.com" ;;
  st <- choice ["在职"; "在职"; "在职"; "在职"; "离职"] ;;
  ty <- choice ["全职"; "全职"; "全职"; "兼职"] ;;
  bank <- generate_bank_card ;;
  city <- choice CITIES ;;
  district <- choice ["朝阳区"; "海淀区"; "西城区"; "东城区"] ;;
  street <- choice STREETS ;;
  number <- randint 1 200 ;;
  contact <- generate_name ;;
  contact_phone <- generate_phone ;;
  ret (mkRow (emp_id (i + 1)) name gender (strftime_Ymd birth) id_card phone
             email department position (strftime_Ymd entry) st ty bank
             (city ++ "市" ++ district ++ street ++ str number ++ "号")
             contact contact_phone).

Definition generate_employees (count : nat) : M (list row) :=
  for_range count body.

End Employee.

(* ================================================================== *)
(** ** Table 2: departments ([generate_departments]) *)

Module Department.
Local Open Scope string_scope.

Record row := mkRow {
  name : string;          (* 部门名称 *)
  code : string;          (* 部门编码 *)
  parent : string;        (* 上级部门 *)
  head : string;          (* 部门负责人 *)
  headcount : Z;          (* 部门人数 *)
  founded : string;       (* 成立日期 *)
  status : string;        (* 部门状态 *)
  description : string    (* 部门描述 *)
}.

(** One entry of the dict [dept_info]: code, head and headcount. *)
Record info := mkInfo {
  info_code : string;     (* 编码 *)
  info_head : string;     (* 负责人 *)
  info_count : Z          (* 人数 *)
}.

Definition dept_info : list (string * info) :=
  [("技术部", mkInfo "TECH" "张伟" 25);
   ("产品部", mkInfo "PROD" "李明" 15);
   ("人力资源部", mkInfo "HR" "王芳" 8);
   ("财务部", mkInfo "FIN" "赵强" 10);
   ("市场部", mkInfo "MKT" "陈丽" 12);
   ("运营部", mkInfo "OPS" "刘勇" 18);
   ("销售部", mkInfo "SALES" "杨磊" 20);
   ("客服部", mkInfo "CS" "周娜" 15)].

Definition body (item : string * info) : M row :=
  let '(dept_name, inf) := item in
  day <- random_date (datetime_ymd 2015 1 1) (datetime_ymd 2020 12 31) ;;
  ret (mkRow dept_name (info_code inf)
             (if String.eqb dept_name "总经办" then "" else "总经办")
             (info_head inf) (info_count inf)
             (strftime_Ymd day) "启用"
             (dept_name ++ "负责公司的相关业务")).

Definition generate_departments : M (list row) :=
  for_each dept_info body.

End Department.

(* ================================================================== *)
(** ** Table 8: onboarding ([generate_onboarding]) *)

Module Onboarding.
Local Open Scope string_scope.

Record row := mkRow {
  emp : string;           (* 工号 *)
  name : string;          (* 姓名 *)
  status : string;        (* 流程状态 *)
  channel : string;       (* 推送渠道 *)
  pushed : string;        (* 推送时间 *)
  completed : string;     (* 表单完成时间 *)
  completeness : string;  (* 数据完整度 *)
  created : string;       (* 创建时间 *)
  created_by : string     (* 创建人 *)
}.

Definition body (i : Z) : M row :=
  now1 <- datetime_now ;;
  from <- lift (dt_sub_td now1 (timedelta_of 60 0 0)) ;;
  now2 <- datetime_now ;;
  created_date <- random_date from now2 ;;
  name <- generate_name ;;
  st <- choice ["待发送"; "已发送"; "已完成"; "已完成"; "已完成"] ;;
  ch <- choice ["钉钉"; "钉钉"; "短信"; "邮件"] ;;
  r <- random ;;
  done <-
    (if negb (Qle_bool r 0.3)
     then (n <- randint 1 7 ;;
           d <- lift (dt_add created_date (timedelta_of n 0 0)) ;;
           ret (strftime_full d))
     else ret "") ;;
  full <- choice ["100%"; "100%"; "80%"; "60%"] ;;
  by_whom <- choice ["HR001"; "HR002"; "HR003"] ;;
  ret (mkRow (emp_id (i + 1)) name st ch (strftime_full created_date) done
             full (strftime_full created_date) by_whom).

Definition generate_onboarding (count : nat) : M (list row) :=
  for_range count body.

End Onboarding.

(* ================================================================== *)
(** ** The driver ([main])

    The eight tables in the order [main] makes them.  Any exception ends
    the [try] block, so the tables after the failing one are not made. *)

Record tables := mkTables {
  t_employees : list Employee.row;
  t_departments : list Department.row;
  t_attendance : list Attendance.row;
  t_leaves : list AnnualLeave.row;
  t_contributions : list SocialSecurity.row;
  t_trips : list BusinessTrip.row;
  t_meals : list Meal.row;
  t_onboarding : list Onboarding.row
}.

Definition main : M tables :=
  e <- Employee.generate_employees 20 ;;
  d <- Department.generate_departments ;;
  a <- Attendance.generate_attendance 20 ;;
  l <- AnnualLeave.generate_annual_leaves 20 ;;
  c <- SocialSecurity.generate_social_security 20 ;;
  t <- BusinessTrip.generate_business_trips 20 ;;
  m <- Meal.generate_meal_records 20 ;;
  o <- Onboarding.generate_onboarding 20 ;;
  ret (mkTables e d a l c t m o).

(* ================================================================== *)
(** ** What one iteration of [Attendance.body] establishes

    [cin] and [cout] are the loop's [check_in_time] and [check_out_time],
    the datetimes the row prints. *)

Record att_inv (r : Attendance.row) (cin cout : datetime) : Prop := {
  ai_valid_in : valid_datetime cin;
  ai_valid_out : valid_datetime cout;
  ai_same_day : ordinal cout = ordinal cin;
  ai_same_second : second cout = second cin;
  ai_same_micro : microsecond cout = microsecond cin;
  ai_in_range : (hour cin = 8 /\ 0 <= minute cin <= 30) \/
                (hour cin = 9 /\ 1 <= minute cin <= 30);
  ai_out_range : (hour cout = 17 /\ 30 <= minute cout <= 59) \/
                 (hour cout = 18 /\ 0 <= minute cout <= 59);
  ai_check_in : Attendance.check_in r = strftime_HMS cin;
  ai_check_out : Attendance.check_out r = strftime_HMS cout;
  ai_work_hours :
    Attendance.work_hours r =
    py_round (inject_Z (seconds (dt_sub cout cin)) / 3600)%Q 2;
  ai_status :
    if (30 <? minute cin) && (hour cin =? 9)
    then Attendance.status r = Attendance.LATE
    else if hour cout <? 18 then Attendance.status r = Attendance.EARLY
    else Attendance.status r = Attendance.NORMAL \/
         Attendance.status r = Attendance.LEAVE;
  ai_late :
    Attendance.late_minutes r =
    if hour cin =? 9 then Z.max 0 (minute cin - 30) else 0;
  ai_early :
    Attendance.early_minutes r =
    Z.max 0 (18 * 60 - (hour cout * 60 + minute cout))
}.

(* ================================================================== *)
(** ** Properties of one attendance row

    Each is stated on the fields of the row alone: the check-in and
    check-out times are read back from the printed HH:MM:SS strings. *)

(** Worked hours: the time from check-in to check-out, in hours, to two
    decimals, and not negative. *)
Definition worked_hours_ok (r : Attendance.row) : Prop :=
  exists ih im isec oh om osec,
    parse_HMS (Attendance.check_in r) = Some (ih, im, isec) /\
    parse_HMS (Attendance.check_out r) = Some (oh, om, osec) /\
    Attendance.work_hours r =
      py_round (inject_Z ((oh * 3600 + om * 60 + osec)
                          - (ih * 3600 + im * 60 + isec)) / 3600)%Q 2 /\
    (0 <= Attendance.work_hours r)%Q.

(** Status: late exactly on minute > 30 in hour 9; otherwise early leave
    exactly on check-out hour < 18; otherwise normal or leave. *)
Definition status_ok (r : Attendance.row) : Prop :=
  exists ih im isec oh om osec,
    parse_HMS (Attendance.check_in r) = Some (ih, im, isec) /\
    parse_HMS (Attendance.check_out r) = Some (oh, om, osec) /\
    (Attendance.status r = Attendance.LATE <-> (30 < im /\ ih = 9)) /\
    (~ (30 < im /\ ih = 9) ->
     (Attendance.status r = Attendance.EARLY <-> oh < 18)) /\
    (~ (30 < im /\ ih = 9) -> ~ oh < 18 ->
     Attendance.status r = Attendance.NORMAL \/
     Attendance.status r = Attendance.LEAVE).

(** Lateness and early leave, as clamped differences against a start
    boundary [start_h:start_m] and the end boundary 18:00. *)
Definition clamped_minutes (start_h start_m : Z) (r : Attendance.row) : Prop :=
  exists ih im isec oh om osec,
    parse_HMS (Attendance.check_in r) = Some (ih, im, isec) /\
    parse_HMS (Attendance.check_out r) = Some (oh, om, osec) /\
    Attendance.late_minutes r =
      Z.max 0 ((ih * 60 + im) - (start_h * 60 + start_m)) /\
    Attendance.early_minutes r =
      Z.max 0 ((18 * 60 + 0) - (oh * 60 + om)).

(** No row is late: a check-in in hour 9 has its minute in 1..30. *)
Definition never_late (r : Attendance.row) : Prop :=
  Attendance.status r <> Attendance.LATE /\
  Attendance.late_minutes r = 0 /\
  exists ih im isec,
    parse_HMS (Attendance.check_in r) = Some (ih, im, isec) /\
    (ih = 9 -> 1 <= im <= 30).

(* ================================================================== *)
(** ** Properties of one leave-balance row *)

(** The three sub-category counts are the rounded fractions of the used
    days: [round(used * 0.6, 1)] and twice [round(used * 0.2, 1)]. *)
Definition subtotals_are_fractions (r : AnnualLeave.row) : Prop :=
  AnnualLeave.annual_days r
    = float_round (fmul (AnnualLeave.used_days r) (float_lit 0.6)) 1 /\
  AnnualLeave.sick_days r
    = float_round (fmul (AnnualLeave.used_days r) (float_lit 0.2)) 1 /\
  AnnualLeave.personal_days r
    = float_round (fmul (AnnualLeave.used_days r) (float_lit 0.2)) 1.

(** The sum of the three counts as Python adds floats. *)
Definition subtotals_sum (r : AnnualLeave.row) : Q :=
  fadd (fadd (AnnualLeave.annual_days r) (AnnualLeave.sick_days r))
       (AnnualLeave.personal_days r).

(** ... and sum exactly to the used days. *)
Definition subtotals_sum_exact (r : AnnualLeave.row) : Prop :=
  subtotals_are_fractions r /\
  subtotals_sum r = AnnualLeave.used_days r.

(** ... and, read as one-decimal numbers, sum to within one tenth of the
    used days: the four values are the doubles of [u], [a], [s] and [p]
    tenths, and [a + s + p] is [u - 1], [u] or [u + 1]. *)
Definition subtotals_sum_near (r : AnnualLeave.row) : Prop :=
  subtotals_are_fractions r /\
  exists u a s p,
    AnnualLeave.used_days r = dec 1 u /\
    AnnualLeave.annual_days r = dec 1 a /\
    AnnualLeave.sick_days r = dec 1 s /\
    AnnualLeave.personal_days r = dec 1 p /\
    0 <= u <= 150 /\
    u - 1 <= a + s + p <= u + 1.

(** The check of one used-days value of [t] tenths. *)
Definition shares_check (t : Z) : bool :=
  let used := dec 1 t in
  let a := units (fmul used (float_lit 0.6)) 1 in
  let s := units (fmul used (float_lit 0.2)) 1 in
  (t - 1 <=? a + s + s) && (a + s + s <=? t + 1).

(** The check that [round(total - used, 1)] is the double of
    [10 * total - t] tenths when [used] is the double of [t] tenths. *)
Definition remaining_check (total t : Z) : bool :=
  same_float (float_round (fsub (float_of_Z total) (dec 1 t)) 1)
             (dec 1 (10 * total - t)).

(* ================================================================== *)
(** ** Properties of one contribution row *)

(** A value with [ndigits] decimals. *)
Definition is_decimal (ndigits : nat) (x : Q) : Prop :=
  exists z, (x == Qmake z (pow10 ndigits))%Q.

Definition company_sum (r : SocialSecurity.row) : Q :=
  SocialSecurity.pension_company r + SocialSecurity.medical_company r
  + SocialSecurity.unemployment_company r + SocialSecurity.injury_company r
  + SocialSecurity.maternity_company r + SocialSecurity.housing_fund_company r.

Definition personal_sum (r : SocialSecurity.row) : Q :=
  SocialSecurity.pension_personal r + SocialSecurity.medical_personal r
  + SocialSecurity.unemployment_personal r
  + SocialSecurity.housing_fund_personal r.

(** The three totals are sums of their parts, and are values with two
    decimals. *)
Definition totals_ok (r : SocialSecurity.row) : Prop :=
  (SocialSecurity.company_total r == company_sum r)%Q /\
  (SocialSecurity.personal_total r == personal_sum r)%Q /\
  (SocialSecurity.grand_total r ==
   SocialSecurity.company_total r + SocialSecurity.personal_total r)%Q /\
  is_decimal 2 (SocialSecurity.company_total r) /\
  is_decimal 2 (SocialSecurity.personal_total r) /\
  is_decimal 2 (SocialSecurity.grand_total r).

(* ================================================================== *)
(** ** Properties of one trip row *)

(** The total is the sum of its four components, accommodation and meal
    are a daily rate times the days, and the printed end date is the
    printed start date plus the days, which are at least 1.  The dates
    are read back from the row's YYYY-MM-DD strings as day numbers. *)
Definition trip_ok (r : BusinessTrip.row) : Prop :=
  BusinessTrip.total r =
    BusinessTrip.daily_allowance r * BusinessTrip.trip_days r
    + BusinessTrip.accommodation r + BusinessTrip.transportation r
    + BusinessTrip.meal r /\
  (exists rate, 200 <= rate <= 800 /\
     BusinessTrip.accommodation r = rate * BusinessTrip.trip_days r) /\
  (exists rate, 100 <= rate <= 300 /\
     BusinessTrip.meal r = rate * BusinessTrip.trip_days r) /\
  1 <= BusinessTrip.trip_days r /\
  exists first last,
    date_ordinal (BusinessTrip.start_date r) = Some first /\
    date_ordinal (BusinessTrip.end_date r) = Some last /\
    last = first + BusinessTrip.trip_days r /\
    first <= last.

(* ================================================================== *)
(** ** Properties of one meal row *)

(** Paid = round(original - subsidy, 2); the three amounts are the
    doubles of [c], [s] and [c - s] hundredths, so that on the two-decimal
    numbers paid is exactly original minus subsidy; and the subsidy is less
    than the original price. *)
Definition meal_ok (r : Meal.row) : Prop :=
  Meal.actual_amount r
    = float_round (fsub (Meal.original_amount r) (Meal.subsidy r)) 2 /\
  (exists c s,
     500 <= c <= 3500 /\ 0 < s < c /\
     Meal.original_amount r = dec 2 c /\
     Meal.subsidy r = dec 2 s /\
     Meal.actual_amount r = dec 2 (c - s)) /\
  (Meal.subsidy r < Meal.original_amount r)%Q.

(** The check of one price of [c] hundredths and one subsidy ratio [f]. *)
Definition meal_check (f : Q) (c : Z) : bool :=
  let original := dec 2 c in
  let s := units (fmul original f) 2 in
  let subsidy := dec 2 s in
  let actual := float_round (fsub original subsidy) 2 in
  same_float actual (dec 2 (c - s))
  && (0 <? s) && (s <? c)
  && negb (Qle_bool original subsidy)
  && negb (Qle_bool subsidy 0)
  && negb (Qle_bool actual 0).

(* ================================================================== *)
(** ** Sample runs

    [sample_world] is a run with scattered draws starting at ordinal
    739000 (2024-04-24), 10:05:42.123456; the other worlds fix the first
    draws of one loop iteration by a table and read 0 afterwards. *)

Definition sample_tape (n : nat) : Z :=
  ((Z.of_nat n + 1) * 6364136223846793005 + 1442695040888963407) mod 2 ^ 61.

Definition sample_clock (n : nat) : Z :=
  (739000 * 86400 + 10 * 3600 + 5 * 60 + 42) * 1000000 + 123456
  + Z.of_nat n * 1000.

Definition sample_world : world := mkWorld sample_tape 0 sample_clock 0.

Definition table_tape (cells : list Z) (n : nat) : Z := nth n cells 0.

(** Check-in draw 45, that is 09:15; check-out 18:10. *)
Definition world_0915 : world :=
  mkWorld (table_tape [0; 45; 1; 10]) 0 sample_clock 0.

(** The same draws as [sample_world], the clock one second later. *)
Definition sample_world_later : world :=
  mkWorld sample_tape 0 (fun n => sample_clock n + 1000000) 0.

Definition sample_attendance : list Attendance.row :=
  Eval vm_compute in
    match run (Attendance.generate_attendance 3) sample_world with
    | Some rows => rows
    | None => []
    end.

Definition attendance_0915 : list Attendance.row :=
  Eval vm_compute in
    match run (Attendance.generate_attendance 1) world_0915 with
    | Some rows => rows
    | None => []
    end.

Definition sample_attendance_later : list Attendance.row :=
  Eval vm_compute in
    match run (Attendance.generate_attendance 3) sample_world_later with
    | Some rows => rows
    | None => []
    end.

(** Total 5 days and a draw that rounds to 0.3 used days. *)
Definition world_used_03 : world :=
  mkWorld (table_tape [0; 540431955284460]) 0 sample_clock 0.

Definition leaves_used_03 : list AnnualLeave.row :=
  Eval vm_compute in
    match run (AnnualLeave.generate_annual_leaves 1) world_used_03 with
    | Some rows => rows
    | None => []
    end.

Definition sample_leaves : list AnnualLeave.row :=
  Eval vm_compute in
    match run (AnnualLeave.generate_annual_leaves 3) sample_world with
    | Some rows => rows
    | None => []
    end.

Definition sample_contributions : list SocialSecurity.row :=
  Eval vm_compute in
    match run (SocialSecurity.generate_social_security 3) sample_world with
    | Some rows => rows
    | None => []
    end.

Definition sample_trips : list BusinessTrip.row :=
  Eval vm_compute in
    match run (BusinessTrip.generate_business_trips 3) sample_world with
    | Some rows => rows
    | None => []
    end.

Definition sample_meals : list Meal.row :=
  Eval vm_compute in
    match run (Meal.generate_meal_records 3) sample_world with
    | Some rows => rows
    | None => []
    end.

(** The dates handed to [random_date] by the counterexample of its range:
    midnight and noon of 2024-01-01. *)
Definition new_year_midnight : datetime := datetime_ymd 2024 1 1.
Definition new_year_noon : datetime :=
  mkDatetime (ymd2ord 2024 1 1) 12 0 0 0.
Definition early_april : datetime := datetime_ymd 2024 4 3.

(* ================================================================== *)
(** ** Runs that cannot raise *)

(** [m], run in any world whose clock is [c], returns a value that
    satisfies [Post], and leaves the clock as it is. *)
Definition succeeds {A} (c : nat -> Z) (m : M A) (Post : A -> Prop) : Prop :=
  forall w, clock w = c ->
  exists a w', m w = Some (a, w') /\ Post a /\ clock w' = c.

(** A clock all of whose readings are dates from day 181 (0001-06-30) to
    seven days before 9999-12-31, any two of them less than 59 days
    apart. *)
Definition sane_clock (c : nat -> Z) : Prop :=
  (forall n, 181 * 86400000000 <= c n < (MAXORDINAL - 6) * 86400000000) /\
  (forall i j, c i - c j < 59 * 86400000000).

(** [now] is a reading of the clock [c]. *)
Definition reading (c : nat -> Z) (now : datetime) : Prop :=
  exists n, fromtimestamp (c n) = Some now.

(* ================================================================== *)
(** ** Formats of the synthesized strings *)

Definition is_digit (c : ascii) : bool :=
  match digit_of c with Some _ => true | None => false end.

Fixpoint all_digits (s : string) : bool :=
  match s with
  | EmptyString => true
  | String c rest => is_digit c && all_digits rest
  end.

(** A phone number: 11 digits, the first three a carrier prefix. *)
Definition phone_ok (s : string) : Prop :=
  String.length s = 11%nat /\ all_digits s = true /\
  exists p, In p PHONE_PREFIXES /\ String.prefix p s = true.

(** The birth date held in characters 7 to 14 of an identity number. *)
Definition id_birth (s : string) : option (Z * Z * Z) :=
  match String.substring 6 8 s with
  | String y1 (String y2 (String y3 (String y4 (String m1 (String m2
      (String d1 (String d2 EmptyString))))))) =>
      match parse4 y1 y2 y3 y4, parse2 m1 m2, parse2 d1 d2 with
      | Some y, Some m, Some d => Some (y, m, d)
      | _, _, _ => None
      end
  | _ => None
  end.

(** An identity number: 18 digits, the area code 110101 first, then a
    birth date of 1970..2000 with month 1..12 and day 1..28. *)
Definition id_card_ok (s : string) : Prop :=
  String.length s = 18%nat /\ all_digits s = true /\
  String.prefix "110101" s = true /\
  exists y m d, id_birth s = Some (y, m, d) /\
                1970 <= y <= 2000 /\ 1 <= m <= 12 /\ 1 <= d <= 28.

(** A bank card number: 19 digits, the issuer prefix 6217 first. *)
Definition bank_card_ok (s : string) : Prop :=
  String.length s = 19%nat /\ all_digits s = true /\
  String.prefix "6217" s = true.

(** The integer written by a string of digits, leading zeros allowed. *)
Definition read_digits (s : string) : option Z :=
  match s with
  | EmptyString => None
  | _ => option_map Z.of_uint (NilEmpty.uint_of_string s)
  end.

(** The number inside an employee identifier EMPnnnn. *)
Definition emp_number (s : string) : option Z :=
  match s with
  | String e (String m (String p rest)) =>
      if (Ascii.eqb e "E" && Ascii.eqb m "M" && Ascii.eqb p "P")%bool
      then read_digits rest else None
  | _ => None
  end.

(** A year printed without padding reads back from its four digits. *)
Definition plain_year_ok (y : Z) : bool :=
  match str y with
  | String a (String b (String c (String d EmptyString))) =>
      match parse4 a b c d with Some v => v =? y | None => false end
  | _ => false
  end.

(* ================================================================== *)
(** ** What one iteration of [Employee.body] establishes *)

Record employee_inv (j : Z) (r : Employee.row) : Prop := {
  ei_emp : Employee.emp r = emp_id (j + 1);
  ei_name : exists a b, In a LAST_NAMES /\ In b FIRST_NAMES /\
                        Employee.name r = (a ++ b)%string;
  ei_department : In (Employee.department r) DEPARTMENTS;
  ei_position :
    exists ps, dict_get POSITIONS_BY_DEPT (Employee.department r) = Some ps
               /\ In (Employee.position r) ps;
  ei_entry :
    exists o, date_ordinal (Employee.entry_date r) = Some o /\
              ymd2ord 2018 1 1 <= o < ymd2ord 2024 10 1;
  ei_birth :
    exists o, date_ordinal (Employee.birth_date r) = Some o /\
              ymd2ord 1980 1 1 <= o < ymd2ord 2002 12 31;
  ei_id_card : id_card_ok (Employee.id_card r);
  ei_phone : phone_ok (Employee.phone r);
  ei_emergency_phone : phone_ok (Employee.emergency_phone r);
  ei_bank_card : bank_card_ok (Employee.bank_card r);
  ei_email :
    exists n, 100 <= n <= 999 /\
              Employee.email r
              = (Employee.name r ++ "." ++ str n ++ "@company.com")%string
}.

(* ================================================================== *)
(** ** What one iteration of [Department.body] establishes *)

Record department_inv (item : string * Department.info)
                      (r : Department.row) : Prop := {
  di_name : Department.name r = fst item;
  di_code : Department.code r = Department.info_code (snd item);
  di_head : Department.head r = Department.info_head (snd item);
  di_headcount : Department.headcount r = Department.info_count (snd item);
  di_parent :
    Department.parent r
    = (if String.eqb (fst item) "总经办" then "" else "总经办")%string;
  di_founded :
    exists o, date_ordinal (Department.founded r) = Some o /\
              ymd2ord 2015 1 1 <= o < ymd2ord 2020 12 31
}.

(* ================================================================== *)
(** ** Computations that do not read the clock *)

(** The world [w] with another clock. *)
Definition set_clock (w : world) (c : nat -> Z) (t : nat) : world :=
  mkWorld (tape w) (pos w) c t.

(** [m] gives the same value and consumes the same draws whatever the
    clock, which it leaves alone. *)
Definition clock_free {A} (m : M A) : Prop :=
  forall w c t,
    m (set_clock w c t)
    = match m w with
      | Some (a, w') => Some (a, set_clock w' c t)
      | None => None
      end.

(** A clock that advances by a millisecond per reading for its first 1000
    readings and then stands still; [steady_world] reads it. *)
Definition steady_clock (n : nat) : Z := sample_clock (Nat.min n 1000).

Definition steady_world : world := mkWorld sample_tape 0 steady_clock 0.

(** The number of rows of each of the eight tables. *)
Definition table_sizes (t : tables) : list nat :=
  [List.length (t_employees t); List.length (t_departments t);
   List.length (t_attendance t); List.length (t_leaves t);
   List.length (t_contributions t); List.length (t_trips t);
   List.length (t_meals t); List.length (t_onboarding t)].

(* ================================================================== *)
(** ** Further properties of one attendance row *)

(** The windows the times are drawn in: check-in at 08:00..08:30 or
    09:01..09:30, check-out at 17:30..18:59. *)
Definition attendance_windows (r : Attendance.row) : Prop :=
  exists ih im isec oh om osec,
    parse_HMS (Attendance.check_in r) = Some (ih, im, isec) /\
    parse_HMS (Attendance.check_out r) = Some (oh, om, osec) /\
    isec = osec /\
    ((ih = 8 /\ 0 <= im <= 30) \/ (ih = 9 /\ 1 <= im <= 30)) /\
    ((oh = 17 /\ 30 <= om <= 59) \/ (oh = 18 /\ 0 <= om <= 59)).

(** Worked hours from 8 to 10.98, early-leave minutes from 0 to 30, and
    the status early leave exactly on a positive number of them. *)
Definition attendance_bounds (r : Attendance.row) : Prop :=
  (8 <= Attendance.work_hours r)%Q /\
  (Attendance.work_hours r <= 10.98)%Q /\
  0 <= Attendance.early_minutes r <= 30 /\
  (Attendance.status r = Attendance.EARLY <-> 0 < Attendance.early_minutes r).

(* ================================================================== *)
(** ** Further properties of one leave-balance row *)

(** Used days from 0 to the total, the double of [t] tenths; remaining
    days the double of [10 * total - t] tenths, so that on the one-decimal
    numbers remaining is exactly total minus used, and not negative; the
    other counts are in the ranges they are drawn from. *)
Definition leave_balance_ok (r : AnnualLeave.row) : Prop :=
  In (AnnualLeave.total_days r) [5; 7; 10; 12; 15] /\
  (exists t,
     0 <= t <= 10 * AnnualLeave.total_days r /\
     AnnualLeave.used_days r = dec 1 t /\
     AnnualLeave.remaining_days r
       = dec 1 (10 * AnnualLeave.total_days r - t)) /\
  (0 <= AnnualLeave.used_days r)%Q /\
  (AnnualLeave.used_days r <= inject_Z (AnnualLeave.total_days r))%Q /\
  (0 <= AnnualLeave.remaining_days r)%Q /\
  0 <= AnnualLeave.comp_days r <= 3 /\
  0 <= AnnualLeave.comp_used r <= 2 /\
  1 <= AnnualLeave.seniority r <= 10.

(* ================================================================== *)
(** ** Further properties of one contribution row *)

(** Every amount is its exact share of the base, the rounding to cents
    changing nothing: the company pays 40 % of the base, the employee
    22.3 %, 62.3 % in all. *)
Definition contribution_shares (r : SocialSecurity.row) : Prop :=
  let b := inject_Z (SocialSecurity.base_amount r) in
  In (SocialSecurity.base_amount r)
     [5000; 6000; 8000; 10000; 12000; 15000; 20000] /\
  (SocialSecurity.pension_company r == b * 0.16)%Q /\
  (SocialSecurity.pension_personal r == b * 0.08)%Q /\
  (SocialSecurity.medical_company r == b * 0.10)%Q /\
  (SocialSecurity.medical_personal r == b * 0.02)%Q /\
  (SocialSecurity.unemployment_company r == b * 0.007)%Q /\
  (SocialSecurity.unemployment_personal r == b * 0.003)%Q /\
  (SocialSecurity.injury_company r == b * 0.005)%Q /\
  (SocialSecurity.maternity_company r == b * 0.008)%Q /\
  (SocialSecurity.housing_fund_company r == b * 0.12)%Q /\
  (SocialSecurity.housing_fund_personal r == b * 0.12)%Q /\
  (SocialSecurity.company_total r == b * 0.4)%Q /\
  (SocialSecurity.personal_total r == b * 0.223)%Q /\
  (SocialSecurity.grand_total r == b * 0.623)%Q.

(* ================================================================== *)
(** ** Further properties of one trip row and one meal row *)

(** The ranges of a trip's amounts, and the submission on the start day. *)
Definition trip_bounds (r : BusinessTrip.row) : Prop :=
  let n := BusinessTrip.trip_days r in
  1 <= n <= 7 /\
  In (BusinessTrip.daily_allowance r) [200; 300; 400; 500] /\
  200 * n <= BusinessTrip.accommodation r <= 800 * n /\
  500 <= BusinessTrip.transportation r <= 2000 /\
  100 * n <= BusinessTrip.meal r <= 300 * n /\
  1000 <= BusinessTrip.total r <= 13200 /\
  BusinessTrip.submitted r = BusinessTrip.start_date r.

(** The price lies in the range of the row's meal type, subsidy and amount
    paid are positive, and the rating is 3, 4 or 5. *)
Definition meal_bounds (r : Meal.row) : Prop :=
  (exists lo hi,
     Meal.lookup (Meal.meal_type r) Meal.meal_types = Some (lo, hi) /\
     (inject_Z lo <= Meal.original_amount r)%Q /\
     (Meal.original_amount r <= inject_Z hi)%Q) /\
  (0 < Meal.subsidy r)%Q /\
  (0 < Meal.actual_amount r)%Q /\
  3 <= Meal.rating r <= 5.

(* ================================================================== *)
(** ** Properties of one onboarding row *)

(** Reads a timestamp printed as YYYY-MM-DD HH:MM:SS back as a day number
    and a time of day. *)
Definition read_timestamp (s : string) : option (Z * (Z * Z * Z)) :=
  match date_ordinal (String.substring 0 10 s),
        parse_HMS (String.substring 11 8 s) with
  | Some o, Some t => Some (o, t)
  | _, _ => None
  end.

(** The push time is the creation time, and the form is either not
    completed or completed 1 to 7 days after the creation, at the same time
    of day. *)
Definition onboarding_ok (r : Onboarding.row) : Prop :=
  Onboarding.pushed r = Onboarding.created r /\
  exists o t,
    read_timestamp (Onboarding.created r) = Some (o, t) /\
    (Onboarding.completed r = EmptyString \/
     exists k, 1 <= k <= 7 /\
               read_timestamp (Onboarding.completed r) = Some (o + k, t)).

Definition sample_onboarding : list Onboarding.row :=
  Eval vm_compute in
    match run (Onboarding.generate_onboarding 3) sample_world with
    | Some rows => rows
    | None => []
    end.

(* ================================================================== *)
(** ** Identifiers shared between the tables *)

(** The identifiers of the employee table. *)
Definition known_ids (t : tables) : list string :=
  map Employee.emp (t_employees t).

(** Every employee identifier written in another table is the identifier
    of a row of the employee table. *)
Definition references_resolve (t : tables) : Prop :=
  Forall (fun r => In (Attendance.emp r) (known_ids t)) (t_attendance t) /\
  Forall (fun r => In (AnnualLeave.emp r) (known_ids t)) (t_leaves t) /\
  Forall (fun r => In (SocialSecurity.emp r) (known_ids t))
         (t_contributions t) /\
  Forall (fun r => In (BusinessTrip.emp r) (known_ids t)) (t_trips t) /\
  Forall (fun r => In (Meal.emp r) (known_ids t)) (t_meals t) /\
  Forall (fun r => In (Onboarding.emp r) (known_ids t)) (t_onboarding t).

Definition sample_tables : tables :=
  Eval vm_compute in
    match run main steady_world with
    | Some t => t
    | None => mkTables [] [] [] [] [] [] [] []
    end.

(* ================================================================== *)
(** ** Dates against the clock *)

(** The printed date [s] is a day from [lo] to [hi] days before the date
    of some reading of the clock [c]. *)
Definition dated_back (c : nat -> Z) (lo hi : Z) (s : string) : Prop :=
  exists now o, reading c now /\ date_ordinal s = Some o /\
                lo <= ordinal now - o <= hi.

(** The day [o] is at most [back] days before the date of one reading of
    the clock [c] and at least one day before the date of another. *)
Definition drawn_before (c : nat -> Z) (back : Z) (o : Z) : Prop :=
  exists now1 now2, reading c now1 /\ reading c now2 /\
                    ordinal now1 - back <= o /\ o + 1 <= ordinal now2.

(* ================================================================== *)
(** * Properties *)

(** ** The monad and the random primitives *)

Lemma bind_Some {A B} (m : M A) (k : A -> M B) w b w' :
  bind m k w = Some (b, w') ->
  exists a w1, m w = Some (a, w1) /\ k a w1 = Some (b, w').
Proof.
  unfold bind. destruct (m w) as [[a w1]|] eqn:E; [|discriminate].
  intros H. exists a, w1. split; [reflexivity | exact H].
Qed.

Lemma ret_Some {A} (a b : A) w w' : ret a w = Some (b, w') -> b = a /\ w' = w.
Proof. unfold ret. intros H. inversion H. split; reflexivity. Qed.

Lemma lift_Some {A} (o : option A) a w w' :
  lift o w = Some (a, w') -> o = Some a /\ w' = w.
Proof.
  unfold lift. destruct o; [|discriminate].
  intros H. inversion H. split; reflexivity.
Qed.

Lemma run_Some {A} (m : M A) w a :
  run m w = Some a -> exists w', m w = Some (a, w').
Proof.
  unfold run. destruct (m w) as [[x w']|]; [|discriminate].
  intros H. inversion H. subst. exists w'. reflexivity.
Qed.

Lemma randbelow_Some n w x w' :
  0 < n -> randbelow n w = Some (x, w') -> 0 <= x < n.
Proof.
  intros Hn H. unfold randbelow, bind, draw, ret in H.
  inversion H. apply Z.mod_pos_bound. exact Hn.
Qed.

Lemma randrange_Some stop w x w' :
  randrange stop w = Some (x, w') -> 0 <= x < stop.
Proof.
  unfold randrange. destruct (0 <? stop) eqn:E; [|discriminate].
  apply Z.ltb_lt in E. apply randbelow_Some. exact E.
Qed.

Lemma randrange_total stop w :
  0 < stop -> exists x w', randrange stop w = Some (x, w').
Proof.
  intros H. unfold randrange. apply Z.ltb_lt in H. rewrite H.
  unfold randbelow, bind, draw, ret. eexists. eexists. reflexivity.
Qed.

Lemma randrange_empty stop w : stop <= 0 -> randrange stop w = None.
Proof.
  intros H. unfold randrange.
  destruct (0 <? stop) eqn:E; [apply Z.ltb_lt in E; lia | reflexivity].
Qed.

Lemma randint_Some a b w x w' :
  randint a b w = Some (x, w') -> a <= x <= b.
Proof.
  unfold randint. destruct (0 <? b + 1 - a) eqn:E; [|discriminate].
  apply Z.ltb_lt in E. intros H.
  apply bind_Some in H. destruct H as (r & w1 & Hr & Hk).
  apply randbelow_Some in Hr; [|exact E].
  apply ret_Some in Hk. destruct Hk as [-> _]. lia.
Qed.

Lemma choice_Some {A} (seq : list A) w x w' :
  choice seq w = Some (x, w') -> In x seq.
Proof.
  destruct seq as [|a l]; [discriminate|].
  unfold choice. intros H.
  apply bind_Some in H. destruct H as (i & w1 & _ & Hk).
  apply lift_Some in Hk. destruct Hk as [Hn _].
  eapply nth_error_In. exact Hn.
Qed.

Lemma random_Some w r w' :
  random w = Some (r, w') ->
  exists m, 0 <= m < 2 ^ 53 /\ r = Qmake m (Z.to_pos (2 ^ 53)).
Proof.
  unfold random, bind, draw, ret. intros H. inversion H.
  eexists. split; [|reflexivity].
  apply Z.mod_pos_bound. reflexivity.
Qed.

(** Every row of a loop's result was made by one iteration, at an index of
    the range. *)
Lemma for_range_from_In {A} (body : Z -> M A) count :
  forall i w rows w',
    for_range_from i count body w = Some (rows, w') ->
    forall r, In r rows ->
    exists j w1 w2, i <= j < i + Z.of_nat count /\ body j w1 = Some (r, w2).
Proof.
  induction count as [|c IH]; intros i w rows w' H r Hin.
  - simpl in H. apply ret_Some in H. destruct H as [-> _]. destruct Hin.
  - cbn [for_range_from] in H.
    apply bind_Some in H. destruct H as (x & w1 & Hx & H).
    apply bind_Some in H. destruct H as (xs & w2 & Hxs & H).
    apply ret_Some in H. destruct H as [-> _].
    destruct Hin as [<- | Hin].
    + exists i, w, w1. split; [lia | exact Hx].
    + destruct (IH _ _ _ _ Hxs r Hin) as (j & wa & wb & Hj & Hb).
      exists j, wa, wb. split; [lia | exact Hb].
Qed.

Lemma for_range_In {A} (body : Z -> M A) count w rows :
  run (for_range count body) w = Some rows ->
  forall r, In r rows ->
  exists j w1 w2, 0 <= j < Z.of_nat count /\ body j w1 = Some (r, w2).
Proof.
  intros H r Hin. apply run_Some in H. destruct H as (w' & H).
  destruct (for_range_from_In body count 0 w rows w' H r Hin)
    as (j & w1 & w2 & Hj & Hb).
  exists j, w1, w2. split; [lia | exact Hb].
Qed.

Lemma for_range_from_length {A} (body : Z -> M A) count :
  forall i w rows w',
    for_range_from i count body w = Some (rows, w') ->
    List.length rows = count.
Proof.
  induction count as [|c IH]; intros i w rows w' H.
  - simpl in H. apply ret_Some in H. destruct H as [-> _]. reflexivity.
  - cbn [for_range_from] in H.
    apply bind_Some in H. destruct H as (x & w1 & Hx & H).
    apply bind_Some in H. destruct H as (xs & w2 & Hxs & H).
    apply ret_Some in H. destruct H as [-> _].
    simpl. f_equal. eapply IH. exact Hxs.
Qed.

(** Unfolds one monadic step of a successful run: the value [a] bound,
    the world [w] after it and the equation [E] of the step. *)
Ltac step H a w E :=
  apply bind_Some in H; destruct H as (a & w & E & H).

(** ** Rounding *)

Lemma round_half_even_exact z den :
  0 < den -> round_half_even (z * den) den = z.
Proof.
  intros Hd. unfold round_half_even.
  rewrite Z.mod_mul by lia. rewrite Z.div_mul by lia.
  change (2 * 0) with 0. destruct den as [|p|p]; [lia | reflexivity | lia].
Qed.

(** The rounded value is within one half of the exact quotient. *)
Lemma round_half_even_near num den :
  0 < den ->
  2 * num - den <= 2 * (den * round_half_even num den) <= 2 * num + den.
Proof.
  intros Hd. unfold round_half_even.
  pose proof (Z.div_mod num den ltac:(lia)) as E.
  pose proof (Z.mod_pos_bound num den Hd) as B.
  set (q := num / den) in *. set (r := num mod den) in *.
  destruct (Z.compare_spec (2 * r) den) as [C|C|C].
  - destruct (Z.even q); nia.
  - nia.
  - nia.
Qed.

Lemma round_half_even_ge num den z :
  0 < den -> z * den <= num -> z <= round_half_even num den.
Proof.
  intros Hd H. pose proof (round_half_even_near num den Hd) as N.
  assert (2 * (den * z) - den <= 2 * (den * round_half_even num den)) by nia.
  nia.
Qed.

Lemma round_half_even_le num den z :
  0 < den -> num <= z * den -> round_half_even num den <= z.
Proof.
  intros Hd H. pose proof (round_half_even_near num den Hd) as N.
  assert (2 * (den * round_half_even num den) <= 2 * (den * z) + den) by nia.
  nia.
Qed.

(** Rounding a value that already has [ndigits] decimals changes nothing. *)
Lemma py_round_fixed x z ndigits :
  (x == Qmake z (pow10 ndigits))%Q ->
  py_round x ndigits = Qmake z (pow10 ndigits).
Proof.
  unfold Qeq, py_round. cbn [Qnum Qden]. intros H.
  rewrite H. rewrite round_half_even_exact by reflexivity. reflexivity.
Qed.

(** ** Binary64 rounding *)

Lemma floor_log2_lower n d :
  0 < n -> 0 < d -> 0 <= floor_log2 n d -> d * 2 ^ floor_log2 n d <= n.
Proof.
  intros Hn Hd. unfold floor_log2.
  set (g := Z.log2 n - Z.log2 d).
  pose proof (Z.log2_spec n Hn) as Sn. pose proof (Z.log2_spec d Hd) as Sd.
  pose proof (Z.log2_nonneg n) as Ln. pose proof (Z.log2_nonneg d) as Ld.
  destruct (0 <=? g) eqn:G.
  - apply Z.leb_le in G.
    destruct (d * 2 ^ g <=? n) eqn:T; intros H.
    + apply Z.leb_le in T. exact T.
    + assert (E : Z.log2 n = Z.succ (Z.log2 d) + (g - 1)) by (unfold g; lia).
      destruct Sn as [Sn _]. rewrite E, Z.pow_add_r in Sn by lia.
      assert (0 < 2 ^ (g - 1)) by (apply Z.pow_pos_nonneg; lia).
      nia.
  - apply Z.leb_gt in G.
    destruct (d <=? n * 2 ^ (- g)); intros H; lia.
Qed.

(** A value whose last significand bit has a positive exponent is at
    least 2^53. *)
Lemma ulp_exp_pos_lower q :
  0 < Qnum q -> 0 < ulp_exp q ->
  Zpos (Qden q) * 2 ^ (ulp_exp q + 52) <= Qnum q.
Proof.
  intros Hn He. unfold ulp_exp in *.
  rewrite (Z.abs_eq (Qnum q)) in * by lia.
  set (fl := floor_log2 (Qnum q) (Z.pos (Qden q))) in *.
  rewrite Z.max_l in * by lia.
  replace (fl - 52 + 52) with fl by ring.
  apply floor_log2_lower; [exact Hn | reflexivity | lia].
Qed.

Lemma rnd64_nonneg q : (0 <= q)%Q -> (0 <= rnd64 q)%Q.
Proof.
  intros H. unfold rnd64.
  destruct (Qnum q =? 0); [apply Qle_refl|].
  rewrite Qred_correct. unfold Qle in H. cbn [Qnum Qden] in H.
  rewrite Z.mul_0_l, Z.mul_1_r in H.
  destruct (0 <=? ulp_exp q) eqn:E.
  - apply Z.leb_le in E. rewrite <- (Zle_Qle 0).
    apply Z.mul_nonneg_nonneg; [|apply Z.pow_nonneg; lia].
    apply round_half_even_ge.
    + apply Z.mul_pos_pos; [reflexivity | apply Z.pow_pos_nonneg; lia].
    + lia.
  - unfold Qle. cbn [Qnum Qden]. rewrite Z.mul_0_l, Z.mul_1_r.
    apply round_half_even_ge; [reflexivity|].
    apply Z.leb_gt in E.
    assert (0 < 2 ^ (- ulp_exp q)) by (apply Z.pow_pos_nonneg; lia). nia.
Qed.

(** Rounding to a double does not cross an integer below 2^53. *)
Lemma rnd64_le_Z q z :
  (0 <= q)%Q -> (q <= inject_Z z)%Q -> z < 2 ^ 53 -> (rnd64 q <= inject_Z z)%Q.
Proof.
  intros H0 H Hz.
  assert (Z0 : (0 <= inject_Z z)%Q) by (eapply Qle_trans; eassumption).
  unfold rnd64. destruct (Qnum q =? 0) eqn:N0; [exact Z0|].
  apply Z.eqb_neq in N0. rewrite Qred_correct.
  unfold Qle in H0, H, Z0. cbn [Qnum Qden inject_Z] in H0, H, Z0.
  rewrite Z.mul_0_l, Z.mul_1_r in H0. rewrite Z.mul_1_r in H.
  assert (Hn : 0 < Qnum q) by lia.
  destruct (0 <=? ulp_exp q) eqn:E.
  - apply Z.leb_le in E. rewrite <- Zle_Qle.
    destruct (Z.eq_dec (ulp_exp q) 0) as [E0|E0].
    + rewrite E0. rewrite Z.pow_0_r, !Z.mul_1_r.
      apply round_half_even_le; [reflexivity | exact H].
    + exfalso. pose proof (ulp_exp_pos_lower q Hn ltac:(lia)) as L.
      assert (P : 2 ^ 53 <= 2 ^ (ulp_exp q + 52))
        by (apply Z.pow_le_mono_r; lia).
      nia.
  - apply Z.leb_gt in E.
    assert (P : 0 < 2 ^ (- ulp_exp q)) by (apply Z.pow_pos_nonneg; lia).
    unfold Qle. cbn [Qnum Qden inject_Z]. rewrite Z.mul_1_r.
    rewrite Z2Pos.id by exact P.
    apply round_half_even_le; [reflexivity|]. nia.
Qed.

Lemma rnd64_ge_Z q z :
  0 <= z < 2 ^ 53 -> (inject_Z z <= q)%Q -> (inject_Z z <= rnd64 q)%Q.
Proof.
  intros Hz H.
  unfold rnd64. destruct (Qnum q =? 0) eqn:N0.
  - apply Z.eqb_eq in N0. unfold Qle in *. cbn [Qnum Qden inject_Z] in *.
    rewrite N0 in H. lia.
  - apply Z.eqb_neq in N0. rewrite Qred_correct.
    unfold Qle in H. cbn [Qnum Qden inject_Z] in H. rewrite Z.mul_1_r in H.
    assert (Hn : 0 < Qnum q) by lia.
    destruct (0 <=? ulp_exp q) eqn:E.
    + apply Z.leb_le in E. rewrite <- Zle_Qle.
      destruct (Z.eq_dec (ulp_exp q) 0) as [E0|E0].
      * rewrite E0. rewrite Z.pow_0_r, !Z.mul_1_r.
        apply round_half_even_ge; [reflexivity | exact H].
      * pose proof (ulp_exp_pos_lower q Hn ltac:(lia)) as L.
        rewrite Z.pow_add_r in L by lia.
        assert (P : 0 < 2 ^ ulp_exp q) by (apply Z.pow_pos_nonneg; lia).
        assert (P1 : 2 ^ 1 <= 2 ^ ulp_exp q)
          by (apply Z.pow_le_mono_r; lia).
        assert (M : 2 ^ 52 <= round_half_even (Qnum q)
                                (Z.pos (Qden q) * 2 ^ ulp_exp q)).
        { apply round_half_even_ge; [lia|]. lia. }
        change (2 ^ 1) with 2 in P1. change (2 ^ 53) with (2 ^ 52 * 2) in Hz.
        nia.
    + apply Z.leb_gt in E.
      assert (P : 0 < 2 ^ (- ulp_exp q)) by (apply Z.pow_pos_nonneg; lia).
      unfold Qle. cbn [Qnum Qden inject_Z]. rewrite Z.mul_1_r.
      rewrite Z2Pos.id by exact P.
      apply round_half_even_ge; [reflexivity|]. nia.
Qed.

(** An integer from 0 to 2^53 - 1 is a double. *)
Lemma float_of_Z_exact z : 0 <= z < 2 ^ 53 -> (float_of_Z z == inject_Z z)%Q.
Proof.
  intros Hz. unfold float_of_Z. apply Qle_antisym.
  - apply rnd64_le_Z; [rewrite <- (Zle_Qle 0); lia | apply Qle_refl | lia].
  - apply rnd64_ge_Z; [exact Hz | apply Qle_refl].
Qed.

Lemma same_float_eq x y : same_float x y = true -> x = y.
Proof.
  destruct x as [a b], y as [c d]. unfold same_float. cbn [Qnum Qden].
  intros H. apply andb_true_iff in H. destruct H as [H1 H2].
  apply Z.eqb_eq in H1. apply Z.eqb_eq in H2. inversion H2. subst.
  reflexivity.
Qed.

Lemma Qlt_of_not_le_bool x y : negb (Qle_bool x y) = true -> (y < x)%Q.
Proof.
  intros H. apply negb_true_iff in H. apply Qnot_le_lt. intros L.
  apply Qle_bool_iff in L. congruence.
Qed.

(** The count of decimal units of a value between two integers. *)
Lemma units_range x lo hi n :
  (inject_Z lo <= x)%Q -> (x <= inject_Z hi)%Q ->
  lo * Zpos (pow10 n) <= units x n <= hi * Zpos (pow10 n).
Proof.
  unfold Qle, units. cbn [Qnum Qden inject_Z]. rewrite !Z.mul_1_r.
  intros L H. split.
  - apply round_half_even_ge; [reflexivity|]. nia.
  - apply round_half_even_le; [reflexivity|]. nia.
Qed.

(** The double of a decimal between two integers lies between them. *)
Lemma dec_range n t lo hi :
  0 <= lo -> hi < 2 ^ 53 ->
  lo * Zpos (pow10 n) <= t <= hi * Zpos (pow10 n) ->
  (inject_Z lo <= dec n t <= inject_Z hi)%Q.
Proof.
  intros Hlo Hhi [L H]. unfold dec.
  assert (A : (inject_Z lo <= Qmake t (pow10 n))%Q)
    by (unfold Qle; cbn [Qnum Qden inject_Z]; lia).
  assert (B : (Qmake t (pow10 n) <= inject_Z hi)%Q)
    by (unfold Qle; cbn [Qnum Qden inject_Z]; lia).
  assert (Hle : lo <= hi) by nia.
  split.
  - apply rnd64_ge_Z; [lia | exact A].
  - apply rnd64_le_Z; [|exact B | exact Hhi].
    apply Qle_trans with (inject_Z lo); [|exact A].
    rewrite <- (Zle_Qle 0). exact Hlo.
Qed.

(** [a + (b - a) * r] computed on doubles stays between [a] and [b]. *)
Lemma uniform_value a b r :
  0 <= a <= b -> b < 2 ^ 53 -> (0 <= r)%Q -> (r <= 1)%Q ->
  (inject_Z a <= fadd (float_of_Z a) (fmul (float_of_Z (b - a)) r)
   <= inject_Z b)%Q.
Proof.
  intros Hab Hb R0 R1.
  pose proof (float_of_Z_exact a ltac:(lia)) as Ea.
  pose proof (float_of_Z_exact (b - a) ltac:(lia)) as Ed.
  set (A := float_of_Z a) in *. set (D := float_of_Z (b - a)) in *.
  assert (D0 : (0 <= D)%Q) by (rewrite Ed; rewrite <- (Zle_Qle 0); lia).
  assert (P0 : (0 <= D * r)%Q) by (apply Qmult_le_0_compat; assumption).
  assert (P1 : (D * r <= inject_Z (b - a))%Q).
  { rewrite <- Ed. rewrite <- (Qmult_1_l D) at 2. rewrite (Qmult_comm D r).
    apply Qmult_le_compat_r; assumption. }
  unfold fadd, fmul.
  pose proof (rnd64_nonneg _ P0) as p0.
  pose proof (rnd64_le_Z _ _ P0 P1 ltac:(lia)) as p1.
  set (p := rnd64 (D * r)) in *.
  assert (L : (inject_Z a <= A + p)%Q).
  { rewrite Ea. rewrite <- (Qplus_0_r (inject_Z a)) at 1.
    apply Qplus_le_compat; [apply Qle_refl | exact p0]. }
  split.
  - apply rnd64_ge_Z; [lia | exact L].
  - apply rnd64_le_Z; [| |exact Hb].
    + apply Qle_trans with (inject_Z a); [|exact L].
      rewrite <- (Zle_Qle 0). lia.
    + rewrite Ea.
      apply Qle_trans with (inject_Z a + inject_Z (b - a))%Q.
      * apply Qplus_le_compat; [apply Qle_refl | exact p1].
      * unfold Qle, Qplus. cbn [Qnum Qden inject_Z]. cbn. lia.
Qed.

Lemma uniform_Some a b w u w' :
  0 <= a <= b -> b < 2 ^ 53 -> uniform a b w = Some (u, w') ->
  (inject_Z a <= u <= inject_Z b)%Q.
Proof.
  intros Hab Hb H. unfold uniform in H. step H r w1 Er.
  apply ret_Some in H. destruct H as [-> _].
  apply random_Some in Er. destruct Er as (m & Hm & ->).
  apply uniform_value; [exact Hab | exact Hb | |];
    unfold Qle; cbn [Qnum Qden]; cbn; lia.
Qed.

(** Known doubles: 0.1; the float sum 0.2 + 0.1 + 0.1 minus 0.3, which is
    above 0.1; half of 28.73, which is above 14.365 and rounds to 14.37;
    7 - 6.2, which is below 0.8 and rounds to it; 6.25, a tie, which rounds
    to 6.2. *)
Lemma known_doubles :
  float_lit 0.1 = (3602879701896397 # 36028797018963968)%Q /\
  (dec 1 1 < fsub (fadd (fadd (dec 1 2) (dec 1 1)) (dec 1 1)) (dec 1 3))%Q /\
  float_round (fmul (dec 2 2873) (float_lit 0.5)) 2 = dec 2 1437 /\
  (fsub (float_of_Z 7) (dec 1 62) < dec 1 8)%Q /\
  float_round (fsub (float_of_Z 7) (dec 1 62)) 1 = dec 1 8 /\
  float_round (float_lit 6.25) 1 = dec 1 62.
Proof. vm_compute. repeat split. Qed.

(** ** Checks run over a range of integers *)

Lemma all_from_spec check count :
  forall n, all_from check n count = true ->
  forall k, n <= k < n + Z.of_nat count -> check k = true.
Proof.
  induction count as [|c IH]; intros n H k Hk.
  - simpl in Hk. lia.
  - cbn [all_from] in H. apply andb_true_iff in H. destruct H as [H0 H1].
    destruct (Z.eq_dec k n) as [->|Hne]; [exact H0|].
    apply (IH (n + 1) H1). lia.
Qed.

Lemma all_from_range check count n :
  all_from check n (Z.to_nat count) = true ->
  forall k, n <= k < n + count -> check k = true.
Proof.
  intros H k Hk. apply (all_from_spec check (Z.to_nat count) n H).
  rewrite Z2Nat.id; lia.
Qed.

(** Every used-days value from 0.0 to 15.0: the shares, in tenths, sum to
    the used tenths give or take one. *)
Lemma shares_checked : all_from shares_check 0 (Z.to_nat 151) = true.
Proof. vm_compute. reflexivity. Qed.

(** Every total and every used-days value up to it: the remaining days
    are the double of the difference in tenths. *)
Lemma remaining_checked :
  forallb (fun total =>
             all_from (remaining_check total) 0 (Z.to_nat (10 * total + 1)))
          [5; 7; 10; 12; 15] = true.
Proof. vm_compute. reflexivity. Qed.

(** Every price from 5.00 to 35.00 and every subsidy ratio. *)
Lemma meal_checked :
  forallb (fun f => all_from (meal_check f) 500 (Z.to_nat 3001)) Meal.ratios
  = true.
Proof. vm_compute. reflexivity. Qed.

Lemma meal_check_true f c :
  In f Meal.ratios -> 500 <= c <= 3500 -> meal_check f c = true.
Proof.
  intros Hf Hc. pose proof meal_checked as K.
  rewrite forallb_forall in K. specialize (K f Hf). cbv beta in K.
  apply (all_from_range _ 3001 500 K). lia.
Qed.

Lemma remaining_check_true total t :
  In total [5; 7; 10; 12; 15] -> 0 <= t <= 10 * total ->
  remaining_check total t = true.
Proof.
  intros Ht Hr. pose proof remaining_checked as K.
  rewrite forallb_forall in K. specialize (K total Ht). cbv beta in K.
  apply (all_from_range _ (10 * total + 1) 0 K). lia.
Qed.

(** ** The attendance and contribution tables on doubles

    These two tables hold each float as the decimal it stands for.  The
    doubles the script computes are the doubles of these decimals: no
    quotient of whole minutes by 3600 and no contribution of the seven
    bases is on or next to a tie. *)

(** Worked hours: [round(seconds / 3600, 2)] for a whole number of
    minutes within a day. *)
Lemma worked_hours_on_doubles k :
  0 <= k < 1440 ->
  float_round (fdiv (float_of_Z (60 * k)) (float_of_Z 3600)) 2
  = rnd64 (py_round (inject_Z (60 * k) / 3600) 2).
Proof.
  intros Hk. apply same_float_eq.
  assert (C : all_from
                (fun k => same_float
                   (float_round (fdiv (float_of_Z (60 * k)) (float_of_Z 3600)) 2)
                   (rnd64 (py_round (inject_Z (60 * k) / 3600) 2)))
                0 (Z.to_nat 1440) = true)
    by (vm_compute; reflexivity).
  apply (all_from_range _ 1440 0 C k). lia.
Qed.

(** Contributions: [round(base * rate, 2)] for every base and rate. *)
Lemma contribution_amounts_on_doubles base rate :
  In base [5000; 6000; 8000; 10000; 12000; 15000; 20000] ->
  In rate [0.16; 0.08; 0.10; 0.02; 0.007; 0.003; 0.005; 0.008; 0.12]%Q ->
  float_round (fmul (float_of_Z base) (float_lit rate)) 2
  = rnd64 (py_round (inject_Z base * rate) 2).
Proof.
  intros Hb Hr.
  assert (C : forallb
                (fun b => forallb
                   (fun r => same_float
                      (float_round (fmul (float_of_Z b) (float_lit r)) 2)
                      (rnd64 (py_round (inject_Z b * r) 2)))
                   [0.16; 0.08; 0.10; 0.02; 0.007; 0.003; 0.005; 0.008; 0.12]%Q)
                [5000; 6000; 8000; 10000; 12000; 15000; 20000] = true)
    by (vm_compute; reflexivity).
  rewrite forallb_forall in C. specialize (C base Hb). cbv beta in C.
  rewrite forallb_forall in C. specialize (C rate Hr). cbv beta in C.
  apply same_float_eq. exact C.
Qed.

(** Contribution totals: the float sums of the rounded amounts, rounded,
    are the doubles of the decimal sums. *)
Lemma contribution_totals_on_doubles base :
  In base [5000; 6000; 8000; 10000; 12000; 15000; 20000] ->
  let amount (rate : Q) :=
    float_round (fmul (float_of_Z base) (float_lit rate)) 2 in
  let exact (rate : Q) := py_round (inject_Z base * rate) 2 in
  let total_company :=
    fadd (fadd (fadd (fadd (fadd (amount 0.16%Q) (amount 0.10%Q)) (amount 0.007%Q))
                     (amount 0.005%Q)) (amount 0.008%Q)) (amount 0.12%Q) in
  let total_personal :=
    fadd (fadd (fadd (amount 0.08%Q) (amount 0.02%Q)) (amount 0.003%Q))
         (amount 0.12%Q) in
  let exact_company :=
    (exact 0.16%Q + exact 0.10%Q + exact 0.007%Q + exact 0.005%Q
     + exact 0.008%Q + exact 0.12%Q)%Q in
  let exact_personal :=
    (exact 0.08%Q + exact 0.02%Q + exact 0.003%Q + exact 0.12%Q)%Q in
  float_round total_company 2 = rnd64 (py_round exact_company 2) /\
  float_round total_personal 2 = rnd64 (py_round exact_personal 2) /\
  float_round (fadd total_company total_personal) 2
  = rnd64 (py_round (exact_company + exact_personal) 2).
Proof.
  intros Hb.
  repeat (destruct Hb as [<-|Hb];
          [vm_compute; repeat split; reflexivity|]).
  destruct Hb.
Qed.

(** ** Dates and times *)

Lemma timedelta_of_normal d s us :
  0 <= s < 86400 -> 0 <= us < 1000000 ->
  timedelta_of d s us = mkTimedelta d s us.
Proof.
  intros Hs Hu. unfold timedelta_of. f_equal.
  - symmetry. apply (Z.div_unique _ _ _ (s * 1000000 + us)); lia.
  - replace ((d * 86400 + s) * 1000000 + us)
      with ((s * 1000000 + us) + d * 86400000000) by ring.
    rewrite Z.mod_add by lia. rewrite Z.mod_small by lia.
    symmetry. apply (Z.div_unique _ _ _ us); lia.
  - symmetry. apply (Z.mod_unique _ _ (d * 86400 + s)); lia.
Qed.

Lemma fromtimestamp_valid t d :
  fromtimestamp t = Some d -> valid_datetime d.
Proof.
  unfold fromtimestamp.
  destruct ((1 <=? t / 86400000000) && (t / 86400000000 <=? MAXORDINAL)) eqn:E;
    [|discriminate].
  apply andb_true_iff in E. destruct E as [E1 E2].
  apply Z.leb_le in E1. apply Z.leb_le in E2.
  intros H. inversion H. subst d. unfold valid_datetime. cbn.
  pose proof (Z.mod_pos_bound t 86400000000 ltac:(lia)) as B.
  set (u := t mod 86400000000) in *.
  repeat split; try lia;
    try (apply Z.mod_pos_bound; lia);
    try (apply Z.div_pos; lia).
  apply Z.div_lt_upper_bound; lia.
Qed.

Lemma datetime_now_valid w d w' :
  datetime_now w = Some (d, w') -> valid_datetime d.
Proof.
  unfold datetime_now.
  destruct (fromtimestamp (clock w (tick w))) as [x|] eqn:E; [|discriminate].
  intros H. inversion H. subst. eapply fromtimestamp_valid. exact E.
Qed.

(** Adding whole days moves the ordinal and keeps the time of day. *)
Lemma dt_add_days d k :
  valid_datetime d ->
  dt_add d (timedelta_of k 0 0) =
  if (0 <? ordinal d + k) && (ordinal d + k <=? MAXORDINAL)
  then Some (mkDatetime (ordinal d + k) (hour d) (minute d) (second d)
                        (microsecond d))
  else None.
Proof.
  intros (Ho & Hh & Hm & Hs & Hu). unfold dt_add.
  rewrite (timedelta_of_normal k 0 0) by lia.
  rewrite (timedelta_of_normal (ordinal d)) by lia.
  unfold td_add. cbn [days seconds microseconds].
  rewrite timedelta_of_normal by lia.
  cbn [days seconds microseconds].
  destruct ((0 <? ordinal d + k) && (ordinal d + k <=? MAXORDINAL));
    [|reflexivity].
  assert (R : (hour d * 3600 + minute d * 60 + second d + 0) mod 3600
              = minute d * 60 + second d).
  { symmetry. apply (Z.mod_unique _ _ (hour d)); lia. }
  rewrite R. f_equal. f_equal.
  - symmetry. apply (Z.div_unique _ _ _ (minute d * 60 + second d)); lia.
  - symmetry. apply (Z.div_unique _ _ _ (second d)); lia.
  - symmetry. apply (Z.mod_unique _ _ (minute d)); lia.
  - lia.
Qed.

Lemma td_neg_days k : td_neg (timedelta_of k 0 0) = timedelta_of (- k) 0 0.
Proof.
  rewrite (timedelta_of_normal k 0 0) by lia. reflexivity.
Qed.

Lemma dt_add_days_Some d k d' :
  valid_datetime d ->
  dt_add d (timedelta_of k 0 0) = Some d' ->
  d' = mkDatetime (ordinal d + k) (hour d) (minute d) (second d) (microsecond d)
  /\ valid_datetime d'.
Proof.
  intros Hv H. rewrite dt_add_days in H by exact Hv.
  destruct ((0 <? ordinal d + k) && (ordinal d + k <=? MAXORDINAL)) eqn:E;
    [|discriminate].
  apply andb_true_iff in E. destruct E as [E1 E2].
  apply Z.ltb_lt in E1. apply Z.leb_le in E2.
  inversion H. split; [reflexivity|].
  destruct Hv as (Ho & Hh & Hm & Hs & Hu).
  unfold valid_datetime. cbn. repeat split; lia.
Qed.

Lemma dt_sub_td_days_Some d k d' :
  valid_datetime d ->
  dt_sub_td d (timedelta_of k 0 0) = Some d' ->
  d' = mkDatetime (ordinal d - k) (hour d) (minute d) (second d) (microsecond d)
  /\ valid_datetime d'.
Proof.
  unfold dt_sub_td. rewrite td_neg_days. intros Hv H.
  apply dt_add_days_Some in H; [|exact Hv].
  replace (ordinal d - k) with (ordinal d + - k) by ring. exact H.
Qed.

Lemma dt_replace_Some d h m d' :
  dt_replace d h m = Some d' ->
  0 <= h < 24 /\ 0 <= m < 60 /\
  d' = mkDatetime (ordinal d) h m (second d) (microsecond d).
Proof.
  unfold dt_replace.
  destruct ((0 <=? h) && (h <? 24) && (0 <=? m) && (m <? 60)) eqn:E;
    [|discriminate].
  apply andb_true_iff in E. destruct E as [E E4].
  apply andb_true_iff in E. destruct E as [E E3].
  apply andb_true_iff in E. destruct E as [E1 E2].
  intros H. inversion H. split; [lia|]. split; [lia|]. reflexivity.
Qed.

(** ** Printed times read back *)

Lemma two_digits n :
  0 <= n < 60 ->
  exists a b, zfill (str n) 2 = String a (String b EmptyString)
              /\ parse2 a b = Some n.
Proof.
  intros H. rewrite <- (Z2Nat.id n) by lia.
  assert (L : (Z.to_nat n < 60)%nat) by lia.
  generalize dependent (Z.to_nat n). clear H. intros k L.
  do 60 (destruct k as [|k]; [eexists; eexists; split; reflexivity|]).
  lia.
Qed.

Lemma parse_strftime_HMS d :
  valid_datetime d ->
  parse_HMS (strftime_HMS d) = Some (hour d, minute d, second d).
Proof.
  intros (_ & Hh & Hm & Hs & _). unfold strftime_HMS.
  destruct (two_digits (hour d) ltac:(lia)) as (h1 & h2 & -> & Ph).
  destruct (two_digits (minute d) ltac:(lia)) as (m1 & m2 & -> & Pm).
  destruct (two_digits (second d) ltac:(lia)) as (s1 & s2 & -> & Ps).
  cbn [append parse_HMS]. rewrite Ph, Pm, Ps. reflexivity.
Qed.

(** ** Attendance rows *)

Lemma attendance_body_inv i w r w' :
  Attendance.body i w = Some (r, w') -> exists cin cout, att_inv r cin cout.
Proof.
  unfold Attendance.body. intros H.
  step H now w1 E. apply datetime_now_valid in E.
  step H back w2 Eb. clear Eb.
  step H day w3 Ed. apply lift_Some in Ed. destruct Ed as [Ed ->].
  apply dt_sub_td_days_Some in Ed; [|exact E]. destruct Ed as [Ed Vd].
  step H m0 w4 Em. apply randint_Some in Em.
  step H cin w5 Ei. apply lift_Some in Ei. destruct Ei as [Ei ->].
  apply dt_replace_Some in Ei. destruct Ei as (Hh & Hm & Ei).
  step H oh w6 Eh. apply randint_Some in Eh.
  step H om w7 Eo.
  assert (Hom : (oh = 17 /\ 30 <= om <= 59) \/ (oh = 18 /\ 0 <= om <= 59)).
  { destruct (oh =? 17) eqn:C; apply randint_Some in Eo.
    - apply Z.eqb_eq in C. left. lia.
    - apply Z.eqb_neq in C. right. lia. }
  clear Eo.
  step H cout w8 Ec. apply lift_Some in Ec. destruct Ec as [Ec ->].
  apply dt_replace_Some in Ec. destruct Ec as (Hh' & Hm' & Ec).
  step H st w9 Es.
  step H emp_no w10 En. clear En.
  step H nm w11 Enm. clear Enm.
  step H loc w12 El. clear El.
  step H src w13 Esrc. clear Esrc.
  step H rem w14 Er. clear Er.
  apply ret_Some in H. destruct H as [-> _].
  destruct Vd as (Vo & _ & _ & Vs & Vu).
  exists cin, cout. subst cin cout.
  constructor; cbn [ordinal hour minute second microsecond
                    Attendance.check_in Attendance.check_out
                    Attendance.work_hours Attendance.status
                    Attendance.late_minutes Attendance.early_minutes];
    try reflexivity.
  - unfold valid_datetime; cbn. repeat split; lia.
  - unfold valid_datetime; cbn. repeat split; lia.
  - destruct (30 <? m0) eqn:C; [apply Z.ltb_lt in C | apply Z.ltb_ge in C]; lia.
  - exact Hom.
  - destruct ((30 <? (if 30 <? m0 then m0 - 30 else m0)) &&
              ((if 30 <? m0 then 9 else 8) =? 9)).
    + apply ret_Some in Es. tauto.
    + destruct (oh <? 18).
      * apply ret_Some in Es. tauto.
      * apply choice_Some in Es.
        destruct Es as [<-|[<-|[<-|[<-|[<-|[]]]]]]; auto.
Qed.

Lemma attendance_rows_inv count w rows :
  run (Attendance.generate_attendance count) w = Some rows ->
  Forall (fun r => exists cin cout, att_inv r cin cout) rows.
Proof.
  intros H. apply Forall_forall. intros r Hin.
  destruct (for_range_In _ _ _ _ H r Hin) as (j & w1 & w2 & _ & Hb).
  eapply attendance_body_inv. exact Hb.
Qed.

(** The seconds between check-in and check-out of one row. *)
Lemma attendance_seconds r cin cout :
  att_inv r cin cout ->
  seconds (dt_sub cout cin) =
  (hour cout * 3600 + minute cout * 60 + second cout)
  - (hour cin * 3600 + minute cin * 60 + second cin)
  /\ 0 <= seconds (dt_sub cout cin).
Proof.
  intros I. destruct I. unfold dt_sub.
  destruct ai_valid_in0 as (_ & _ & _ & Hs & Hu).
  rewrite ai_same_day0, ai_same_micro0, ai_same_second0.
  replace (ordinal cin - ordinal cin) with 0 by ring.
  replace (microsecond cin - microsecond cin) with 0 by ring.
  rewrite timedelta_of_normal by lia.
  cbn [seconds]. lia.
Qed.

(** C8. For every attendance row, the worked-hours field is the time from
    check-in to check-out expressed in hours and rounded to 2 decimals, and
    it is not negative. *)
Theorem worked_hours_rounded_nonneg count w rows :
  run (Attendance.generate_attendance count) w = Some rows ->
  Forall worked_hours_ok rows.
Proof.
  intros H. apply attendance_rows_inv in H.
  eapply Forall_impl; [|exact H]. clear H rows.
  intros r (cin & cout & I).
  destruct (attendance_seconds r cin cout I) as [Hsec Hpos].
  exists (hour cin), (minute cin), (second cin),
         (hour cout), (minute cout), (second cout).
  rewrite (ai_check_in _ _ _ I), (ai_check_out _ _ _ I).
  rewrite (parse_strftime_HMS cin (ai_valid_in _ _ _ I)).
  rewrite (parse_strftime_HMS cout (ai_valid_out _ _ _ I)).
  rewrite (ai_work_hours _ _ _ I), Hsec.
  repeat split.
  unfold py_round, Qle. cbn [Qnum Qden]. rewrite Z.mul_0_l, Z.mul_1_r.
  apply round_half_even_ge; [reflexivity|].
  rewrite Hsec in Hpos. cbn. lia.
Qed.

Lemma worked_hours_rounded_nonneg_witness :
  run (Attendance.generate_attendance 3) sample_world = Some sample_attendance
  /\ Forall worked_hours_ok sample_attendance.
Proof.
  split; [vm_compute; reflexivity|].
  apply (worked_hours_rounded_nonneg 3 sample_world).
  vm_compute. reflexivity.
Defined.

Lemma status_strings_distinct :
  Attendance.EARLY <> Attendance.LATE /\
  Attendance.NORMAL <> Attendance.LATE /\
  Attendance.LEAVE <> Attendance.LATE /\
  Attendance.NORMAL <> Attendance.EARLY /\
  Attendance.LEAVE <> Attendance.EARLY.
Proof. repeat split; discriminate. Qed.

(** C4. For every attendance row, the status is late exactly when the
    check-in minute of the hour exceeds 30 and the check-in hour is 9;
    otherwise it is early leave exactly when the check-out hour is before
    18; otherwise it is one of normal and leave. *)
Theorem status_classification count w rows :
  run (Attendance.generate_attendance count) w = Some rows ->
  Forall status_ok rows.
Proof.
  intros H. apply attendance_rows_inv in H.
  eapply Forall_impl; [|exact H]. clear H rows.
  intros r (cin & cout & I).
  exists (hour cin), (minute cin), (second cin),
         (hour cout), (minute cout), (second cout).
  rewrite (ai_check_in _ _ _ I), (ai_check_out _ _ _ I).
  rewrite (parse_strftime_HMS cin (ai_valid_in _ _ _ I)).
  rewrite (parse_strftime_HMS cout (ai_valid_out _ _ _ I)).
  split; [reflexivity|]. split; [reflexivity|].
  pose proof (ai_status _ _ _ I) as S.
  destruct status_strings_distinct as (D1 & D2 & D3 & D4 & D5).
  destruct ((30 <? minute cin) && (hour cin =? 9)) eqn:L.
  - apply andb_true_iff in L. destruct L as [L1 L2].
    apply Z.ltb_lt in L1. apply Z.eqb_eq in L2.
    repeat split; try tauto.
  - assert (NL : ~ (30 < minute cin /\ hour cin = 9)).
    { intros [A B]. apply Z.ltb_lt in A. apply Z.eqb_eq in B.
      rewrite A, B in L. discriminate. }
    assert (N : Attendance.status r <> Attendance.LATE).
    { destruct (hour cout <? 18); [|destruct S as [S|S]]; rewrite S; assumption. }
    split; [split; [intros A; contradiction | intros A; contradiction]|].
    destruct (hour cout <? 18) eqn:O.
    + apply Z.ltb_lt in O.
      split; [intros _; split; [intros _; exact O | intros _; exact S]|].
      intros _ A. contradiction.
    + apply Z.ltb_ge in O.
      split; [|intros _ _; exact S].
      intros _. split; [|lia].
      intros A. exfalso. destruct S as [S|S]; rewrite S in A; auto.
Qed.

Lemma status_classification_witness :
  run (Attendance.generate_attendance 3) sample_world = Some sample_attendance
  /\ Forall status_ok sample_attendance.
Proof.
  split; [vm_compute; reflexivity|].
  apply (status_classification 3 sample_world).
  vm_compute. reflexivity.
Defined.

(** C9. No attendance row the generator can produce is late, and the
    lateness-minutes field is always 0: a check-in in hour 9 has its minute
    in 1..30. *)
Theorem late_unreachable count w rows :
  run (Attendance.generate_attendance count) w = Some rows ->
  Forall never_late rows.
Proof.
  intros H. apply attendance_rows_inv in H.
  eapply Forall_impl; [|exact H]. clear H rows.
  intros r (cin & cout & I).
  pose proof (ai_in_range _ _ _ I) as R.
  pose proof (ai_status _ _ _ I) as S.
  pose proof (ai_late _ _ _ I) as L.
  destruct status_strings_distinct as (D1 & D2 & D3 & D4 & D5).
  assert (C : (30 <? minute cin) && (hour cin =? 9) = false).
  { apply andb_false_iff. left. apply Z.ltb_ge. lia. }
  rewrite C in S.
  split; [|split].
  - destruct (hour cout <? 18); [|destruct S as [S|S]]; rewrite S; assumption.
  - rewrite L. destruct (hour cin =? 9); lia.
  - exists (hour cin), (minute cin), (second cin).
    rewrite (ai_check_in _ _ _ I).
    rewrite (parse_strftime_HMS cin (ai_valid_in _ _ _ I)).
    split; [reflexivity | lia].
Qed.

Lemma late_unreachable_witness :
  run (Attendance.generate_attendance 3) sample_world = Some sample_attendance
  /\ Forall never_late sample_attendance.
Proof.
  split; [vm_compute; reflexivity|].
  apply (late_unreachable 3 sample_world).
  vm_compute. reflexivity.
Defined.

(** C3, as claimed, fails: the row checked in at 09:15 is 45 minutes past
    08:30 and its lateness field is 0. *)
Lemma lateness_not_against_0830 :
  run (Attendance.generate_attendance 1) world_0915 = Some attendance_0915
  /\ map Attendance.check_in attendance_0915 = ["09:15:42"%string]
  /\ map Attendance.late_minutes attendance_0915 = [0]
  /\ ~ Forall (clamped_minutes 8 30) attendance_0915.
Proof.
  split; [vm_compute; reflexivity|].
  split; [reflexivity|]. split; [reflexivity|].
  intros F. inversion F as [|r l P _]. subst.
  destruct P as (ih & im & isec & oh & om & osec & Pin & _ & L & _).
  vm_compute in Pin. inversion Pin. subst.
  vm_compute in L. discriminate.
Qed.

(** C3, amended. For every attendance row, the lateness-minutes field is
    the clamped non-negative difference of the check-in time against 09:30
    (the boundary the code uses), and the early-leave field is the clamped
    non-negative difference of 18:00 against the check-out time. *)
Theorem lateness_against_0930 count w rows :
  run (Attendance.generate_attendance count) w = Some rows ->
  Forall (clamped_minutes 9 30) rows.
Proof.
  intros H. apply attendance_rows_inv in H.
  eapply Forall_impl; [|exact H]. clear H rows.
  intros r (cin & cout & I).
  exists (hour cin), (minute cin), (second cin),
         (hour cout), (minute cout), (second cout).
  rewrite (ai_check_in _ _ _ I), (ai_check_out _ _ _ I).
  rewrite (parse_strftime_HMS cin (ai_valid_in _ _ _ I)).
  rewrite (parse_strftime_HMS cout (ai_valid_out _ _ _ I)).
  split; [reflexivity|]. split; [reflexivity|].
  pose proof (ai_in_range _ _ _ I) as R.
  rewrite (ai_late _ _ _ I), (ai_early _ _ _ I).
  split; [|lia].
  destruct (hour cin =? 9) eqn:C;
    [apply Z.eqb_eq in C | apply Z.eqb_neq in C]; lia.
Qed.

Lemma lateness_against_0930_witness :
  run (Attendance.generate_attendance 1) world_0915 = Some attendance_0915
  /\ Forall (clamped_minutes 9 30) attendance_0915.
Proof.
  split; [vm_compute; reflexivity|].
  apply (lateness_against_0930 1 world_0915).
  vm_compute. reflexivity.
Defined.

(** ** The tables and the clock *)

Lemma datetime_now_Some w d w' :
  datetime_now w = Some (d, w') -> fromtimestamp (clock w (tick w)) = Some d.
Proof.
  unfold datetime_now.
  destruct (fromtimestamp (clock w (tick w))) as [x|]; [|discriminate].
  intros H. inversion H. reflexivity.
Qed.

(** The first iteration of a loop runs in the world the loop starts in. *)
Lemma for_range_first {A} (body : Z -> M A) count w rows :
  run (for_range (S count) body) w = Some rows ->
  exists r rest w1, body 0 w = Some (r, w1) /\ rows = r :: rest.
Proof.
  intros H. apply run_Some in H. destruct H as (w' & H).
  unfold for_range in H. cbn [for_range_from] in H.
  step H x w1 Ex. step H xs w2 Exs.
  apply ret_Some in H. destruct H as [-> _].
  exists x, xs, w1. split; [exact Ex | reflexivity].
Qed.

(** The seconds printed in a row's check-in time are those of the clock
    reading the iteration starts with. *)
Lemma attendance_body_second i w r w' :
  Attendance.body i w = Some (r, w') ->
  exists now ih im,
    fromtimestamp (clock w (tick w)) = Some now /\
    parse_HMS (Attendance.check_in r) = Some (ih, im, second now).
Proof.
  unfold Attendance.body. intros H.
  step H now w1 E. pose proof (datetime_now_Some _ _ _ E) as Enow.
  apply datetime_now_valid in E.
  step H back w2 Eb. clear Eb.
  step H day w3 Ed. apply lift_Some in Ed. destruct Ed as [Ed ->].
  apply dt_sub_td_days_Some in Ed; [|exact E]. destruct Ed as [Ed Vd].
  step H m0 w4 Em. clear Em.
  step H cin w5 Ei. apply lift_Some in Ei. destruct Ei as [Ei ->].
  apply dt_replace_Some in Ei. destruct Ei as (Hh & Hm & Ei).
  step H oh w6 Eh. step H om w7 Eo. step H cout w8 Ec.
  step H st w9 Es. step H emp_no w10 En. step H nm w11 Enm.
  step H loc w12 El. step H src w13 Esrc. step H rem w14 Er.
  apply ret_Some in H. destruct H as [-> _].
  exists now, (hour cin), (minute cin). split; [exact Enow|].
  cbn [Attendance.check_in].
  assert (Vc : valid_datetime cin).
  { destruct Vd as (Vo & _ & _ & Vs & Vu). subst cin.
    unfold valid_datetime; cbn. repeat split; lia. }
  rewrite (parse_strftime_HMS cin Vc).
  subst cin day. reflexivity.
Qed.

(** C1. With the generator in the same state, two runs that start at clock
    readings with different seconds produce different attendance tables:
    the output is not a function of the seed alone. *)
Theorem attendance_output_follows_clock
    count draws p clockA tickA clockB tickB a b rowsA rowsB :
  fromtimestamp (clockA tickA) = Some a ->
  fromtimestamp (clockB tickB) = Some b ->
  second a <> second b ->
  run (Attendance.generate_attendance (S count))
      (mkWorld draws p clockA tickA) = Some rowsA ->
  run (Attendance.generate_attendance (S count))
      (mkWorld draws p clockB tickB) = Some rowsB ->
  rowsA <> rowsB.
Proof.
  intros Ha Hb Hne RA RB Heq. subst rowsB.
  apply for_range_first in RA. destruct RA as (r & rest & w1 & BA & ->).
  apply for_range_first in RB. destruct RB as (r' & rest' & w1' & BB & E).
  inversion E. subst r' rest'. clear E.
  apply attendance_body_second in BA.
  destruct BA as (na & ih & im & Na & Pa).
  apply attendance_body_second in BB.
  destruct BB as (nb & ih' & im' & Nb & Pb).
  cbn [clock tick] in Na, Nb.
  rewrite Ha in Na. inversion Na. subst na.
  rewrite Hb in Nb. inversion Nb. subst nb.
  rewrite Pa in Pb. inversion Pb. congruence.
Qed.

Lemma attendance_output_follows_clock_witness :
  fromtimestamp (sample_clock 0) = Some (mkDatetime 739000 10 5 42 123456) /\
  fromtimestamp (sample_clock 0 + 1000000)
    = Some (mkDatetime 739000 10 5 43 123456) /\
  run (Attendance.generate_attendance 3) sample_world
    = Some sample_attendance /\
  run (Attendance.generate_attendance 3) sample_world_later
    = Some sample_attendance_later /\
  sample_attendance <> sample_attendance_later.
Proof.
  assert (Ha : fromtimestamp (sample_clock 0)
               = Some (mkDatetime 739000 10 5 42 123456))
    by (vm_compute; reflexivity).
  assert (Hb : fromtimestamp (sample_clock 0 + 1000000)
               = Some (mkDatetime 739000 10 5 43 123456))
    by (vm_compute; reflexivity).
  assert (RA : run (Attendance.generate_attendance 3) sample_world
               = Some sample_attendance)
    by (vm_compute; reflexivity).
  assert (RB : run (Attendance.generate_attendance 3) sample_world_later
               = Some sample_attendance_later)
    by (vm_compute; reflexivity).
  repeat split; try assumption.
  apply (attendance_output_follows_clock 2 sample_tape 0%nat
           sample_clock 0%nat (fun n => sample_clock n + 1000000) 0%nat
           (mkDatetime 739000 10 5 42 123456)
           (mkDatetime 739000 10 5 43 123456)
           sample_attendance sample_attendance_later Ha Hb);
    [cbn; lia | exact RA | exact RB].
Defined.

(** ** Leave balances *)

Lemma leave_body_inv i w r w' :
  AnnualLeave.body i w = Some (r, w') ->
  exists t,
    In (AnnualLeave.total_days r) [5; 7; 10; 12; 15] /\
    0 <= t <= 10 * AnnualLeave.total_days r /\
    AnnualLeave.used_days r = dec 1 t /\
    AnnualLeave.remaining_days r
      = float_round (fsub (float_of_Z (AnnualLeave.total_days r)) (dec 1 t)) 1 /\
    subtotals_are_fractions r /\
    0 <= AnnualLeave.comp_days r <= 3 /\
    0 <= AnnualLeave.comp_used r <= 2 /\
    1 <= AnnualLeave.seniority r <= 10.
Proof.
  unfold AnnualLeave.body. intros H.
  step H total w1 Et. step H u w2 Eu. step H nm w3 En.
  step H c w4 Ec. step H cu w5 Ecu. step H y w6 Ey.
  apply ret_Some in H. destruct H as [-> _].
  apply choice_Some in Et.
  apply randint_Some in Ec. apply randint_Some in Ecu.
  apply randint_Some in Ey.
  assert (T : 0 <= total <= 15)
    by (destruct Et as [<-|[<-|[<-|[<-|[<-|[]]]]]]; lia).
  apply uniform_Some in Eu;
    [|lia | apply Z.le_lt_trans with 15; [lia | reflexivity]].
  destruct Eu as [U0 U1].
  pose proof (units_range u 0 total 1 U0 U1) as R.
  change (Z.pos (pow10 1)) with 10 in R.
  exists (units u 1).
  cbn [AnnualLeave.total_days AnnualLeave.used_days
       AnnualLeave.remaining_days AnnualLeave.comp_days
       AnnualLeave.comp_used AnnualLeave.seniority].
  split; [exact Et|]. split; [lia|].
  split; [reflexivity|]. split; [reflexivity|].
  split; [split; [reflexivity | split; reflexivity]|].
  split; [exact Ec|]. split; [exact Ecu | exact Ey].
Qed.

(** C2, as claimed, fails: with 0.3 used days the shares are 0.2, 0.1 and
    0.1, which sum to 0.4. *)
Lemma subtotals_do_not_sum_to_used :
  run (AnnualLeave.generate_annual_leaves 1) world_used_03 = Some leaves_used_03
  /\ map AnnualLeave.used_days leaves_used_03 = [dec 1 3]
  /\ map AnnualLeave.annual_days leaves_used_03 = [dec 1 2]
  /\ map AnnualLeave.sick_days leaves_used_03 = [dec 1 1]
  /\ map AnnualLeave.personal_days leaves_used_03 = [dec 1 1]
  /\ map subtotals_sum leaves_used_03 = [dec 1 4]
  /\ ~ Forall subtotals_sum_exact leaves_used_03.
Proof.
  split; [vm_compute; reflexivity|].
  split; [vm_compute; reflexivity|]. split; [vm_compute; reflexivity|].
  split; [vm_compute; reflexivity|]. split; [vm_compute; reflexivity|].
  split; [vm_compute; reflexivity|].
  intros F. inversion F as [|r l [_ P] _]. subst.
  vm_compute in P. discriminate.
Qed.

(** C2, amended. For every leave-balance row, the three sub-category day
    counts are round(used*0.6, 1), round(used*0.2, 1) and round(used*0.2, 1);
    read as one-decimal numbers (each stored float is the double of its
    one-decimal number), their sum is within 0.1 of the used-days total. *)
Theorem subtotals_within_a_tenth count w rows :
  run (AnnualLeave.generate_annual_leaves count) w = Some rows ->
  Forall subtotals_sum_near rows.
Proof.
  intros H. apply Forall_forall. intros r Hin.
  destruct (for_range_In _ _ _ _ H r Hin) as (j & w1 & w2 & _ & Hb).
  apply leave_body_inv in Hb.
  destruct Hb as (t & Ht & Rt & Hu & _ & Hf & _).
  split; [exact Hf|].
  destruct Hf as (Ha & Hs & Hp).
  assert (T : 0 <= t <= 150).
  { destruct Ht as [E|[E|[E|[E|[E|[]]]]]]; rewrite <- E in Rt; lia. }
  pose proof (all_from_range shares_check 151 0 shares_checked t ltac:(lia))
    as C.
  unfold shares_check in C. cbv zeta in C.
  apply andb_true_iff in C. destruct C as [C1 C2].
  apply Z.leb_le in C1. apply Z.leb_le in C2.
  exists t, (units (fmul (dec 1 t) (float_lit 0.6)) 1),
         (units (fmul (dec 1 t) (float_lit 0.2)) 1),
         (units (fmul (dec 1 t) (float_lit 0.2)) 1).
  rewrite Ha, Hs, Hp, Hu.
  split; [reflexivity|]. split; [reflexivity|]. split; [reflexivity|].
  split; [reflexivity|]. split; [exact T | lia].
Qed.

Lemma subtotals_within_a_tenth_witness :
  run (AnnualLeave.generate_annual_leaves 3) sample_world = Some sample_leaves
  /\ Forall subtotals_sum_near sample_leaves.
Proof.
  split; [vm_compute; reflexivity|].
  apply (subtotals_within_a_tenth 3 sample_world).
  vm_compute. reflexivity.
Defined.

(** ** Decimals *)

Lemma is_decimal_round x ndigits : is_decimal ndigits (py_round x ndigits).
Proof. unfold py_round. eexists. reflexivity. Qed.

Lemma is_decimal_plus x y ndigits :
  is_decimal ndigits x -> is_decimal ndigits y -> is_decimal ndigits (x + y).
Proof.
  intros [a Ha] [b Hb]. exists (a + b).
  rewrite Ha, Hb. apply Qinv_plus_distr.
Qed.

Lemma is_decimal_minus x y ndigits :
  is_decimal ndigits x -> is_decimal ndigits y -> is_decimal ndigits (x - y).
Proof.
  intros [a Ha] [b Hb]. exists (a - b).
  rewrite Ha, Hb. unfold Qminus. change (- (b # pow10 ndigits))%Q
    with (Qmake (- b) (pow10 ndigits)).
  apply Qinv_plus_distr.
Qed.

(** Rounding to the decimals a value already has gives the value. *)
Lemma py_round_decimal x ndigits :
  is_decimal ndigits x -> (py_round x ndigits == x)%Q.
Proof.
  intros [z Hz]. rewrite (py_round_fixed x z ndigits Hz).
  symmetry. exact Hz.
Qed.

(** ** Contributions *)

(** C5. For every contribution row, the company total is the sum of the
    six company-side fields, the personal total is the sum of the four
    personal-side fields, and the grand total is company total plus
    personal total, all values with 2 decimals. *)
Theorem contribution_totals count w rows :
  run (SocialSecurity.generate_social_security count) w = Some rows ->
  Forall totals_ok rows.
Proof.
  intros H. apply Forall_forall. intros r Hin.
  destruct (for_range_In _ _ _ _ H r Hin) as (j & w1 & w2 & _ & Hb).
  clear H Hin. unfold SocialSecurity.body in Hb.
  step Hb base wa Ebase. step Hb nm wb En. step Hb now wc Enow.
  step Hb back wd Eback. step Hb paid we Ep. step Hb st wf Est.
  apply ret_Some in Hb. destruct Hb as [-> _].
  set (b := inject_Z base).
  assert (C : is_decimal 2
                (py_round (b * 0.16) 2 + py_round (b * 0.10) 2
                 + py_round (b * 0.007) 2 + py_round (b * 0.005) 2
                 + py_round (b * 0.008) 2 + py_round (b * 0.12) 2)).
  { repeat apply is_decimal_plus; apply is_decimal_round. }
  assert (P : is_decimal 2
                (py_round (b * 0.08) 2 + py_round (b * 0.02) 2
                 + py_round (b * 0.003) 2 + py_round (b * 0.12) 2)).
  { repeat apply is_decimal_plus; apply is_decimal_round. }
  unfold totals_ok, company_sum, personal_sum.
  cbn [SocialSecurity.company_total SocialSecurity.personal_total
       SocialSecurity.grand_total SocialSecurity.pension_company
       SocialSecurity.pension_personal SocialSecurity.medical_company
       SocialSecurity.medical_personal SocialSecurity.unemployment_company
       SocialSecurity.unemployment_personal SocialSecurity.injury_company
       SocialSecurity.maternity_company SocialSecurity.housing_fund_company
       SocialSecurity.housing_fund_personal].
  fold b.
  split; [apply py_round_decimal; exact C|].
  split; [apply py_round_decimal; exact P|].
  split.
  - rewrite (py_round_decimal _ 2 (is_decimal_plus _ _ 2 C P)).
    apply Qplus_comp; symmetry; apply py_round_decimal; assumption.
  - repeat split; apply is_decimal_round.
Qed.

Lemma contribution_totals_witness :
  run (SocialSecurity.generate_social_security 3) sample_world
    = Some sample_contributions
  /\ Forall totals_ok sample_contributions.
Proof.
  split; [vm_compute; reflexivity|].
  apply (contribution_totals 3 sample_world).
  vm_compute. reflexivity.
Defined.

(** ** Meals *)

Lemma py_round_ge_int x z ndigits :
  (inject_Z z <= x)%Q -> (inject_Z z <= py_round x ndigits)%Q.
Proof.
  unfold Qle, py_round. cbn [Qnum Qden inject_Z]. intros H.
  rewrite Z.mul_1_r in *.
  apply round_half_even_ge; [reflexivity|]. nia.
Qed.

Lemma meal_body_inv i w r w' :
  Meal.body i w = Some (r, w') ->
  exists lo hi c f,
    Meal.lookup (Meal.meal_type r) Meal.meal_types = Some (lo, hi) /\
    5 <= lo /\ hi <= 35 /\
    lo * 100 <= c <= hi * 100 /\
    In f Meal.ratios /\
    Meal.original_amount r = dec 2 c /\
    Meal.subsidy r = dec 2 (units (fmul (dec 2 c) f) 2) /\
    Meal.actual_amount r
      = float_round (fsub (Meal.original_amount r) (Meal.subsidy r)) 2 /\
    3 <= Meal.rating r <= 5.
Proof.
  unfold Meal.body. intros H.
  step H mt w1 Emt. step H pr w2 Epr. step H u w3 Eu. step H f w4 Ef.
  step H emp_no w5 Ee. step H nm w6 En. step H now w7 Enow.
  step H back w8 Eb. step H day w9 Ed. step H place w10 Epl.
  step H pay w11 Epay. step H stars w12 Es.
  apply ret_Some in H. destruct H as [-> _].
  apply choice_Some in Emt. apply lift_Some in Epr. destruct Epr as [Epr ->].
  apply choice_Some in Ef. apply randint_Some in Es.
  destruct pr as [lo hi]. cbn [fst snd] in Eu.
  assert (B : 5 <= lo /\ lo <= hi /\ hi <= 35).
  { cbn in Emt.
    destruct Emt as [<-|[<-|[<-|[]]]]; vm_compute in Epr; inversion Epr;
      subst; lia. }
  apply uniform_Some in Eu;
    [|lia | apply Z.le_lt_trans with 35; [lia | reflexivity]].
  destruct Eu as [U0 U1].
  pose proof (units_range u lo hi 2 U0 U1) as R.
  change (Z.pos (pow10 2)) with 100 in R.
  exists lo, hi, (units u 2), f.
  cbn [Meal.meal_type Meal.original_amount Meal.subsidy Meal.actual_amount
       Meal.rating].
  split; [exact Epr|]. split; [lia|]. split; [lia|]. split; [exact R|].
  split; [exact Ef|]. split; [reflexivity|]. split; [reflexivity|].
  split; [reflexivity | exact Es].
Qed.

(** What the check of one price and one ratio gives for a row. *)
Lemma meal_row_checked r c f :
  500 <= c <= 3500 -> In f Meal.ratios ->
  Meal.original_amount r = dec 2 c ->
  Meal.subsidy r = dec 2 (units (fmul (dec 2 c) f) 2) ->
  Meal.actual_amount r
    = float_round (fsub (Meal.original_amount r) (Meal.subsidy r)) 2 ->
  0 < units (fmul (dec 2 c) f) 2 < c /\
  Meal.actual_amount r = dec 2 (c - units (fmul (dec 2 c) f) 2) /\
  (Meal.subsidy r < Meal.original_amount r)%Q /\
  (0 < Meal.subsidy r)%Q /\ (0 < Meal.actual_amount r)%Q.
Proof.
  intros Hc Hf Ho Hs Ha.
  pose proof (meal_check_true f c Hf Hc) as C.
  unfold meal_check in C. cbv zeta in C.
  apply andb_true_iff in C. destruct C as [C C6].
  apply andb_true_iff in C. destruct C as [C C5].
  apply andb_true_iff in C. destruct C as [C C4].
  apply andb_true_iff in C. destruct C as [C C3].
  apply andb_true_iff in C. destruct C as [C1 C2].
  apply same_float_eq in C1. apply Z.ltb_lt in C2. apply Z.ltb_lt in C3.
  apply Qlt_of_not_le_bool in C4. apply Qlt_of_not_le_bool in C5.
  apply Qlt_of_not_le_bool in C6.
  split; [lia|]. rewrite Ha, Hs, Ho.
  split; [exact C1|]. split; [exact C4|]. split; [exact C5 | exact C6].
Qed.

(** C7. For every meal row, the amount paid is the original price minus
    the subsidy, to 2 decimals, and the subsidy is strictly less than the
    original price, whatever meal type, price and discount were drawn.
    The amount paid is round(original - subsidy, 2) on the floats, and on
    the two-decimal numbers the three floats stand for it is exactly the
    price minus the subsidy. *)
Theorem meal_amounts count w rows :
  run (Meal.generate_meal_records count) w = Some rows ->
  Forall meal_ok rows.
Proof.
  intros H. apply Forall_forall. intros r Hin.
  destruct (for_range_In _ _ _ _ H r Hin) as (j & w1 & w2 & _ & Hb).
  apply meal_body_inv in Hb.
  destruct Hb as (lo & hi & c & f & _ & Hlo & Hhi & Hc & Hf & Ho & Hs & Ha & _).
  assert (Rc : 500 <= c <= 3500) by lia.
  destruct (meal_row_checked r c f Rc Hf Ho Hs Ha) as (Bs & Ea & Lt & _).
  unfold meal_ok. split; [exact Ha|]. split; [|exact Lt].
  exists c, (units (fmul (dec 2 c) f) 2).
  split; [exact Rc|]. split; [exact Bs|]. split; [exact Ho|].
  split; [exact Hs | exact Ea].
Qed.

Lemma meal_amounts_witness :
  run (Meal.generate_meal_records 3) sample_world = Some sample_meals
  /\ Forall meal_ok sample_meals.
Proof.
  split; [vm_compute; reflexivity|].
  apply (meal_amounts 3 sample_world).
  vm_compute. reflexivity.
Defined.

(** ** [random_date] *)

(** The whole days between two datetimes, on the time line. *)
Lemma dt_sub_days a b :
  days (dt_sub a b) = (dt_key a - dt_key b) / 86400000000.
Proof.
  unfold dt_sub, timedelta_of. cbn [days]. f_equal. unfold dt_key. ring.
Qed.

Lemma dt_key_bounds d :
  valid_datetime d ->
  ordinal d * 86400000000 <= dt_key d < (ordinal d + 1) * 86400000000.
Proof. intros (Ho & Hh & Hm & Hs & Hu). unfold dt_key. lia. Qed.

(** A successful [random_date] moved the start by a number of whole days
    below the days between its arguments. *)
Lemma random_date_Some start_date end_date w d w' :
  valid_datetime start_date ->
  random_date start_date end_date w = Some (d, w') ->
  exists k, 0 <= k < days (dt_sub end_date start_date) /\
            d = mkDatetime (ordinal start_date + k) (hour start_date)
                  (minute start_date) (second start_date)
                  (microsecond start_date) /\
            valid_datetime d.
Proof.
  intros V H. unfold random_date in H. step H k w1 Ek.
  apply randrange_Some in Ek. apply lift_Some in H. destruct H as [H _].
  apply dt_add_days_Some in H; [|exact V].
  exists k. split; [exact Ek | exact H].
Qed.

(** C10, as claimed, fails: noon is strictly later than midnight of the
    same day and [random_date] raises. *)
Lemma random_date_fails_within_a_day :
  valid_datetime new_year_midnight /\ valid_datetime new_year_noon /\
  dt_lt new_year_midnight new_year_noon /\
  random_date new_year_midnight new_year_noon sample_world = None.
Proof.
  unfold valid_datetime, dt_lt. vm_compute.
  repeat split; try discriminate; reflexivity.
Qed.

(** C10, amended. [random_date] returns a datetime d with
    start_date <= d < end_date whenever end_date is at least one whole day
    (24 hours) later than start_date; when it is less than one whole day
    later, equal or earlier, the call raises instead of returning a value. *)
Theorem random_date_range start_date end_date w :
  valid_datetime start_date -> valid_datetime end_date ->
  (dt_key start_date + 86400000000 <= dt_key end_date ->
   exists d w', random_date start_date end_date w = Some (d, w') /\
                valid_datetime d /\
                dt_le start_date d /\ dt_lt d end_date) /\
  (dt_key end_date < dt_key start_date + 86400000000 ->
   random_date start_date end_date w = None).
Proof.
  intros Vs Ve. unfold random_date. rewrite dt_sub_days.
  set (n := (dt_key end_date - dt_key start_date) / 86400000000).
  pose proof (Z.div_mod (dt_key end_date - dt_key start_date) 86400000000
                ltac:(lia)) as Edm.
  pose proof (Z.mod_pos_bound (dt_key end_date - dt_key start_date)
                86400000000 ltac:(lia)) as Bm.
  fold n in Edm.
  split.
  - intros Hday. assert (Hn : 0 < n) by lia.
    destruct (randrange_total n w Hn) as (k & w1 & Ek).
    pose proof (randrange_Some _ _ _ _ Ek) as Bk.
    pose proof (dt_key_bounds _ Vs) as Ks.
    pose proof (dt_key_bounds _ Ve) as Ke.
    unfold bind. rewrite Ek. rewrite dt_add_days by exact Vs.
    assert (Hk : dt_key start_date + k * 86400000000 < dt_key end_date) by nia.
    destruct Vs as (Ho & Hh & Hm & Hsec & Hu).
    destruct Ve as (Ho' & _).
    assert (R : (0 <? ordinal start_date + k)
                && (ordinal start_date + k <=? MAXORDINAL) = true).
    { apply andb_true_iff. split; [apply Z.ltb_lt | apply Z.leb_le]; lia. }
    rewrite R. cbn [lift]. eexists. eexists. split; [reflexivity|].
    apply andb_true_iff in R. destruct R as [R1 R2].
    apply Z.ltb_lt in R1. apply Z.leb_le in R2.
    split; [unfold valid_datetime; cbn; repeat split; lia|].
    unfold dt_le, dt_lt. unfold dt_key in *. cbn. lia.
  - intros Hday. unfold bind. rewrite randrange_empty by lia. reflexivity.
Qed.

Lemma random_date_range_witness :
  valid_datetime new_year_midnight /\ valid_datetime early_april /\
  dt_key new_year_midnight + 86400000000 <= dt_key early_april /\
  (exists d w',
     random_date new_year_midnight early_april sample_world = Some (d, w') /\
     valid_datetime d /\
     dt_le new_year_midnight d /\ dt_lt d early_april) /\
  valid_datetime new_year_noon /\
  dt_key new_year_noon < dt_key new_year_midnight + 86400000000 /\
  random_date new_year_midnight new_year_noon sample_world = None.
Proof.
  assert (V1 : valid_datetime new_year_midnight)
    by (unfold valid_datetime; vm_compute; repeat split; discriminate).
  assert (V2 : valid_datetime early_april)
    by (unfold valid_datetime; vm_compute; repeat split; discriminate).
  assert (V3 : valid_datetime new_year_noon)
    by (unfold valid_datetime; vm_compute; repeat split; discriminate).
  assert (D1 : dt_key new_year_midnight + 86400000000 <= dt_key early_april)
    by (vm_compute; discriminate).
  assert (D2 : dt_key new_year_noon < dt_key new_year_midnight + 86400000000)
    by (vm_compute; reflexivity).
  split; [exact V1|]. split; [exact V2|]. split; [exact D1|].
  split;
    [exact (proj1 (random_date_range new_year_midnight early_april
                     sample_world V1 V2) D1)|].
  split; [exact V3|]. split; [exact D2|].
  exact (proj2 (random_date_range new_year_midnight new_year_noon
                  sample_world V1 V3) D2).
Defined.

(** ** The calendar: printed dates read back *)

Lemma years_checked : all_from four_digits_ok 0 (Z.to_nat 10000) = true.
Proof. vm_compute. reflexivity. Qed.

Lemma first_cycle_checked : all_from cycle_day_ok 1 (Z.to_nat 146097) = true.
Proof. vm_compute. reflexivity. Qed.

Lemma four_digits y :
  0 <= y < 10000 ->
  exists a b c d,
    zfill (str y) 4 = String a (String b (String c (String d EmptyString)))
    /\ parse4 a b c d = Some y.
Proof.
  intros H.
  pose proof (all_from_range _ 10000 0 years_checked y ltac:(lia)) as C.
  unfold four_digits_ok in C.
  destruct (zfill (str y) 4) as [|a [|b [|c [|d [|e s]]]]]; try discriminate.
  destruct (parse4 a b c d) as [v|] eqn:P; [|discriminate].
  apply Z.eqb_eq in C. subst v.
  exists a, b, c, d. split; [reflexivity | exact P].
Qed.

Lemma cycle_day n :
  1 <= n <= 146097 ->
  exists y m d,
    ord2ymd n = (y, m, d) /\ ymd2ord y m d = n /\
    1 <= y <= 400 /\ 1 <= m <= 12 /\ 1 <= d <= 31.
Proof.
  intros H.
  pose proof (all_from_range _ 146097 1 first_cycle_checked n ltac:(lia)) as C.
  unfold cycle_day_ok in C.
  destruct (ord2ymd n) as [[y m] d].
  repeat (apply andb_true_iff in C; destruct C as [C ?C]).
  exists y, m, d.
  repeat match goal with
         | E : (_ <=? _) = true |- _ => apply Z.leb_le in E
         | E : (_ =? _) = true |- _ => apply Z.eqb_eq in E
         end.
  repeat split; try reflexivity; lia.
Qed.

(** Day numbers 146097 apart are the same day 400 years apart. *)
Lemma ord2ymd_shift n q y m d :
  ord2ymd n = (y, m, d) ->
  ord2ymd (n + 146097 * q) = (y + 400 * q, m, d).
Proof.
  unfold ord2ymd.
  replace (n + 146097 * q - 1) with (n - 1 + q * 146097) by ring.
  rewrite Z.div_add, Z.mod_add by lia.
  cbv zeta.
  set (r := (n - 1) mod 146097).
  destruct ((r mod 36524 mod 1461 / 365 =? 4) || (r / 36524 =? 4)).
  - intros E. inversion E. f_equal. f_equal. ring.
  - destruct (_ <? _).
    + intros E. inversion E. f_equal. f_equal. ring.
    + intros E. inversion E. f_equal. f_equal. ring.
Qed.

Lemma is_leap_shift y q : is_leap (y + 400 * q) = is_leap y.
Proof.
  unfold is_leap.
  replace ((y + 400 * q) mod 4) with (y mod 4)
    by (replace (y + 400 * q) with (y + (100 * q) * 4) by ring;
        rewrite Z.mod_add by lia; reflexivity).
  replace ((y + 400 * q) mod 100) with (y mod 100)
    by (replace (y + 400 * q) with (y + (4 * q) * 100) by ring;
        rewrite Z.mod_add by lia; reflexivity).
  replace ((y + 400 * q) mod 400) with (y mod 400)
    by (replace (y + 400 * q) with (y + q * 400) by ring;
        rewrite Z.mod_add by lia; reflexivity).
  reflexivity.
Qed.

Lemma days_before_year_shift y q :
  days_before_year (y + 400 * q) = days_before_year y + 146097 * q.
Proof.
  unfold days_before_year. cbv zeta.
  replace ((y + 400 * q - 1) / 4) with ((y - 1) / 4 + 100 * q)
    by (replace (y + 400 * q - 1) with (y - 1 + (100 * q) * 4) by ring;
        rewrite Z.div_add by lia; reflexivity).
  replace ((y + 400 * q - 1) / 100) with ((y - 1) / 100 + 4 * q)
    by (replace (y + 400 * q - 1) with (y - 1 + (4 * q) * 100) by ring;
        rewrite Z.div_add by lia; reflexivity).
  replace ((y + 400 * q - 1) / 400) with ((y - 1) / 400 + q)
    by (replace (y + 400 * q - 1) with (y - 1 + q * 400) by ring;
        rewrite Z.div_add by lia; reflexivity).
  ring.
Qed.

Lemma ymd2ord_shift y m d q :
  ymd2ord (y + 400 * q) m d = ymd2ord y m d + 146097 * q.
Proof.
  unfold ymd2ord, days_before_month.
  rewrite days_before_year_shift, is_leap_shift. ring.
Qed.

Lemma days_before_month_nonneg y m :
  1 <= m <= 12 -> 0 <= days_before_month y m.
Proof.
  intros H. unfold days_before_month.
  assert (0 <= nth (Z.to_nat m) DAYS_BEFORE_MONTH 0).
  { assert (C : m = 1 \/ m = 2 \/ m = 3 \/ m = 4 \/ m = 5 \/ m = 6 \/
                m = 7 \/ m = 8 \/ m = 9 \/ m = 10 \/ m = 11 \/ m = 12) by lia.
    repeat (destruct C as [C|C]; [subst m; vm_compute; discriminate|]).
    subst m. vm_compute. discriminate. }
  destruct ((2 <? m) && is_leap y); lia.
Qed.

(** [ord2ymd] gives the date whose day number is [n]; inside the range of
    a datetime the year has at most four digits. *)
Lemma ord2ymd_ymd2ord n :
  1 <= n <= MAXORDINAL ->
  exists y m d,
    ord2ymd n = (y, m, d) /\ ymd2ord y m d = n /\
    1 <= y <= 9999 /\ 1 <= m <= 12 /\ 1 <= d <= 31.
Proof.
  intros H. unfold MAXORDINAL in H.
  pose proof (Z.div_mod (n - 1) 146097 ltac:(lia)) as E.
  pose proof (Z.mod_pos_bound (n - 1) 146097 ltac:(lia)) as B.
  set (q := (n - 1) / 146097) in *. set (r := (n - 1) mod 146097) in *.
  assert (Q : 0 <= q) by (apply Z.div_pos; lia).
  destruct (cycle_day (r + 1) ltac:(lia)) as (y & m & d & O & R & Hy & Hm & Hd).
  exists (y + 400 * q), m, d.
  replace n with (r + 1 + 146097 * q) by lia.
  split; [apply ord2ymd_shift; exact O|].
  split; [rewrite ymd2ord_shift; lia|].
  split; [|split; assumption].
  split; [lia|].
  destruct (Z.le_gt_cases (y + 400 * q) 9999) as [L|G]; [exact L|exfalso].
  pose proof (ymd2ord_shift y m d q) as S. rewrite R in S.
  pose proof (days_before_month_nonneg (y + 400 * q) m Hm) as M.
  unfold ymd2ord, days_before_year in S. cbv zeta in S.
  pose proof (Z.div_mod (y + 400 * q - 1) 4 ltac:(lia)).
  pose proof (Z.mod_pos_bound (y + 400 * q - 1) 4 ltac:(lia)).
  pose proof (Z.div_mod (y + 400 * q - 1) 100 ltac:(lia)).
  pose proof (Z.mod_pos_bound (y + 400 * q - 1) 100 ltac:(lia)).
  pose proof (Z.div_mod (y + 400 * q - 1) 400 ltac:(lia)).
  pose proof (Z.mod_pos_bound (y + 400 * q - 1) 400 ltac:(lia)).
  lia.
Qed.

Lemma parse_strftime_Ymd dt :
  valid_datetime dt ->
  exists y m d,
    parse_Ymd (strftime_Ymd dt) = Some (y, m, d) /\
    ymd2ord y m d = ordinal dt.
Proof.
  intros (Ho & _).
  destruct (ord2ymd_ymd2ord (ordinal dt) Ho)
    as (y & m & d & O & R & Hy & Hm & Hd).
  exists y, m, d. split; [|exact R].
  unfold strftime_Ymd. rewrite O.
  destruct (four_digits y ltac:(lia)) as (a1 & a2 & a3 & a4 & -> & Py).
  destruct (two_digits m ltac:(lia)) as (b1 & b2 & -> & Pm).
  destruct (two_digits d ltac:(lia)) as (c1 & c2 & -> & Pd).
  cbn [append parse_Ymd]. rewrite Py, Pm, Pd. reflexivity.
Qed.

Lemma date_ordinal_strftime dt :
  valid_datetime dt -> date_ordinal (strftime_Ymd dt) = Some (ordinal dt).
Proof.
  intros V. destruct (parse_strftime_Ymd dt V) as (y & m & d & P & R).
  unfold date_ordinal. rewrite P, R. reflexivity.
Qed.

(** ** Business trips *)

Lemma trip_body_inv i w r w' :
  BusinessTrip.body i w = Some (r, w') -> trip_ok r.
Proof.
  unfold BusinessTrip.body. intros H.
  step H now1 w1 E1. apply datetime_now_valid in E1.
  step H from w2 Ef. apply lift_Some in Ef. destruct Ef as [Ef ->].
  apply dt_sub_td_days_Some in Ef; [|exact E1]. destruct Ef as [_ Vf].
  step H now2 w3 E2. clear E2.
  step H start w4 Es. apply random_date_Some in Es; [|exact Vf].
  destruct Es as (k & _ & _ & Vs).
  step H n w5 En. apply randint_Some in En.
  step H finish w6 Efin. apply lift_Some in Efin. destruct Efin as [Efin ->].
  apply dt_add_days_Some in Efin; [|exact Vs]. destruct Efin as [Efin Vfin].
  step H daily w7 Ed. clear Ed.
  step H room_rate w8 Er. apply randint_Some in Er.
  step H transportation w9 Et. clear Et.
  step H meal_rate w10 Em. apply randint_Some in Em.
  step H now3 w11 E3. step H emp_no w12 Ee. step H nm w13 Enm.
  step H dest w14 Edest. step H why w15 Ew. step H appr w16 Ea.
  apply ret_Some in H. destruct H as [-> _].
  unfold trip_ok.
  cbn [BusinessTrip.total BusinessTrip.daily_allowance BusinessTrip.trip_days
       BusinessTrip.accommodation BusinessTrip.transportation
       BusinessTrip.meal BusinessTrip.start_date BusinessTrip.end_date].
  split; [reflexivity|].
  split; [exists room_rate; split; [exact Er | reflexivity]|].
  split; [exists meal_rate; split; [exact Em | reflexivity]|].
  split; [lia|].
  exists (ordinal start), (ordinal finish).
  rewrite (date_ordinal_strftime start Vs).
  rewrite (date_ordinal_strftime finish Vfin).
  split; [reflexivity|]. split; [reflexivity|].
  subst finish. cbn [ordinal]. split; [reflexivity | lia].
Qed.

(** C6. For every trip row, the total allowance is daily allowance * days
    + accommodation + transportation + meal, accommodation and meal being
    daily rates multiplied by the days of the trip; the end date is on or
    after the start date, and days >= 1. *)
Theorem trip_totals_and_dates count w rows :
  run (BusinessTrip.generate_business_trips count) w = Some rows ->
  Forall trip_ok rows.
Proof.
  intros H. apply Forall_forall. intros r Hin.
  destruct (for_range_In _ _ _ _ H r Hin) as (j & w1 & w2 & _ & Hb).
  eapply trip_body_inv. exact Hb.
Qed.

Lemma trip_totals_and_dates_witness :
  run (BusinessTrip.generate_business_trips 3) sample_world = Some sample_trips
  /\ Forall trip_ok sample_trips.
Proof.
  split; [vm_compute; reflexivity|].
  apply (trip_totals_and_dates 3 sample_world).
  vm_compute. reflexivity.
Defined.

(** * Further properties of the script *)

(** ** Rules for runs that cannot raise *)

Lemma succeeds_ret {A} c (a : A) (Post : A -> Prop) :
  Post a -> succeeds c (ret a) Post.
Proof. intros H w Hw. exists a, w. repeat split; assumption. Qed.

Lemma succeeds_bind {A B} c (m : M A) (k : A -> M B) (P : A -> Prop) Q :
  succeeds c m P -> (forall a, P a -> succeeds c (k a) Q) -> succeeds c (bind m k) Q.
Proof.
  intros Hm Hk w Hw.
  destruct (Hm w Hw) as (a & w1 & E & Pa & Hw1).
  destruct (Hk a Pa w1 Hw1) as (b & w2 & E2 & Qb & Hw2).
  exists b, w2. unfold bind. rewrite E. repeat split; assumption.
Qed.

Lemma succeeds_weaken {A} c (m : M A) (P Q : A -> Prop) :
  succeeds c m P -> (forall a, P a -> Q a) -> succeeds c m Q.
Proof.
  intros Hm PQ w Hw. destruct (Hm w Hw) as (a & w1 & E & Pa & Hw1).
  exists a, w1. repeat split; auto.
Qed.

Lemma succeeds_lift {A} c (o : option A) a (Post : A -> Prop) :
  o = Some a -> Post a -> succeeds c (lift o) Post.
Proof.
  intros -> H w Hw. exists a, w. repeat split; assumption.
Qed.

Lemma succeeds_randint c a b :
  a <= b -> succeeds c (randint a b) (fun x => a <= x <= b).
Proof.
  intros H w Hw. unfold randint.
  assert (E : (0 <? b + 1 - a) = true) by (apply Z.ltb_lt; lia).
  rewrite E. unfold bind, randbelow, draw, ret. eexists. eexists.
  split; [reflexivity|]. split; [|exact Hw].
  pose proof (Z.mod_pos_bound (tape w (pos w)) (b + 1 - a) ltac:(lia)). lia.
Qed.

Lemma succeeds_choice {A} c (seq : list A) :
  seq <> [] -> succeeds c (choice seq) (fun x => In x seq).
Proof.
  intros Hne w Hw. destruct seq as [|a l]; [contradiction|].
  unfold choice, randbelow, bind, draw, ret, lift.
  set (n := Z.of_nat (List.length (a :: l))).
  assert (Hn : 0 < n) by (unfold n; cbn [List.length]; lia).
  pose proof (Z.mod_pos_bound (tape w (pos w)) n Hn) as B.
  set (i := tape w (pos w) mod n) in *.
  assert (L : (Z.to_nat i < List.length (a :: l))%nat) by (unfold n in B; lia).
  destruct (nth_error (a :: l) (Z.to_nat i)) as [x|] eqn:E.
  - exists x. eexists. split; [reflexivity|].
    split; [eapply nth_error_In; exact E | exact Hw].
  - apply nth_error_None in E. lia.
Qed.

Lemma succeeds_random c :
  succeeds c random (fun r => exists m, 0 <= m < 2 ^ 53 /\
                                     r = Qmake m (Z.to_pos (2 ^ 53))).
Proof.
  intros w Hw. unfold random, bind, draw, ret. eexists. eexists.
  split; [reflexivity|]. split; [|exact Hw].
  eexists. split; [|reflexivity]. apply Z.mod_pos_bound. reflexivity.
Qed.

(** A loop whose every iteration returns, returns one row per index. *)
Lemma succeeds_for_range_from {A} c (body : Z -> M A) (P : Z -> A -> Prop) count :
  (forall j, succeeds c (body j) (P j)) ->
  forall i,
    succeeds c (for_range_from i count body)
          (fun rows => List.length rows = count /\
                       forall k r, nth_error rows k = Some r ->
                                   P (i + Z.of_nat k) r).
Proof.
  intros Hb. induction count as [|n IH]; intros i.
  - cbn [for_range_from]. apply succeeds_ret. split; [reflexivity|].
    intros [|k] r E; discriminate E.
  - cbn [for_range_from].
    eapply succeeds_bind; [apply Hb|]. intros x Px.
    eapply succeeds_bind; [apply (IH (i + 1))|]. intros xs [Lx Hx].
    apply succeeds_ret. split; [cbn; lia|].
    intros [|k] r E; cbn in E.
    + inversion E. subst. replace (i + Z.of_nat 0) with i by lia. exact Px.
    + replace (i + Z.of_nat (S k)) with (i + 1 + Z.of_nat k) by lia.
      apply Hx. exact E.
Qed.

Lemma succeeds_for_range {A} c (body : Z -> M A) (P : Z -> A -> Prop) count :
  (forall j, succeeds c (body j) (P j)) ->
  succeeds c (for_range count body)
        (fun rows => List.length rows = count /\
                     forall k r, nth_error rows k = Some r ->
                                 P (Z.of_nat k) r).
Proof.
  intros Hb. unfold for_range.
  eapply succeeds_weaken; [apply (succeeds_for_range_from c body P count Hb 0)|].
  intros rows [L H]. split; [exact L|]. intros k r E.
  apply (H k r E).
Qed.

Lemma succeeds_for_each {A B} c (body : A -> M B) (P : A -> B -> Prop) xs :
  (forall x, In x xs -> succeeds c (body x) (P x)) ->
  succeeds c (for_each xs body) (fun rows => Forall2 P xs rows).
Proof.
  induction xs as [|x rest IH]; intros Hb.
  - cbn [for_each]. apply succeeds_ret. constructor.
  - cbn [for_each].
    eapply succeeds_bind; [apply Hb; left; reflexivity|]. intros y Py.
    eapply succeeds_bind; [apply IH; intros z Hz; apply Hb; right; exact Hz|].
    intros ys Hys. apply succeeds_ret. constructor; assumption.
Qed.

(** From a run that cannot raise to the value of the run. *)
Lemma succeeds_run {A} (m : M A) (Post : A -> Prop) w :
  succeeds (clock w) m Post -> exists a, run m w = Some a /\ Post a.
Proof.
  intros H. destruct (H w eq_refl) as (a & w' & E & Pa & _).
  exists a. unfold run. rewrite E. split; [reflexivity | exact Pa].
Qed.

(** ** Strings of digits *)

Lemma string_length_append (a b : string) :
  String.length (a ++ b) = (String.length a + String.length b)%nat.
Proof. induction a as [|c a IH]; cbn; [reflexivity | rewrite IH; reflexivity]. Qed.

Lemma all_digits_append (a b : string) :
  all_digits (a ++ b) = all_digits a && all_digits b.
Proof.
  induction a as [|c a IH]; cbn; [reflexivity|].
  rewrite IH. apply andb_assoc.
Qed.

Lemma prefix_append (p r : string) : String.prefix p (p ++ r) = true.
Proof.
  induction p as [|c p IH]; cbn.
  - destruct r; reflexivity.
  - destruct (ascii_dec c c) as [_|N]; [exact IH | contradiction].
Qed.

Lemma str_digit d :
  0 <= d <= 9 ->
  String.length (str d) = 1%nat /\ all_digits (str d) = true.
Proof.
  intros H.
  assert (C : d = 0 \/ d = 1 \/ d = 2 \/ d = 3 \/ d = 4 \/ d = 5 \/ d = 6 \/
              d = 7 \/ d = 8 \/ d = 9) by lia.
  repeat (destruct C as [C|C]; [subst d; split; reflexivity|]).
  subst d. split; reflexivity.
Qed.

Lemma concat_digits (ds : list string) :
  (forall s, In s ds -> String.length s = 1%nat /\ all_digits s = true) ->
  String.length (String.concat "" ds) = List.length ds /\
  all_digits (String.concat "" ds) = true.
Proof.
  induction ds as [|a l IH]; intros H; [split; reflexivity|].
  destruct (H a (or_introl eq_refl)) as [La Da].
  destruct (IH (fun s Hs => H s (or_intror Hs))) as [Ll Dl].
  destruct l as [|b l].
  - cbn. split; assumption.
  - change (String.concat "" (a :: b :: l))
      with (a ++ "" ++ String.concat "" (b :: l))%string.
    cbn [append]. rewrite string_length_append, all_digits_append.
    rewrite La, Da, Ll, Dl. split; reflexivity.
Qed.

Lemma succeeds_random_digits c n :
  succeeds c (random_digits n)
           (fun s => String.length s = n /\ all_digits s = true).
Proof.
  unfold random_digits.
  eapply succeeds_bind.
  - apply (succeeds_for_range c _
             (fun _ s => String.length s = 1%nat /\ all_digits s = true)).
    intros j. eapply succeeds_bind; [apply succeeds_randint; lia|].
    intros d Hd. apply succeeds_ret. apply str_digit. exact Hd.
  - intros ds [L H]. apply succeeds_ret.
    destruct (concat_digits ds) as [A B].
    + intros s Hs. apply In_nth_error in Hs. destruct Hs as [k Hk].
      apply (H k s Hk).
    + split; [lia | exact B].
Qed.

Lemma phone_prefix_digits p :
  In p PHONE_PREFIXES -> String.length p = 3%nat /\ all_digits p = true.
Proof.
  intros H. unfold PHONE_PREFIXES in H.
  repeat (destruct H as [<-|H]; [split; reflexivity|]). destruct H.
Qed.

Lemma succeeds_generate_phone c : succeeds c generate_phone phone_ok.
Proof.
  unfold generate_phone.
  eapply succeeds_bind; [apply succeeds_choice; discriminate|].
  intros p Hp.
  eapply succeeds_bind; [apply succeeds_random_digits|].
  intros rest [L D]. apply succeeds_ret.
  destruct (phone_prefix_digits p Hp) as [Lp Dp].
  unfold phone_ok. rewrite string_length_append, all_digits_append.
  rewrite Lp, L, Dp, D. split; [reflexivity|]. split; [reflexivity|].
  exists p. split; [exact Hp | apply prefix_append].
Qed.

Lemma succeeds_generate_bank_card c :
  succeeds c generate_bank_card bank_card_ok.
Proof.
  unfold generate_bank_card.
  eapply succeeds_bind; [apply succeeds_random_digits|].
  intros rest [L D]. apply succeeds_ret.
  unfold bank_card_ok. rewrite string_length_append, all_digits_append.
  rewrite L, D. split; [reflexivity|]. split; [reflexivity|].
  apply prefix_append.
Qed.

Lemma plain_year y :
  1970 <= y <= 2000 ->
  exists a b c d,
    str y = String a (String b (String c (String d EmptyString)))
    /\ parse4 a b c d = Some y.
Proof.
  intros H.
  assert (A : all_from plain_year_ok 1970 (Z.to_nat 31) = true)
    by (vm_compute; reflexivity).
  pose proof (all_from_range _ 31 1970 A y ltac:(lia)) as C.
  unfold plain_year_ok in C.
  destruct (str y) as [|a [|b [|c0 [|d [|e s]]]]]; try discriminate.
  destruct (parse4 a b c0 d) as [v|] eqn:P; [|discriminate].
  apply Z.eqb_eq in C. subst v.
  exists a, b, c0, d. split; [reflexivity | exact P].
Qed.

Lemma parse2_digits a b n :
  parse2 a b = Some n -> is_digit a = true /\ is_digit b = true.
Proof.
  unfold parse2, is_digit.
  destruct (digit_of a); [|discriminate].
  destruct (digit_of b); [|discriminate]. split; reflexivity.
Qed.

Lemma parse4_digits a b c d n :
  parse4 a b c d = Some n ->
  is_digit a = true /\ is_digit b = true /\
  is_digit c = true /\ is_digit d = true.
Proof.
  unfold parse4, is_digit.
  destruct (digit_of a); [|discriminate].
  destruct (digit_of b); [|discriminate].
  destruct (digit_of c); [|discriminate].
  destruct (digit_of d); [|discriminate]. repeat split; reflexivity.
Qed.

Lemma succeeds_generate_id_card c :
  succeeds c generate_id_card id_card_ok.
Proof.
  unfold generate_id_card.
  eapply succeeds_bind; [apply succeeds_randint; lia|]. intros y Hy.
  eapply succeeds_bind; [apply succeeds_randint; lia|]. intros m Hm.
  eapply succeeds_bind; [apply succeeds_randint; lia|]. intros d Hd.
  eapply succeeds_bind; [apply succeeds_random_digits|]. intros sq [Ls Ds].
  eapply succeeds_bind; [apply succeeds_randint; lia|]. intros k Hk.
  apply succeeds_ret. cbv beta in Hy, Hm, Hd, Hk.
  destruct (plain_year y Hy) as (y1 & y2 & y3 & y4 & -> & Py).
  destruct (two_digits m ltac:(lia)) as (m1 & m2 & -> & Pm).
  destruct (two_digits d ltac:(lia)) as (d1 & d2 & -> & Pd).
  destruct (str_digit k Hk) as [Lk Dk].
  destruct (parse4_digits _ _ _ _ _ Py) as (Y1 & Y2 & Y3 & Y4).
  destruct (parse2_digits _ _ _ Pm) as (M1 & M2).
  destruct (parse2_digits _ _ _ Pd) as (D1 & D2).
  unfold id_card_ok. cbn [append].
  split.
  { cbn [String.length]. rewrite string_length_append, Ls, Lk. reflexivity. }
  split.
  { cbn [all_digits]. rewrite Y1, Y2, Y3, Y4, M1, M2, D1, D2.
    rewrite all_digits_append, Ds, Dk. reflexivity. }
  split; [reflexivity|].
  exists y, m, d. split; [|repeat split; lia].
  unfold id_birth. cbn [String.substring].
  replace (String.substring 0 0 (sq ++ str k)) with EmptyString
    by (destruct (sq ++ str k)%string; reflexivity).
  rewrite Py, Pm, Pd. reflexivity.
Qed.

Lemma succeeds_generate_name c :
  succeeds c generate_name
           (fun s => exists a b, In a LAST_NAMES /\ In b FIRST_NAMES /\
                                 s = (a ++ b)%string).
Proof.
  unfold generate_name.
  eapply succeeds_bind; [apply succeeds_choice; discriminate|]. intros a Ha.
  eapply succeeds_bind; [apply succeeds_choice; discriminate|]. intros b Hb.
  apply succeeds_ret. exists a, b. repeat split; assumption.
Qed.

(** ** Employee identifiers read back *)

(** A non-negative integer prints as the digits of a decimal numeral. *)
Lemma str_nonneg n :
  0 <= n ->
  exists d, d <> Decimal.Nil /\ str n = NilEmpty.string_of_uint d
            /\ Z.of_uint d = n.
Proof.
  intros H. unfold str. destruct n as [|p|p]; [| |lia].
  - exists (Decimal.D0 Decimal.Nil). repeat split. discriminate.
  - exists (Pos.to_uint p).
    pose proof (DecimalPos.Unsigned.to_uint_nonnil p) as N.
    split; [exact N|]. split.
    + cbn. destruct (Pos.to_uint p); [contradiction| | | | | | | | | |];
        reflexivity.
    + pose proof (DecimalZ.of_to (Z.pos p)) as E. exact E.
Qed.

Lemma zfill_plain n width :
  0 <= n ->
  zfill (str n) width = (zeros (width - String.length (str n)) ++ str n)%string.
Proof.
  intros H. destruct (str_nonneg n H) as (d & N & E & _).
  rewrite E. unfold zfill.
  destruct d; [contradiction| | | | | | | | | |]; reflexivity.
Qed.

Lemma read_zeros k s :
  NilEmpty.uint_of_string (zeros k ++ s)
  = option_map (Nat.iter k Decimal.D0) (NilEmpty.uint_of_string s).
Proof.
  induction k as [|k IH]; cbn [zeros append Nat.iter].
  - destruct (NilEmpty.uint_of_string s); reflexivity.
  - cbn [NilEmpty.uint_of_string]. rewrite IH.
    destruct (NilEmpty.uint_of_string s); reflexivity.
Qed.

Lemma of_uint_zeros k d : Z.of_uint (Nat.iter k Decimal.D0 d) = Z.of_uint d.
Proof. induction k as [|k IH]; [reflexivity | exact IH]. Qed.

Lemma read_digits_zfill n width :
  0 <= n -> read_digits (zfill (str n) width) = Some n.
Proof.
  intros H. rewrite zfill_plain by exact H.
  destruct (str_nonneg n H) as (d & N & E & V).
  unfold read_digits.
  destruct (zeros (width - String.length (str n)) ++ str n)%string eqn:Z0.
  - exfalso. rewrite E in Z0.
    destruct (zeros (width - String.length (NilEmpty.string_of_uint d)));
      [|discriminate].
    destruct d; [contradiction| | | | | | | | | |]; discriminate.
  - rewrite <- Z0. rewrite read_zeros, E, NilEmpty.usu. cbn [option_map].
    rewrite of_uint_zeros, V. reflexivity.
Qed.

Lemma emp_number_emp_id n : 0 <= n -> emp_number (emp_id n) = Some n.
Proof.
  intros H. unfold emp_id, emp_number. cbn [append].
  cbn [Ascii.eqb Bool.eqb andb]. apply read_digits_zfill. exact H.
Qed.

(** ** [random_date] that cannot raise *)

Lemma datetime_ymd_valid y m d :
  1 <= ymd2ord y m d <= MAXORDINAL -> valid_datetime (datetime_ymd y m d).
Proof.
  intros H. unfold valid_datetime, datetime_ymd. cbn. repeat split; lia.
Qed.

(** With at least one whole day between its arguments [random_date]
    returns the start moved by whole days, still before the end. *)
Lemma succeeds_random_date c start_date end_date :
  valid_datetime start_date -> valid_datetime end_date ->
  dt_key start_date + 86400000000 <= dt_key end_date ->
  succeeds c (random_date start_date end_date)
           (fun d => valid_datetime d /\
                     ordinal start_date <= ordinal d /\
                     dt_key d < dt_key end_date /\
                     hour d = hour start_date /\
                     minute d = minute start_date /\
                     second d = second start_date /\
                     microsecond d = microsecond start_date).
Proof.
  intros Vs Ve Hday w Hw. unfold random_date. rewrite dt_sub_days.
  set (n := (dt_key end_date - dt_key start_date) / 86400000000).
  pose proof (Z.div_mod (dt_key end_date - dt_key start_date) 86400000000
                ltac:(lia)) as Edm.
  pose proof (Z.mod_pos_bound (dt_key end_date - dt_key start_date)
                86400000000 ltac:(lia)) as Bm.
  fold n in Edm.
  assert (Hn : 0 < n) by lia.
  destruct (randrange_total n w Hn) as (k & w1 & Ek).
  pose proof (randrange_Some _ _ _ _ Ek) as Bk.
  assert (Hw1 : clock w1 = c).
  { unfold randrange in Ek. apply Z.ltb_lt in Hn. rewrite Hn in Ek.
    unfold randbelow, bind, draw, ret in Ek. inversion Ek. cbn. exact Hw. }
  pose proof (dt_key_bounds _ Vs) as Ks.
  pose proof (dt_key_bounds _ Ve) as Ke.
  unfold bind. rewrite Ek. rewrite dt_add_days by exact Vs.
  assert (Hk : dt_key start_date + k * 86400000000 < dt_key end_date) by nia.
  destruct Vs as (Ho & Hh & Hm & Hsec & Hu).
  destruct Ve as (Ho' & _).
  assert (R : (0 <? ordinal start_date + k)
              && (ordinal start_date + k <=? MAXORDINAL) = true).
  { apply andb_true_iff. split; [apply Z.ltb_lt | apply Z.leb_le]; lia. }
  rewrite R. cbn [lift]. eexists. eexists. split; [reflexivity|].
  apply andb_true_iff in R. destruct R as [R1 R2].
  apply Z.ltb_lt in R1. apply Z.leb_le in R2.
  split; [|exact Hw1].
  cbn [ordinal hour minute second microsecond].
  split; [unfold valid_datetime; cbn; repeat split; lia|].
  split; [lia|]. split; [|repeat split; reflexivity].
  unfold dt_key in *. cbn [ordinal hour minute second microsecond]. lia.
Qed.

(** Between two midnights: the day number of the result is in the range. *)
Lemma succeeds_random_date_midnights c y1 m1 d1 y2 m2 d2 :
  1 <= ymd2ord y1 m1 d1 -> ymd2ord y1 m1 d1 < ymd2ord y2 m2 d2 ->
  ymd2ord y2 m2 d2 <= MAXORDINAL ->
  succeeds c (random_date (datetime_ymd y1 m1 d1) (datetime_ymd y2 m2 d2))
           (fun d => valid_datetime d /\
                     ymd2ord y1 m1 d1 <= ordinal d < ymd2ord y2 m2 d2).
Proof.
  intros H1 H12 H2.
  eapply succeeds_weaken.
  - apply succeeds_random_date.
    + apply datetime_ymd_valid. lia.
    + apply datetime_ymd_valid. lia.
    + unfold dt_key, datetime_ymd. cbn. lia.
  - intros d (V & Lo & Hi & _). split; [exact V|].
    cbn [ordinal datetime_ymd] in Lo. split; [exact Lo|].
    pose proof (dt_key_bounds d V) as B.
    unfold dt_key at 2 in Hi. cbn [ordinal hour minute second microsecond
                                   datetime_ymd] in Hi. lia.
Qed.

(** ** Employees *)

Lemma lower_append (a b : string) :
  lower (a ++ b) = (lower a ++ lower b)%string.
Proof. induction a as [|c a IH]; cbn; [reflexivity | rewrite IH; reflexivity]. Qed.

(** Lowering leaves the names of the pools as they are. *)
Lemma lower_pool_name a b :
  In a LAST_NAMES -> In b FIRST_NAMES -> lower (a ++ b) = (a ++ b)%string.
Proof.
  intros Ha Hb. rewrite lower_append. f_equal.
  - unfold LAST_NAMES in Ha.
    repeat (destruct Ha as [<-|Ha]; [reflexivity|]). destruct Ha.
  - unfold FIRST_NAMES in Hb.
    repeat (destruct Hb as [<-|Hb]; [reflexivity|]). destruct Hb.
Qed.

Lemma department_positions dept :
  In dept DEPARTMENTS ->
  exists ps, dict_get POSITIONS_BY_DEPT dept = Some ps /\ ps <> [].
Proof.
  intros H. unfold DEPARTMENTS in H.
  repeat (destruct H as [<-|H];
          [eexists; split; [reflexivity | discriminate]|]).
  destruct H.
Qed.

Lemma succeeds_employee_body c j :
  succeeds c (Employee.body j) (employee_inv j).
Proof.
  unfold Employee.body.
  eapply succeeds_bind; [apply succeeds_generate_name|].
  intros name (a & b & Ha & Hb & Hname).
  eapply succeeds_bind; [apply succeeds_choice; discriminate|].
  intros dept Hdept. cbv beta in Hdept.
  destruct (department_positions dept Hdept) as (ps & Eps & Nps).
  eapply succeeds_bind; [apply (succeeds_lift c _ ps (fun x => x = ps) Eps eq_refl)|].
  intros ps' ->.
  eapply succeeds_bind; [apply succeeds_choice; exact Nps|].
  intros position Hpos. cbv beta in Hpos.
  eapply succeeds_bind;
    [apply succeeds_random_date_midnights; vm_compute; congruence|].
  intros entry (Ve & He).
  eapply succeeds_bind; [apply succeeds_choice; discriminate|]. intros gender _.
  eapply succeeds_bind;
    [apply succeeds_random_date_midnights; vm_compute; congruence|].
  intros birth (Vb & Hbirth).
  eapply succeeds_bind; [apply succeeds_generate_id_card|]. intros idc Hid.
  eapply succeeds_bind; [apply succeeds_generate_phone|]. intros ph Hph.
  eapply succeeds_bind.
  { unfold generate_email.
    eapply succeeds_bind; [apply succeeds_randint; lia|]. intros n Hn.
    apply (succeeds_ret c _
             (fun e => exists n, 100 <= n <= 999 /\
                         e = (name ++ "." ++ str n ++ "@company.com")%string)).
    exists n. split; [exact Hn|].
    rewrite Hname, lower_pool_name by assumption. reflexivity. }
  intros email Hemail.
  eapply succeeds_bind; [apply succeeds_choice; discriminate|]. intros st _.
  eapply succeeds_bind; [apply succeeds_choice; discriminate|]. intros ty _.
  eapply succeeds_bind; [apply succeeds_generate_bank_card|]. intros bank Hbank.
  eapply succeeds_bind; [apply succeeds_choice; discriminate|]. intros city _.
  eapply succeeds_bind; [apply succeeds_choice; discriminate|]. intros dist _.
  eapply succeeds_bind; [apply succeeds_choice; discriminate|]. intros street _.
  eapply succeeds_bind; [apply succeeds_randint; lia|]. intros number _.
  eapply succeeds_bind; [apply succeeds_generate_name|]. intros contact _.
  eapply succeeds_bind; [apply succeeds_generate_phone|]. intros cph Hcph.
  apply succeeds_ret.
  constructor; cbn [Employee.emp Employee.name Employee.department
                    Employee.position Employee.entry_date Employee.birth_date
                    Employee.id_card Employee.phone Employee.emergency_phone
                    Employee.bank_card Employee.email];
    try assumption.
  - reflexivity.
  - exists a, b. repeat split; assumption.
  - exists ps. split; assumption.
  - exists (ordinal entry). split; [apply date_ordinal_strftime; exact Ve | exact He].
  - exists (ordinal birth). split; [apply date_ordinal_strftime; exact Vb | exact Hbirth].
Qed.

Lemma succeeds_generate_employees c count :
  succeeds c (Employee.generate_employees count)
           (fun rows => List.length rows = count /\
                        forall k r, nth_error rows k = Some r ->
                                    employee_inv (Z.of_nat k) r).
Proof.
  unfold Employee.generate_employees.
  apply succeeds_for_range. intros j. apply succeeds_employee_body.
Qed.

Lemma employees_rows count w :
  exists rows,
    run (Employee.generate_employees count) w = Some rows /\
    List.length rows = count /\
    forall k r, nth_error rows k = Some r -> employee_inv (Z.of_nat k) r.
Proof.
  destruct (succeeds_run _ _ w (succeeds_generate_employees (clock w) count))
    as (rows & R & L & H).
  exists rows. split; [exact R|]. split; [exact L | exact H].
Qed.

Lemma Forall_nth_error {A} (P : A -> Prop) (l : list A) :
  (forall k r, nth_error l k = Some r -> P r) -> Forall P l.
Proof.
  intros H. apply Forall_forall. intros r Hin.
  apply In_nth_error in Hin. destruct Hin as [k Hk]. apply (H k r Hk).
Qed.

(** X1. [generate_employees] never raises: for every count and every
    state of the generator and clock it returns exactly [count] rows; row
    number k (from 0) carries the identifier EMP followed by k + 1 padded to
    four digits, the number reads back from the identifier, and no two rows
    of a table share an identifier. *)
Theorem employee_ids_sequential_distinct count w :
  exists rows,
    run (Employee.generate_employees count) w = Some rows /\
    List.length rows = count /\
    (forall k r, nth_error rows k = Some r ->
                 Employee.emp r = emp_id (Z.of_nat k + 1) /\
                 emp_number (Employee.emp r) = Some (Z.of_nat k + 1)) /\
    NoDup (map Employee.emp rows).
Proof.
  destruct (employees_rows count w) as (rows & R & L & H).
  exists rows. split; [exact R|]. split; [exact L|].
  assert (N : forall k r, nth_error rows k = Some r ->
                Employee.emp r = emp_id (Z.of_nat k + 1) /\
                emp_number (Employee.emp r) = Some (Z.of_nat k + 1)).
  { intros k r E. pose proof (ei_emp _ _ (H k r E)) as Ee.
    split; [exact Ee|]. rewrite Ee. apply emp_number_emp_id. lia. }
  split; [exact N|].
  apply NoDup_nth_error. intros i j Hi E.
  rewrite length_map in Hi. rewrite !nth_error_map in E.
  destruct (nth_error rows i) as [ri|] eqn:Ei;
    [|apply nth_error_None in Ei; lia].
  destruct (nth_error rows j) as [rj|] eqn:Ej; [|discriminate].
  cbn in E. inversion E as [E'].
  destruct (N i ri Ei) as [_ Ni]. destruct (N j rj Ej) as [_ Nj].
  rewrite E' in Ni. rewrite Ni in Nj. inversion Nj. lia.
Qed.

(** X2. In every employee row the department is one of the eight of the
    pool and the position is one of the positions listed for that very
    department: the lookup of the department's positions never misses. *)
Theorem employee_position_of_department count w :
  exists rows,
    run (Employee.generate_employees count) w = Some rows /\
    Forall (fun r =>
              In (Employee.department r) DEPARTMENTS /\
              exists ps,
                dict_get POSITIONS_BY_DEPT (Employee.department r) = Some ps
                /\ In (Employee.position r) ps) rows.
Proof.
  destruct (employees_rows count w) as (rows & R & L & H).
  exists rows. split; [exact R|].
  apply Forall_nth_error. intros k r E. pose proof (H k r E) as I.
  split; [exact (ei_department _ _ I) | exact (ei_position _ _ I)].
Qed.

(** X3. In every employee row the printed entry date is a day from
    2018-01-01 to 2024-09-30 and the printed birth date a day from
    1980-01-01 to 2002-12-30: the end day of each range is never drawn. *)
Theorem employee_dates_in_range count w :
  exists rows,
    run (Employee.generate_employees count) w = Some rows /\
    Forall (fun r =>
              (exists o, date_ordinal (Employee.entry_date r) = Some o /\
                         ymd2ord 2018 1 1 <= o <= ymd2ord 2024 9 30) /\
              (exists o, date_ordinal (Employee.birth_date r) = Some o /\
                         ymd2ord 1980 1 1 <= o <= ymd2ord 2002 12 30)) rows.
Proof.
  destruct (employees_rows count w) as (rows & R & L & H).
  exists rows. split; [exact R|].
  apply Forall_nth_error. intros k r E. pose proof (H k r E) as I.
  destruct (ei_entry _ _ I) as (o1 & D1 & B1).
  destruct (ei_birth _ _ I) as (o2 & D2 & B2).
  split.
  - exists o1. split; [exact D1|].
    change (ymd2ord 2024 10 1) with (ymd2ord 2024 9 30 + 1) in B1. lia.
  - exists o2. split; [exact D2|].
    change (ymd2ord 2002 12 31) with (ymd2ord 2002 12 30 + 1) in B2. lia.
Qed.

(** X4. In every employee row the e-mail address is the row's own name,
    unchanged by the lowering, then a dot, a number from 100 to 999 and
    "@company.com". *)
Theorem employee_email_of_name count w :
  exists rows,
    run (Employee.generate_employees count) w = Some rows /\
    Forall (fun r =>
              exists n, 100 <= n <= 999 /\
                Employee.email r
                = (Employee.name r ++ "." ++ str n ++ "@company.com")%string)
           rows.
Proof.
  destruct (employees_rows count w) as (rows & R & L & H).
  exists rows. split; [exact R|].
  apply Forall_nth_error. intros k r E. exact (ei_email _ _ (H k r E)).
Qed.

(** X5. [generate_phone] never raises and returns 11 decimal digits, the
    first three being one of the 29 carrier prefixes. *)
Theorem phone_number_format w :
  exists s w', generate_phone w = Some (s, w') /\ phone_ok s.
Proof.
  destruct (succeeds_generate_phone (clock w) w eq_refl) as (s & w' & E & P & _).
  exists s, w'. split; assumption.
Qed.

(** X6. [generate_id_card] never raises and returns 18 decimal digits: the
    area code 110101, then a birth date that reads back as a year of
    1970..2000, a month of 1..12 and a day of 1..28 (so it is a date of the
    calendar), then four more digits. *)
Theorem identity_number_format w :
  exists s w', generate_id_card w = Some (s, w') /\ id_card_ok s.
Proof.
  destruct (succeeds_generate_id_card (clock w) w eq_refl)
    as (s & w' & E & P & _).
  exists s, w'. split; assumption.
Qed.

(** X7. [generate_bank_card] never raises and returns 19 decimal digits,
    the first four being 6217. *)
Theorem bank_card_format w :
  exists s w', generate_bank_card w = Some (s, w') /\ bank_card_ok s.
Proof.
  destruct (succeeds_generate_bank_card (clock w) w eq_refl)
    as (s & w' & E & P & _).
  exists s, w'. split; assumption.
Qed.

(** ** Departments *)

Lemma succeeds_department_body c item :
  succeeds c (Department.body item) (department_inv item).
Proof.
  destruct item as [dept_name inf]. unfold Department.body.
  eapply succeeds_bind;
    [apply succeeds_random_date_midnights; vm_compute; congruence|].
  intros day (V & Hday). apply succeeds_ret.
  constructor; cbn [Department.name Department.code Department.head
                    Department.headcount Department.founded
                    Department.parent fst snd];
    try reflexivity.
  exists (ordinal day). split; [apply date_ordinal_strftime; exact V | exact Hday].
Qed.

Lemma Forall2_map_eq {A B C} (P : A -> B -> Prop) (f : B -> C) (g : A -> C)
      xs rows :
  Forall2 P xs rows -> (forall x r, P x r -> f r = g x) ->
  map f rows = map g xs.
Proof.
  intros F H. induction F as [|x r xs rows Pxr F IH]; [reflexivity|].
  cbn. rewrite (H x r Pxr), IH. reflexivity.
Qed.

Lemma Forall2_Forall_right {A B} (P : A -> B -> Prop) (Q : B -> Prop) xs rows :
  Forall2 P xs rows -> (forall x r, In x xs -> P x r -> Q r) ->
  Forall Q rows.
Proof.
  intros F. induction F as [|x r xs rows Pxr F IH]; intros H; constructor.
  - apply (H x r); [left; reflexivity | exact Pxr].
  - apply IH. intros y s Hy. apply H. right. exact Hy.
Qed.

(** X8. [generate_departments] never raises and returns eight rows, the
    departments of the pool employees are drawn from, in the pool's order,
    with the codes TECH, PROD, HR, FIN, MKT, OPS, SALES and CS; every row
    has the parent 总经办 (the empty parent is never written) and a founding
    date from 2015-01-01 to 2020-12-30. *)
Theorem departments_table w :
  exists rows,
    run Department.generate_departments w = Some rows /\
    map Department.name rows = DEPARTMENTS /\
    map Department.code rows
    = ["TECH"; "PROD"; "HR"; "FIN"; "MKT"; "OPS"; "SALES"; "CS"]%string /\
    Forall (fun r =>
              Department.parent r = "总经办"%string /\
              exists o, date_ordinal (Department.founded r) = Some o /\
                        ymd2ord 2015 1 1 <= o <= ymd2ord 2020 12 30) rows.
Proof.
  assert (S : succeeds (clock w) Department.generate_departments
                (fun rows => Forall2 department_inv Department.dept_info rows)).
  { unfold Department.generate_departments. apply succeeds_for_each.
    intros x _. apply succeeds_department_body. }
  destruct (succeeds_run _ _ w S) as (rows & R & F).
  exists rows. split; [exact R|]. split; [|split].
  - rewrite (Forall2_map_eq _ Department.name fst _ _ F);
      [reflexivity | intros x r I; exact (di_name _ _ I)].
  - rewrite (Forall2_map_eq _ Department.code
               (fun x => Department.info_code (snd x)) _ _ F);
      [reflexivity | intros x r I; exact (di_code _ _ I)].
  - apply (Forall2_Forall_right _ _ _ _ F). intros x r Hx I. split.
    + rewrite (di_parent _ _ I). unfold Department.dept_info in Hx.
      repeat (destruct Hx as [<-|Hx]; [reflexivity|]). destruct Hx.
    + destruct (di_founded _ _ I) as (o & D & B). exists o.
      split; [exact D|].
      change (ymd2ord 2020 12 31) with (ymd2ord 2020 12 30 + 1) in B. lia.
Qed.

(** ** Tables that do not read the clock *)

Lemma clock_free_ret {A} (a : A) : clock_free (ret a).
Proof. intros w c t. reflexivity. Qed.

Lemma clock_free_raise {A} : clock_free (@raise A).
Proof. intros w c t. reflexivity. Qed.

Lemma clock_free_lift {A} (o : option A) : clock_free (lift o).
Proof. intros w c t. destruct o; reflexivity. Qed.

Lemma clock_free_bind {A B} (m : M A) (k : A -> M B) :
  clock_free m -> (forall a, clock_free (k a)) -> clock_free (bind m k).
Proof.
  intros Hm Hk w c t. unfold bind. rewrite Hm.
  destruct (m w) as [[a w']|]; [apply Hk | reflexivity].
Qed.

Lemma clock_free_draw : clock_free draw.
Proof. intros w c t. reflexivity. Qed.

Lemma clock_free_randbelow n : clock_free (randbelow n).
Proof.
  apply clock_free_bind; [apply clock_free_draw|].
  intros a. apply clock_free_ret.
Qed.

Lemma clock_free_randrange n : clock_free (randrange n).
Proof.
  unfold randrange. destruct (0 <? n);
    [apply clock_free_randbelow | apply clock_free_raise].
Qed.

Lemma clock_free_randint a b : clock_free (randint a b).
Proof.
  unfold randint. destruct (0 <? b + 1 - a); [|apply clock_free_raise].
  apply clock_free_bind; [apply clock_free_randbelow|].
  intros r. apply clock_free_ret.
Qed.

Lemma clock_free_choice {A} (seq : list A) : clock_free (choice seq).
Proof.
  destruct seq as [|a l]; [apply clock_free_raise|].
  apply clock_free_bind; [apply clock_free_randbelow|].
  intros i. apply clock_free_lift.
Qed.

Lemma clock_free_uniform a b : clock_free (uniform a b).
Proof.
  apply clock_free_bind.
  - apply clock_free_bind; [apply clock_free_draw|].
    intros x. apply clock_free_ret.
  - intros r. apply clock_free_ret.
Qed.

Lemma clock_free_for_range_from {A} (body : Z -> M A) count :
  (forall j, clock_free (body j)) ->
  forall i, clock_free (for_range_from i count body).
Proof.
  intros Hb. induction count as [|n IH]; intros i; cbn [for_range_from].
  - apply clock_free_ret.
  - apply clock_free_bind; [apply Hb|]. intros x.
    apply clock_free_bind; [apply IH|]. intros xs. apply clock_free_ret.
Qed.

Lemma clock_free_for_each {A B} (body : A -> M B) xs :
  (forall x, clock_free (body x)) -> clock_free (for_each xs body).
Proof.
  intros Hb. induction xs as [|x rest IH]; cbn [for_each].
  - apply clock_free_ret.
  - apply clock_free_bind; [apply Hb|]. intros y.
    apply clock_free_bind; [apply IH|]. intros ys. apply clock_free_ret.
Qed.

Lemma clock_free_generate_name : clock_free generate_name.
Proof.
  apply clock_free_bind; [apply clock_free_choice|]. intros a.
  apply clock_free_bind; [apply clock_free_choice|]. intros b.
  apply clock_free_ret.
Qed.

Lemma clock_free_random_date s e : clock_free (random_date s e).
Proof.
  apply clock_free_bind; [apply clock_free_randrange|].
  intros k. apply clock_free_lift.
Qed.

Lemma clock_free_random_digits n : clock_free (random_digits n).
Proof.
  apply clock_free_bind.
  - apply clock_free_for_range_from. intros j.
    apply clock_free_bind; [apply clock_free_randint|].
    intros d. apply clock_free_ret.
  - intros ds. apply clock_free_ret.
Qed.

(** Applies the rules along a chain of binds, by the shape of the goal. *)
Ltac clock_free_chain :=
  repeat lazymatch goal with
  | |- clock_free (bind _ _) => apply clock_free_bind; [|intros ?]
  | |- clock_free (ret _) => apply clock_free_ret
  | |- clock_free (lift _) => apply clock_free_lift
  | |- clock_free generate_name => apply clock_free_generate_name
  | |- clock_free (random_date _ _) => apply clock_free_random_date
  | |- clock_free (random_digits _) => apply clock_free_random_digits
  | |- clock_free (randint _ _) => apply clock_free_randint
  | |- clock_free (choice _) => apply clock_free_choice
  | |- clock_free (uniform _ _) => apply clock_free_uniform
  end.

Lemma clock_free_generate_phone : clock_free generate_phone.
Proof. unfold generate_phone. clock_free_chain. Qed.

Lemma clock_free_generate_id_card : clock_free generate_id_card.
Proof. unfold generate_id_card. cbv zeta. clock_free_chain. Qed.

Lemma clock_free_generate_bank_card : clock_free generate_bank_card.
Proof. unfold generate_bank_card. clock_free_chain. Qed.

Lemma clock_free_generate_email name company :
  clock_free (generate_email name company).
Proof. unfold generate_email. clock_free_chain. Qed.

Lemma clock_free_employee_body j : clock_free (Employee.body j).
Proof.
  unfold Employee.body.
  repeat first
    [ progress clock_free_chain
    | apply clock_free_generate_phone
    | apply clock_free_generate_id_card
    | apply clock_free_generate_bank_card
    | apply clock_free_generate_email ].
Qed.

Lemma clock_free_department_body item : clock_free (Department.body item).
Proof.
  destruct item as [dept_name inf]. unfold Department.body. clock_free_chain.
Qed.

Lemma clock_free_leave_body j : clock_free (AnnualLeave.body j).
Proof. unfold AnnualLeave.body. cbv zeta. clock_free_chain. Qed.

(** Two worlds with the same draws ahead give a clock-free computation the
    same value. *)
Lemma clock_free_run {A} (m : M A) w1 w2 :
  clock_free m -> tape w1 = tape w2 -> pos w1 = pos w2 ->
  run m w1 = run m w2.
Proof.
  intros H Et Ep.
  assert (E : w2 = set_clock w1 (clock w2) (tick w2)).
  { destruct w1, w2. cbn in *. subst. reflexivity. }
  rewrite E. unfold run. rewrite H.
  destruct (m w1) as [[a w']|]; reflexivity.
Qed.

(** X9. The employee, department and leave-balance tables depend on the
    state of the random generator only: two runs that start with the same
    draws ahead return the same rows, or both raise, whatever their clocks
    read. *)
Theorem clock_free_tables count w1 w2 :
  tape w1 = tape w2 -> pos w1 = pos w2 ->
  run (Employee.generate_employees count) w1
  = run (Employee.generate_employees count) w2 /\
  run Department.generate_departments w1
  = run Department.generate_departments w2 /\
  run (AnnualLeave.generate_annual_leaves count) w1
  = run (AnnualLeave.generate_annual_leaves count) w2.
Proof.
  intros Et Ep. split; [|split]; apply clock_free_run; try assumption.
  - apply clock_free_for_range_from. apply clock_free_employee_body.
  - apply clock_free_for_each. apply clock_free_department_body.
  - apply clock_free_for_range_from. apply clock_free_leave_body.
Qed.

Lemma clock_free_tables_witness :
  tape sample_world = tape sample_world_later /\
  pos sample_world = pos sample_world_later /\
  run (Employee.generate_employees 3) sample_world
  = run (Employee.generate_employees 3) sample_world_later /\
  run Department.generate_departments sample_world
  = run Department.generate_departments sample_world_later /\
  run (AnnualLeave.generate_annual_leaves 3) sample_world
  = run (AnnualLeave.generate_annual_leaves 3) sample_world_later.
Proof.
  split; [reflexivity|]. split; [reflexivity|].
  apply (clock_free_tables 3 sample_world sample_world_later); reflexivity.
Defined.

(** ** The tables that read the clock, with a sane clock *)

Lemma dt_key_fromtimestamp t d : fromtimestamp t = Some d -> dt_key d = t.
Proof.
  unfold fromtimestamp.
  destruct ((1 <=? t / 86400000000) && (t / 86400000000 <=? MAXORDINAL));
    [|discriminate].
  intros H. inversion H. subst d. clear H. unfold dt_key.
  cbn [ordinal hour minute second microsecond].
  pose proof (Z.div_mod t 86400000000 ltac:(lia)) as E0.
  set (u := t mod 86400000000) in *.
  pose proof (Z.div_mod u 3600000000 ltac:(lia)) as E1.
  pose proof (Z.div_mod (u / 60000000) 60 ltac:(lia)) as E2.
  pose proof (Z.div_mod (u / 1000000) 60 ltac:(lia)) as E3.
  pose proof (Z.div_mod u 1000000 ltac:(lia)) as E4.
  assert (A : u / 60000000 / 60 = u / 3600000000)
    by (rewrite Z.div_div by lia; reflexivity).
  assert (B : u / 1000000 / 60 = u / 60000000)
    by (rewrite Z.div_div by lia; reflexivity).
  rewrite A in E2. rewrite B in E3. lia.
Qed.

(** A reading of a sane clock is a datetime with room for the 180 days the
    script goes back and the 7 days it goes forward. *)
Lemma reading_sane c now :
  sane_clock c -> reading c now ->
  valid_datetime now /\ 181 <= ordinal now <= MAXORDINAL - 7 /\
  exists n, dt_key now = c n.
Proof.
  intros [Hr _] [n E].
  pose proof (fromtimestamp_valid _ _ E) as V.
  pose proof (dt_key_fromtimestamp _ _ E) as K.
  pose proof (dt_key_bounds now V) as B. specialize (Hr n).
  split; [exact V|]. split; [lia|]. exists n. exact K.
Qed.

Lemma succeeds_now c :
  sane_clock c -> succeeds c datetime_now (reading c).
Proof.
  intros [Hr _] w Hw. unfold datetime_now. rewrite Hw.
  specialize (Hr (tick w)).
  assert (E : exists d, fromtimestamp (c (tick w)) = Some d).
  { unfold fromtimestamp.
    assert (R : (1 <=? c (tick w) / 86400000000)
                && (c (tick w) / 86400000000 <=? MAXORDINAL) = true).
    { apply andb_true_iff. unfold MAXORDINAL in *.
      split; apply Z.leb_le.
      - apply Z.div_le_lower_bound; lia.
      - apply Z.lt_succ_r. apply Z.div_lt_upper_bound; lia. }
    rewrite R. eexists. reflexivity. }
  destruct E as [d E]. rewrite E. eexists. eexists.
  split; [reflexivity|]. split; [exists (tick w); exact E | reflexivity].
Qed.

Lemma dt_sub_td_days_total d k :
  valid_datetime d -> 1 <= ordinal d - k <= MAXORDINAL ->
  dt_sub_td d (timedelta_of k 0 0)
  = Some (mkDatetime (ordinal d - k) (hour d) (minute d) (second d)
                     (microsecond d)).
Proof.
  intros V H. unfold dt_sub_td. rewrite td_neg_days, dt_add_days by exact V.
  replace (ordinal d + - k) with (ordinal d - k) by ring.
  assert (R : (0 <? ordinal d - k) && (ordinal d - k <=? MAXORDINAL) = true).
  { apply andb_true_iff. split; [apply Z.ltb_lt | apply Z.leb_le]; lia. }
  rewrite R. reflexivity.
Qed.

Lemma dt_add_days_total d k :
  valid_datetime d -> 1 <= ordinal d + k <= MAXORDINAL ->
  dt_add d (timedelta_of k 0 0)
  = Some (mkDatetime (ordinal d + k) (hour d) (minute d) (second d)
                     (microsecond d)).
Proof.
  intros V H. rewrite dt_add_days by exact V.
  assert (R : (0 <? ordinal d + k) && (ordinal d + k <=? MAXORDINAL) = true).
  { apply andb_true_iff. split; [apply Z.ltb_lt | apply Z.leb_le]; lia. }
  rewrite R. reflexivity.
Qed.

(** Going back [k] days from a reading, for [0 <= k <= 180]. *)
Lemma succeeds_days_back c now k :
  sane_clock c -> reading c now -> 0 <= k <= 180 ->
  succeeds c (lift (dt_sub_td now (timedelta_of k 0 0)))
           (fun d => valid_datetime d /\ ordinal d = ordinal now - k /\
                     dt_key d = dt_key now - k * 86400000000).
Proof.
  intros S R Hk. destruct (reading_sane c now S R) as (V & O & _).
  unfold MAXORDINAL in O.
  eapply succeeds_lift;
    [apply dt_sub_td_days_total; [exact V | unfold MAXORDINAL; lia]|].
  destruct V as (Vo & Vh & Vm & Vs & Vu).
  split; [unfold valid_datetime, MAXORDINAL in *; cbn; repeat split; lia|].
  split; [reflexivity|]. unfold dt_key. cbn. lia.
Qed.

Lemma dt_replace_total d h m :
  0 <= h < 24 -> 0 <= m < 60 ->
  dt_replace d h m = Some (mkDatetime (ordinal d) h m (second d) (microsecond d)).
Proof.
  intros Hh Hm. unfold dt_replace.
  assert (R : (0 <=? h) && (h <? 24) && (0 <=? m) && (m <? 60) = true).
  { repeat (apply andb_true_iff; split);
      try (apply Z.leb_le; lia); apply Z.ltb_lt; lia. }
  rewrite R. reflexivity.
Qed.

Lemma succeeds_lift_any {A} c (o : option A) a :
  o = Some a -> succeeds c (lift o) (fun _ => True).
Proof. intros E. apply (succeeds_lift c o a (fun _ => True) E I). Qed.

Lemma succeeds_attendance_body c i :
  sane_clock c -> succeeds c (Attendance.body i) (fun _ => True).
Proof.
  intros S. unfold Attendance.body.
  eapply succeeds_bind; [apply succeeds_now; exact S|]. intros now R.
  eapply succeeds_bind; [apply succeeds_randint; lia|]. intros back Hb.
  cbv beta in Hb.
  eapply succeeds_bind; [apply (succeeds_days_back c now back S R); lia|].
  intros day (Vd & _ & _).
  eapply succeeds_bind; [apply succeeds_randint; lia|]. intros m0 Hm0.
  cbv beta in Hm0.
  eapply succeeds_bind.
  { eapply succeeds_lift_any.
    apply dt_replace_total; destruct (30 <? m0) eqn:C;
      [apply Z.ltb_lt in C | apply Z.ltb_ge in C | apply Z.ltb_lt in C
       | apply Z.ltb_ge in C]; lia. }
  intros cin _.
  eapply succeeds_bind; [apply succeeds_randint; lia|]. intros oh Hoh.
  cbv beta in Hoh.
  eapply succeeds_bind.
  { apply (succeeds_weaken c _ (fun x => 0 <= x <= 59) (fun x => 0 <= x <= 59)).
    - destruct (oh =? 17).
      + eapply succeeds_weaken; [apply succeeds_randint; lia|].
        intros x Hx. cbv beta in Hx. lia.
      + apply succeeds_randint; lia.
    - intros x Hx. exact Hx. }
  intros om Hom. cbv beta in Hom.
  eapply succeeds_bind.
  { eapply succeeds_lift_any. apply dt_replace_total; lia. }
  intros cout _.
  eapply succeeds_bind with (P := fun _ => True).
  { destruct (_ && _); [apply succeeds_ret; exact I|].
    destruct (oh <? 18); [apply succeeds_ret; exact I|].
    eapply succeeds_weaken; [apply succeeds_choice; discriminate|].
    intros; exact I. }
  intros st _.
  eapply succeeds_bind; [apply succeeds_randint; lia|]. intros emp_no _.
  eapply succeeds_bind; [apply succeeds_generate_name|]. intros nm _.
  eapply succeeds_bind; [apply succeeds_choice; discriminate|]. intros loc _.
  eapply succeeds_bind; [apply succeeds_choice; discriminate|]. intros src _.
  eapply succeeds_bind with (P := fun _ => True).
  { destruct (String.eqb st Attendance.NORMAL); [apply succeeds_ret; exact I|].
    eapply succeeds_weaken; [apply succeeds_choice; discriminate|].
    intros; exact I. }
  intros rem _. apply succeeds_ret. exact I.
Qed.

Lemma succeeds_uniform c a b :
  0 <= a <= b -> b < 2 ^ 53 ->
  succeeds c (uniform a b) (fun u => (inject_Z a <= u <= inject_Z b)%Q).
Proof.
  intros Hab Hb. unfold uniform.
  eapply succeeds_bind; [apply succeeds_random|].
  intros r (m & Hm & ->). apply succeeds_ret.
  apply uniform_value; [exact Hab | exact Hb | |];
    unfold Qle; cbn [Qnum Qden]; cbn; lia.
Qed.

Lemma succeeds_leave_body c i :
  succeeds c (AnnualLeave.body i) (fun _ => True).
Proof.
  unfold AnnualLeave.body.
  eapply succeeds_bind; [apply succeeds_choice; discriminate|].
  intros days Hd. cbv beta in Hd.
  eapply succeeds_bind.
  { apply succeeds_uniform;
      destruct Hd as [<-|[<-|[<-|[<-|[<-|[]]]]]]; (lia || reflexivity). }
  intros u _.
  eapply succeeds_bind; [apply succeeds_generate_name|]. intros nm _.
  eapply succeeds_bind; [apply succeeds_randint; lia|]. intros c1 _.
  eapply succeeds_bind; [apply succeeds_randint; lia|]. intros c2 _.
  eapply succeeds_bind; [apply succeeds_randint; lia|]. intros y _.
  apply succeeds_ret. exact I.
Qed.

Lemma succeeds_contribution_body c i :
  sane_clock c -> succeeds c (SocialSecurity.body i) (fun _ => True).
Proof.
  intros S. unfold SocialSecurity.body.
  eapply succeeds_bind; [apply succeeds_choice; discriminate|]. intros base _.
  eapply succeeds_bind; [apply succeeds_generate_name|]. intros nm _.
  eapply succeeds_bind; [apply succeeds_now; exact S|]. intros now R.
  eapply succeeds_bind; [apply succeeds_randint; lia|]. intros back Hb.
  cbv beta in Hb.
  eapply succeeds_bind; [apply (succeeds_days_back c now back S R); lia|].
  intros paid _.
  eapply succeeds_bind; [apply succeeds_choice; discriminate|]. intros st _.
  apply succeeds_ret. exact I.
Qed.

Lemma succeeds_meal_body c i :
  sane_clock c -> succeeds c (Meal.body i) (fun _ => True).
Proof.
  intros S. unfold Meal.body.
  eapply succeeds_bind; [apply succeeds_choice; discriminate|].
  intros mt Hmt. cbv beta in Hmt.
  assert (L : exists lo hi, Meal.lookup mt Meal.meal_types = Some (lo, hi)
                            /\ 0 <= lo <= hi /\ hi <= 35).
  { cbn in Hmt. destruct Hmt as [<-|[<-|[<-|[]]]];
      eexists; eexists; (split; [reflexivity | lia]). }
  destruct L as (lo & hi & El & Hl).
  eapply succeeds_bind;
    [apply (succeeds_lift c _ (lo, hi) (fun x => x = (lo, hi)) El eq_refl)|].
  intros pr ->. cbn [fst snd].
  eapply succeeds_bind.
  { apply succeeds_uniform;
      [lia | apply Z.le_lt_trans with 35; [lia | reflexivity]]. }
  intros u _.
  eapply succeeds_bind; [apply succeeds_choice; discriminate|]. intros f _.
  eapply succeeds_bind; [apply succeeds_randint; lia|]. intros emp_no _.
  eapply succeeds_bind; [apply succeeds_generate_name|]. intros nm _.
  eapply succeeds_bind; [apply succeeds_now; exact S|]. intros now R.
  eapply succeeds_bind; [apply succeeds_randint; lia|]. intros back Hb.
  cbv beta in Hb.
  eapply succeeds_bind; [apply (succeeds_days_back c now back S R); lia|].
  intros day _.
  eapply succeeds_bind; [apply succeeds_choice; discriminate|]. intros pl _.
  eapply succeeds_bind; [apply succeeds_choice; discriminate|]. intros pay _.
  eapply succeeds_bind; [apply succeeds_randint; lia|]. intros stars _.
  apply succeeds_ret. exact I.
Qed.

(** The start drawn between a reading moved back [k] days, for
    [60 <= k <= 90], and a later reading. *)
Lemma succeeds_recent_date c now1 now2 from k :
  sane_clock c -> reading c now1 -> reading c now2 -> 60 <= k <= 90 ->
  valid_datetime from -> ordinal from = ordinal now1 - k ->
  dt_key from = dt_key now1 - k * 86400000000 ->
  succeeds c (random_date from now2)
           (fun d => valid_datetime d /\ 1 <= ordinal d <= MAXORDINAL - 7).
Proof.
  intros S R1 R2 Hk Vf Of Kf.
  destruct (reading_sane c now1 S R1) as (V1 & O1 & n1 & K1).
  destruct (reading_sane c now2 S R2) as (V2 & O2 & n2 & K2).
  destruct S as [_ Hs]. specialize (Hs n1 n2).
  eapply succeeds_weaken.
  - apply succeeds_random_date; [exact Vf | exact V2 | lia].
  - intros d (Vd & Lo & Hi & _). split; [exact Vd|].
    pose proof (dt_key_bounds d Vd) as B.
    pose proof (dt_key_bounds now2 V2) as B2. lia.
Qed.

Lemma succeeds_trip_body c i :
  sane_clock c -> succeeds c (BusinessTrip.body i) (fun _ => True).
Proof.
  intros S. unfold BusinessTrip.body.
  eapply succeeds_bind; [apply succeeds_now; exact S|]. intros now1 R1.
  eapply succeeds_bind; [apply (succeeds_days_back c now1 90 S R1); lia|].
  intros from (Vf & Of & Kf).
  eapply succeeds_bind; [apply succeeds_now; exact S|]. intros now2 R2.
  eapply succeeds_bind;
    [apply (succeeds_recent_date c now1 now2 from 90 S R1 R2); try assumption;
     lia|].
  intros start (Vs & Os).
  eapply succeeds_bind; [apply succeeds_randint; lia|]. intros n Hn.
  cbv beta in Hn.
  eapply succeeds_bind.
  { eapply succeeds_lift_any. apply dt_add_days_total; [exact Vs | lia]. }
  intros finish _.
  eapply succeeds_bind; [apply succeeds_choice; discriminate|]. intros daily _.
  eapply succeeds_bind; [apply succeeds_randint; lia|]. intros room _.
  eapply succeeds_bind; [apply succeeds_randint; lia|]. intros tr _.
  eapply succeeds_bind; [apply succeeds_randint; lia|]. intros mr _.
  eapply succeeds_bind; [apply succeeds_now; exact S|]. intros now3 _.
  eapply succeeds_bind; [apply succeeds_randint; lia|]. intros emp_no _.
  eapply succeeds_bind; [apply succeeds_generate_name|]. intros nm _.
  eapply succeeds_bind; [apply succeeds_choice; discriminate|]. intros dest _.
  eapply succeeds_bind; [apply succeeds_choice; discriminate|]. intros why _.
  eapply succeeds_bind; [apply succeeds_choice; discriminate|]. intros appr _.
  apply succeeds_ret. exact I.
Qed.

Lemma succeeds_onboarding_body c i :
  sane_clock c -> succeeds c (Onboarding.body i) (fun _ => True).
Proof.
  intros S. unfold Onboarding.body.
  eapply succeeds_bind; [apply succeeds_now; exact S|]. intros now1 R1.
  eapply succeeds_bind; [apply (succeeds_days_back c now1 60 S R1); lia|].
  intros from (Vf & Of & Kf).
  eapply succeeds_bind; [apply succeeds_now; exact S|]. intros now2 R2.
  eapply succeeds_bind;
    [apply (succeeds_recent_date c now1 now2 from 60 S R1 R2); try assumption;
     lia|].
  intros created (Vc & Oc).
  eapply succeeds_bind; [apply succeeds_generate_name|]. intros nm _.
  eapply succeeds_bind; [apply succeeds_choice; discriminate|]. intros st _.
  eapply succeeds_bind; [apply succeeds_choice; discriminate|]. intros ch _.
  eapply succeeds_bind; [apply succeeds_random|]. intros r _.
  eapply succeeds_bind with (P := fun _ => True).
  { destruct (negb (Qle_bool r 0.3)); [|apply succeeds_ret; exact I].
    eapply succeeds_bind; [apply succeeds_randint; lia|]. intros n Hn.
    cbv beta in Hn.
    eapply succeeds_bind.
    { eapply succeeds_lift_any. apply dt_add_days_total; [exact Vc | lia]. }
    intros d _. apply succeeds_ret. exact I. }
  intros done _.
  eapply succeeds_bind; [apply succeeds_choice; discriminate|]. intros full _.
  eapply succeeds_bind; [apply succeeds_choice; discriminate|]. intros by_whom _.
  apply succeeds_ret. exact I.
Qed.

(** A loop of [count] iterations that cannot raise returns [count] rows. *)
Lemma succeeds_rows {A} c (body : Z -> M A) count :
  (forall j, succeeds c (body j) (fun _ => True)) ->
  succeeds c (for_range count body) (fun rows => List.length rows = count).
Proof.
  intros H. eapply succeeds_weaken.
  - apply (succeeds_for_range c body (fun _ _ => True) count H).
  - intros rows [L _]. exact L.
Qed.

Lemma steady_clock_sane : sane_clock steady_clock.
Proof.
  unfold sane_clock, steady_clock, sample_clock, MAXORDINAL.
  split; intros; lia.
Qed.

(** X10. With a sane clock (every reading a date from 0001-06-30 to seven
    days before 9999-12-31, any two readings less than 59 days apart) the
    five generators that read the clock never raise: each returns exactly
    [count] rows. *)
Theorem clocked_tables_return_rows count w :
  sane_clock (clock w) ->
  (exists rows, run (Attendance.generate_attendance count) w = Some rows
                /\ List.length rows = count) /\
  (exists rows, run (SocialSecurity.generate_social_security count) w
                = Some rows /\ List.length rows = count) /\
  (exists rows, run (BusinessTrip.generate_business_trips count) w = Some rows
                /\ List.length rows = count) /\
  (exists rows, run (Meal.generate_meal_records count) w = Some rows
                /\ List.length rows = count) /\
  (exists rows, run (Onboarding.generate_onboarding count) w = Some rows
                /\ List.length rows = count).
Proof.
  intros S.
  split; [|split; [|split; [|split]]]; apply succeeds_run; apply succeeds_rows;
    intros j.
  - apply succeeds_attendance_body; exact S.
  - apply succeeds_contribution_body; exact S.
  - apply succeeds_trip_body; exact S.
  - apply succeeds_meal_body; exact S.
  - apply succeeds_onboarding_body; exact S.
Qed.

Lemma clocked_tables_return_rows_witness :
  sane_clock (clock steady_world) /\
  (exists rows, run (Attendance.generate_attendance 3) steady_world = Some rows
                /\ List.length rows = 3%nat) /\
  (exists rows, run (SocialSecurity.generate_social_security 3) steady_world
                = Some rows /\ List.length rows = 3%nat) /\
  (exists rows, run (BusinessTrip.generate_business_trips 3) steady_world
                = Some rows /\ List.length rows = 3%nat) /\
  (exists rows, run (Meal.generate_meal_records 3) steady_world = Some rows
                /\ List.length rows = 3%nat) /\
  (exists rows, run (Onboarding.generate_onboarding 3) steady_world = Some rows
                /\ List.length rows = 3%nat).
Proof.
  split; [exact steady_clock_sane|].
  apply (clocked_tables_return_rows 3 steady_world). exact steady_clock_sane.
Defined.

(** X11. With a sane clock [main] never reaches its exception handler: it
    makes all eight tables, with 20, 8, 20, 20, 20, 20, 20 and 20 rows. *)
Theorem main_completes w :
  sane_clock (clock w) ->
  exists t, run main w = Some t /\
            table_sizes t = [20; 8; 20; 20; 20; 20; 20; 20]%nat.
Proof.
  intros S. apply succeeds_run. unfold main.
  eapply succeeds_bind.
  { eapply succeeds_weaken; [apply succeeds_generate_employees|].
    intros rows [L _]. exact L. }
  intros e Le.
  eapply succeeds_bind.
  { unfold Department.generate_departments.
    apply (succeeds_for_each _ _ (fun _ _ => True)).
    intros x _. eapply succeeds_weaken; [apply succeeds_department_body|].
    intros; exact I. }
  intros d Fd. apply Forall2_length in Fd.
  eapply succeeds_bind;
    [apply succeeds_rows; intros j; apply succeeds_attendance_body; exact S|].
  intros a La.
  eapply succeeds_bind;
    [apply succeeds_rows; intros j; apply succeeds_leave_body|].
  intros l Ll.
  eapply succeeds_bind;
    [apply succeeds_rows; intros j; apply succeeds_contribution_body; exact S|].
  intros c Lc.
  eapply succeeds_bind;
    [apply succeeds_rows; intros j; apply succeeds_trip_body; exact S|].
  intros t Lt.
  eapply succeeds_bind;
    [apply succeeds_rows; intros j; apply succeeds_meal_body; exact S|].
  intros m Lm.
  eapply succeeds_bind;
    [apply succeeds_rows; intros j; apply succeeds_onboarding_body; exact S|].
  intros o Lo.
  apply succeeds_ret. unfold table_sizes.
  cbn [t_employees t_departments t_attendance t_leaves t_contributions
       t_trips t_meals t_onboarding].
  cbv beta in Le, La, Ll, Lc, Lt, Lm, Lo.
  rewrite Le, <- Fd, La, Ll, Lc, Lt, Lm, Lo. reflexivity.
Qed.

Lemma main_completes_witness :
  sane_clock (clock steady_world) /\
  exists t, run main steady_world = Some t /\
            table_sizes t = [20; 8; 20; 20; 20; 20; 20; 20]%nat.
Proof.
  split; [exact steady_clock_sane|].
  apply (main_completes steady_world). exact steady_clock_sane.
Defined.

(** ** Attendance rows: windows and bounds *)

(** X12. Every attendance row has its check-in at 08:00..08:30 or at
    09:01..09:30 (never from 08:31 to 09:00), its check-out at
    17:30..18:59, and the same seconds in both times. *)
Theorem attendance_time_windows count w rows :
  run (Attendance.generate_attendance count) w = Some rows ->
  Forall attendance_windows rows.
Proof.
  intros H. apply attendance_rows_inv in H.
  eapply Forall_impl; [|exact H]. clear H rows.
  intros r (cin & cout & I).
  exists (hour cin), (minute cin), (second cin),
         (hour cout), (minute cout), (second cout).
  rewrite (ai_check_in _ _ _ I), (ai_check_out _ _ _ I).
  rewrite (parse_strftime_HMS cin (ai_valid_in _ _ _ I)).
  rewrite (parse_strftime_HMS cout (ai_valid_out _ _ _ I)).
  split; [reflexivity|]. split; [reflexivity|].
  split; [symmetry; exact (ai_same_second _ _ _ I)|].
  split; [exact (ai_in_range _ _ _ I) | exact (ai_out_range _ _ _ I)].
Qed.

Lemma attendance_time_windows_witness :
  run (Attendance.generate_attendance 3) sample_world = Some sample_attendance
  /\ Forall attendance_windows sample_attendance.
Proof.
  split; [vm_compute; reflexivity|].
  apply (attendance_time_windows 3 sample_world).
  vm_compute. reflexivity.
Defined.

(** X13. Every attendance row has worked hours from 8.00 to 10.98 and
    early-leave minutes from 0 to 30, and its status is early leave
    exactly when the early-leave minutes are positive. *)
Theorem attendance_hours_bounded count w rows :
  run (Attendance.generate_attendance count) w = Some rows ->
  Forall attendance_bounds rows.
Proof.
  intros H. apply attendance_rows_inv in H.
  eapply Forall_impl; [|exact H]. clear H rows.
  intros r (cin & cout & I).
  destruct (attendance_seconds r cin cout I) as [Hsec _].
  pose proof (ai_in_range _ _ _ I) as Ri.
  pose proof (ai_out_range _ _ _ I) as Ro.
  pose proof (ai_same_second _ _ _ I) as Ss.
  pose proof (ai_status _ _ _ I) as St.
  destruct status_strings_distinct as (D1 & D2 & D3 & D4 & D5).
  unfold attendance_bounds.
  rewrite (ai_work_hours _ _ _ I), (ai_early _ _ _ I), Hsec.
  set (secs := hour cout * 3600 + minute cout * 60 + second cout
               - (hour cin * 3600 + minute cin * 60 + second cin)).
  assert (Bs : 8 * 3600 <= secs <= 10 * 3600 + 59 * 60) by (unfold secs; lia).
  clearbody secs.
  split; [|split; [|split]].
  - change 8%Q with (inject_Z 8). apply py_round_ge_int.
    unfold Qle. cbn. lia.
  - unfold py_round, Qle. cbn [Qnum Qden Qdiv Qmult Qinv inject_Z].
    change (Z.pos (pow10 2)) with 100.
    pose proof (round_half_even_near (secs * 1 * 100) (Z.pos (1 * 3600))
                  ltac:(lia)) as N.
    change (Z.pos (1 * 3600)) with 3600 in *. cbn. lia.
  - lia.
  - assert (C : (30 <? minute cin) && (hour cin =? 9) = false).
    { apply andb_false_iff. left. apply Z.ltb_ge. lia. }
    rewrite C in St.
    destruct (hour cout <? 18) eqn:O.
    + apply Z.ltb_lt in O. split; [intros _; lia | intros _; exact St].
    + apply Z.ltb_ge in O. split; [|lia].
      intros A. exfalso. destruct St as [S|S]; rewrite S in A; auto.
Qed.

Lemma attendance_hours_bounded_witness :
  run (Attendance.generate_attendance 3) sample_world = Some sample_attendance
  /\ Forall attendance_bounds sample_attendance.
Proof.
  split; [vm_compute; reflexivity|].
  apply (attendance_hours_bounded 3 sample_world).
  vm_compute. reflexivity.
Defined.

(** ** Leave balances: used and remaining days *)

Lemma py_round_le_int x z ndigits :
  (x <= inject_Z z)%Q -> (py_round x ndigits <= inject_Z z)%Q.
Proof.
  unfold Qle, py_round. cbn [Qnum Qden inject_Z]. intros H.
  rewrite Z.mul_1_r in *.
  apply round_half_even_le; [reflexivity|]. nia.
Qed.

Lemma is_decimal_inject_Z z ndigits : is_decimal ndigits (inject_Z z).
Proof.
  exists (z * Z.pos (pow10 ndigits)). unfold Qeq. cbn. ring.
Qed.

(** What every run establishes holds of a run that cannot raise. *)
Lemma succeeds_also {A} c (m : M A) (P Q : A -> Prop) :
  succeeds c m P -> (forall w a w', m w = Some (a, w') -> Q a) ->
  succeeds c m Q.
Proof.
  intros S H w Hw. destruct (S w Hw) as (a & w' & E & _ & Hc).
  exists a, w'. split; [exact E|]. split; [exact (H w a w' E) | exact Hc].
Qed.

Lemma leave_row_ok i w r w' :
  AnnualLeave.body i w = Some (r, w') -> leave_balance_ok r.
Proof.
  intros H.
  destruct (leave_body_inv _ _ _ _ H)
    as (t & Ht & Rt & Hu & Hr & _ & Hc & Hcu & Hy).
  assert (T : 0 <= AnnualLeave.total_days r <= 15).
  { destruct Ht as [E|[E|[E|[E|[E|[]]]]]]; rewrite <- E; lia. }
  assert (T53 : AnnualLeave.total_days r < 2 ^ 53)
    by (apply Z.le_lt_trans with 15; [lia | reflexivity]).
  pose proof (remaining_check_true _ t Ht Rt) as C.
  apply same_float_eq in C.
  pose proof (dec_range 1 t 0 (AnnualLeave.total_days r) ltac:(lia) T53) as U.
  pose proof (dec_range 1 (10 * AnnualLeave.total_days r - t) 0
                (AnnualLeave.total_days r) ltac:(lia) T53) as V.
  change (Z.pos (pow10 1)) with 10 in U, V.
  specialize (U ltac:(lia)). specialize (V ltac:(lia)).
  unfold leave_balance_ok. split; [exact Ht|].
  split.
  { exists t. split; [exact Rt|]. split; [exact Hu|]. rewrite Hr. exact C. }
  rewrite Hu. split; [exact (proj1 U)|]. split; [exact (proj2 U)|].
  split; [rewrite Hr, C; exact (proj1 V)|].
  split; [exact Hc|]. split; [exact Hcu | exact Hy].
Qed.

Lemma succeeds_leave_body_ok c i :
  succeeds c (AnnualLeave.body i) leave_balance_ok.
Proof.
  eapply succeeds_also; [apply succeeds_leave_body|].
  intros w a w' E. exact (leave_row_ok i w a w' E).
Qed.

(** X14. [generate_annual_leaves] never raises; in every row the used
    days are a one-decimal value from 0 to the total (5, 7, 10, 12 or 15),
    the remaining days are, as one-decimal numbers, exactly total - used,
    so never negative, and the compensation days, used compensation days
    and seniority lie in 0..3, 0..2 and 1..10. *)
Theorem leave_balances count w :
  exists rows,
    run (AnnualLeave.generate_annual_leaves count) w = Some rows /\
    List.length rows = count /\
    Forall leave_balance_ok rows.
Proof.
  assert (S : succeeds (clock w) (AnnualLeave.generate_annual_leaves count)
                (fun rows => List.length rows = count /\
                             forall k r, nth_error rows k = Some r ->
                                         leave_balance_ok r)).
  { apply (succeeds_for_range _ _ (fun _ => leave_balance_ok)).
    intros j. apply succeeds_leave_body_ok. }
  destruct (succeeds_run _ _ w S) as (rows & R & L & H).
  exists rows. split; [exact R|]. split; [exact L|].
  apply Forall_nth_error. exact H.
Qed.

(** ** Contributions: exact shares of the base *)

(** X15. In every contribution row the base is one of the seven salary
    tiers and every amount is its exact percentage of the base (the
    rounding to cents changes nothing); the company total is 40 % of the
    base, the personal total 22.3 % and the grand total 62.3 %. *)
Theorem contribution_exact_shares count w rows :
  run (SocialSecurity.generate_social_security count) w = Some rows ->
  Forall contribution_shares rows.
Proof.
  intros H. apply Forall_forall. intros r Hin.
  destruct (for_range_In _ _ _ _ H r Hin) as (j & w1 & w2 & _ & Hb).
  clear H Hin. unfold SocialSecurity.body in Hb.
  step Hb base wa Ebase. step Hb nm wb En. step Hb now wc Enow.
  step Hb back wd Eback. step Hb paid we Ep. step Hb st wf Est.
  apply ret_Some in Hb. destruct Hb as [-> _].
  apply choice_Some in Ebase.
  unfold contribution_shares.
  cbn [SocialSecurity.base_amount SocialSecurity.company_total
       SocialSecurity.personal_total
       SocialSecurity.grand_total SocialSecurity.pension_company
       SocialSecurity.pension_personal SocialSecurity.medical_company
       SocialSecurity.medical_personal SocialSecurity.unemployment_company
       SocialSecurity.unemployment_personal SocialSecurity.injury_company
       SocialSecurity.maternity_company SocialSecurity.housing_fund_company
       SocialSecurity.housing_fund_personal].
  split; [exact Ebase|].
  destruct Ebase as [<-|[<-|[<-|[<-|[<-|[<-|[<-|[]]]]]]]];
    vm_compute; repeat split; reflexivity.
Qed.

Lemma contribution_exact_shares_witness :
  run (SocialSecurity.generate_social_security 3) sample_world
    = Some sample_contributions
  /\ Forall contribution_shares sample_contributions.
Proof.
  split; [vm_compute; reflexivity|].
  apply (contribution_exact_shares 3 sample_world).
  vm_compute. reflexivity.
Defined.

(** ** Trips and meals: ranges *)

(** X16. In every trip row the days are 1..7, the daily allowance is 200,
    300, 400 or 500, accommodation, transportation and meal lie in the
    ranges their rates allow, the total lies from 1000 to 13200, and the
    submission date is the start date. *)
Theorem trip_amounts_bounded count w rows :
  run (BusinessTrip.generate_business_trips count) w = Some rows ->
  Forall trip_bounds rows.
Proof.
  intros H. apply Forall_forall. intros r Hin.
  destruct (for_range_In _ _ _ _ H r Hin) as (j & w1 & w2 & _ & Hb).
  clear H Hin. unfold BusinessTrip.body in Hb.
  step Hb now1 wa E1. step Hb from wb Ef. step Hb now2 wc E2.
  step Hb start wd Es. step Hb n we En. apply randint_Some in En.
  step Hb finish wf Efin. step Hb daily wg Ed. apply choice_Some in Ed.
  step Hb room wh Er. apply randint_Some in Er.
  step Hb tr wi Et. apply randint_Some in Et.
  step Hb mr wj Em. apply randint_Some in Em.
  step Hb now3 wk E3. step Hb emp_no wl Ee. step Hb nm wm Enm.
  step Hb dest wn Edest. step Hb why wo Ew. step Hb appr wp Ea.
  apply ret_Some in Hb. destruct Hb as [-> _].
  unfold trip_bounds.
  cbn [BusinessTrip.total BusinessTrip.daily_allowance BusinessTrip.trip_days
       BusinessTrip.accommodation BusinessTrip.transportation
       BusinessTrip.meal BusinessTrip.start_date BusinessTrip.submitted].
  assert (D : 200 <= daily <= 500)
    by (destruct Ed as [<-|[<-|[<-|[<-|[]]]]]; lia).
  split; [lia|]. split; [exact Ed|].
  split; [nia|]. split; [lia|]. split; [nia|]. split; [nia | reflexivity].
Qed.

Lemma trip_amounts_bounded_witness :
  run (BusinessTrip.generate_business_trips 3) sample_world = Some sample_trips
  /\ Forall trip_bounds sample_trips.
Proof.
  split; [vm_compute; reflexivity|].
  apply (trip_amounts_bounded 3 sample_world).
  vm_compute. reflexivity.
Defined.

(** What a run that cannot raise promises holds of the value of any run. *)
Lemma succeeds_Some {A} (m : M A) (Post : A -> Prop) w a w' :
  succeeds (clock w) m Post -> m w = Some (a, w') -> Post a.
Proof.
  intros S E. destruct (S w eq_refl) as (b & w1 & E1 & Pb & _).
  rewrite E in E1. inversion E1. subst. exact Pb.
Qed.

(** X17. In every meal row the original price lies in the price range of
    the row's meal type (5..15 for breakfast, 15..30 for lunch, 15..35 for
    dinner), the subsidy and the amount paid are both positive, and the
    rating is 3, 4 or 5. *)
Theorem meal_prices_in_range count w rows :
  run (Meal.generate_meal_records count) w = Some rows ->
  Forall meal_bounds rows.
Proof.
  intros H. apply Forall_forall. intros r Hin.
  destruct (for_range_In _ _ _ _ H r Hin) as (j & w1 & w2 & _ & Hb).
  clear H Hin.
  destruct (meal_body_inv _ _ _ _ Hb)
    as (lo & hi & c & f & El & Hlo & Hhi & Hc & Hf & Ho & Hs & Ha & Hr).
  assert (Rc : 500 <= c <= 3500) by lia.
  destruct (meal_row_checked r c f Rc Hf Ho Hs Ha) as (_ & _ & _ & Ps & Pa).
  pose proof (dec_range 2 c lo hi ltac:(lia)
                ltac:(apply Z.le_lt_trans with 35; [lia | reflexivity]))
    as U.
  change (Z.pos (pow10 2)) with 100 in U. specialize (U Hc).
  unfold meal_bounds. split.
  - exists lo, hi. split; [exact El|]. rewrite Ho. exact U.
  - split; [exact Ps|]. split; [exact Pa | exact Hr].
Qed.

Lemma meal_prices_in_range_witness :
  run (Meal.generate_meal_records 3) sample_world = Some sample_meals
  /\ Forall meal_bounds sample_meals.
Proof.
  split; [vm_compute; reflexivity|].
  apply (meal_prices_in_range 3 sample_world).
  vm_compute. reflexivity.
Defined.

(** ** Onboarding: creation and completion times *)

Lemma read_timestamp_strftime dt :
  valid_datetime dt ->
  read_timestamp (strftime_full dt)
  = Some (ordinal dt, (hour dt, minute dt, second dt)).
Proof.
  intros V. pose proof V as (Ho & Hh & Hm & Hs & _).
  destruct (ord2ymd_ymd2ord (ordinal dt) Ho)
    as (y & m & d & O & R & Hy & Hmo & Hd).
  unfold strftime_full, strftime_Ymd, strftime_HMS. rewrite O.
  destruct (four_digits y ltac:(lia)) as (a1 & a2 & a3 & a4 & -> & Py).
  destruct (two_digits m ltac:(lia)) as (b1 & b2 & -> & Pm).
  destruct (two_digits d ltac:(lia)) as (c1 & c2 & -> & Pd).
  destruct (two_digits (hour dt) ltac:(lia)) as (h1 & h2 & -> & Ph).
  destruct (two_digits (minute dt) ltac:(lia)) as (m1 & m2 & -> & Pmi).
  destruct (two_digits (second dt) ltac:(lia)) as (s1 & s2 & -> & Ps).
  unfold read_timestamp, date_ordinal.
  cbn [append String.substring parse_Ymd parse_HMS].
  rewrite Py, Pm, Pd, Ph, Pmi, Ps.
  cbn [Ascii.eqb Bool.eqb andb]. rewrite R. reflexivity.
Qed.

Lemma onboarding_body_inv i w r w' :
  Onboarding.body i w = Some (r, w') ->
  exists created,
    valid_datetime created /\
    Onboarding.created r = strftime_full created /\
    Onboarding.pushed r = strftime_full created /\
    (Onboarding.completed r = EmptyString \/
     exists k d, 1 <= k <= 7 /\ valid_datetime d /\
                 ordinal d = ordinal created + k /\
                 hour d = hour created /\ minute d = minute created /\
                 second d = second created /\
                 Onboarding.completed r = strftime_full d).
Proof.
  unfold Onboarding.body. intros H.
  step H now1 wa E1. apply datetime_now_valid in E1.
  step H from wb Ef. apply lift_Some in Ef. destruct Ef as [Ef ->].
  apply dt_sub_td_days_Some in Ef; [|exact E1]. destruct Ef as [_ Vf].
  step H now2 wc E2. clear E2.
  step H created wd Ec. apply random_date_Some in Ec; [|exact Vf].
  destruct Ec as (k0 & _ & _ & Vc).
  step H nm we En. step H st wf Est. step H ch wg Ech. step H rr wh Er.
  step H done wi Ed. step H full wj Efull. step H by_whom wk Eby.
  apply ret_Some in H. destruct H as [-> _].
  exists created. split; [exact Vc|].
  cbn [Onboarding.created Onboarding.pushed Onboarding.completed].
  split; [reflexivity|]. split; [reflexivity|].
  destruct (negb (Qle_bool rr 0.3)).
  - right. step Ed n wl En'. apply randint_Some in En'.
    step Ed d wm Ed'. apply lift_Some in Ed'. destruct Ed' as [Ed' ->].
    apply dt_add_days_Some in Ed'; [|exact Vc]. destruct Ed' as [Ed' Vd].
    apply ret_Some in Ed. destruct Ed as [-> _].
    exists n, d. subst d. cbn [ordinal hour minute second] in *.
    split; [lia|]. split; [exact Vd|].
    repeat split; reflexivity.
  - left. apply ret_Some in Ed. destruct Ed as [-> _]. reflexivity.
Qed.

(** X18. In every onboarding row the push time is the creation time, and
    the form-completion time is either empty or a timestamp 1 to 7 days
    after the creation time, at the same time of day. *)
Theorem onboarding_completion_after_creation count w rows :
  run (Onboarding.generate_onboarding count) w = Some rows ->
  Forall onboarding_ok rows.
Proof.
  intros H. apply Forall_forall. intros r Hin.
  destruct (for_range_In _ _ _ _ H r Hin) as (j & w1 & w2 & _ & Hb).
  apply onboarding_body_inv in Hb.
  destruct Hb as (created & Vc & Ec & Ep & Hdone).
  split; [rewrite Ec, Ep; reflexivity|].
  exists (ordinal created), (hour created, minute created, second created).
  split; [rewrite Ec; apply read_timestamp_strftime; exact Vc|].
  destruct Hdone as [E|(k & d & Hk & Vd & Od & Hh & Hm & Hs & Ed)].
  - left. exact E.
  - right. exists k. split; [exact Hk|].
    rewrite Ed, (read_timestamp_strftime d Vd), Od, Hh, Hm, Hs. reflexivity.
Qed.

Lemma onboarding_completion_after_creation_witness :
  run (Onboarding.generate_onboarding 3) sample_world = Some sample_onboarding
  /\ Forall onboarding_ok sample_onboarding.
Proof.
  split; [vm_compute; reflexivity|].
  apply (onboarding_completion_after_creation 3 sample_world).
  vm_compute. reflexivity.
Defined.

(** ** [random_date]: whole days *)

(** X19. A datetime returned by [random_date] keeps the time of day of
    the start, is not before the start, and is at least one whole day
    before the end: the last 24 hours before the end are never drawn. *)
Theorem random_date_whole_days start_date end_date w d w' :
  valid_datetime start_date ->
  random_date start_date end_date w = Some (d, w') ->
  hour d = hour start_date /\ minute d = minute start_date /\
  second d = second start_date /\ microsecond d = microsecond start_date /\
  ordinal start_date <= ordinal d /\
  dt_key d + 86400000000 <= dt_key end_date.
Proof.
  intros V H.
  destruct (random_date_Some _ _ _ _ _ V H) as (k & Hk & -> & _).
  rewrite dt_sub_days in Hk.
  cbn [ordinal hour minute second microsecond].
  repeat (split; [reflexivity|]). split; [lia|].
  pose proof (Z.mul_div_le (dt_key end_date - dt_key start_date) 86400000000
                ltac:(lia)) as L.
  unfold dt_key in *. cbn [ordinal hour minute second microsecond]. lia.
Qed.

Lemma random_date_whole_days_witness :
  valid_datetime new_year_midnight /\
  exists d w',
    random_date new_year_midnight early_april sample_world = Some (d, w') /\
    hour d = hour new_year_midnight /\ minute d = minute new_year_midnight /\
    second d = second new_year_midnight /\
    microsecond d = microsecond new_year_midnight /\
    ordinal new_year_midnight <= ordinal d /\
    dt_key d + 86400000000 <= dt_key early_april.
Proof.
  assert (V : valid_datetime new_year_midnight)
    by (unfold valid_datetime; vm_compute; repeat split; discriminate).
  assert (V2 : valid_datetime early_april)
    by (unfold valid_datetime; vm_compute; repeat split; discriminate).
  assert (D : dt_key new_year_midnight + 86400000000 <= dt_key early_april)
    by (vm_compute; discriminate).
  split; [exact V|].
  destruct (succeeds_random_date (clock sample_world) _ _ V V2 D
              sample_world eq_refl) as (d & w' & E & _).
  exists d, w'. split; [exact E|].
  exact (random_date_whole_days _ _ _ _ _ V E).
Defined.

(** ** Employee identifiers across the tables of [main] *)

Lemma run_of_Some {A} (m : M A) w a w' : m w = Some (a, w') -> run m w = Some a.
Proof. unfold run. intros ->. reflexivity. Qed.

Lemma employees_have_ids count w rows n :
  run (Employee.generate_employees count) w = Some rows ->
  1 <= n <= Z.of_nat count ->
  In (emp_id n) (map Employee.emp rows).
Proof.
  intros H Hn. destruct (employees_rows count w) as (rows' & R & L & Hk).
  rewrite R in H. inversion H. subst rows'.
  destruct (nth_error rows (Z.to_nat (n - 1))) as [r|] eqn:E.
  - apply in_map_iff. exists r. split.
    + rewrite (ei_emp _ _ (Hk _ r E)). f_equal. lia.
    + eapply nth_error_In; exact E.
  - apply nth_error_None in E. lia.
Qed.

Lemma attendance_body_emp i w r w' :
  Attendance.body i w = Some (r, w') ->
  exists n, 1 <= n <= 20 /\ Attendance.emp r = emp_id n.
Proof.
  unfold Attendance.body. intros H.
  step H now w1 E1. step H back w2 E2. step H day w3 E3. step H m0 w4 E4.
  step H cin w5 E5. step H oh w6 E6. step H om w7 E7. step H cout w8 E8.
  step H st w9 E9. step H emp_no w10 En. step H nm w11 E11.
  step H loc w12 E12. step H src w13 E13. step H rem w14 E14.
  apply ret_Some in H. destruct H as [-> _].
  apply randint_Some in En. exists emp_no. split; [exact En | reflexivity].
Qed.

Lemma leave_body_emp i w r w' :
  AnnualLeave.body i w = Some (r, w') -> AnnualLeave.emp r = emp_id (i + 1).
Proof.
  unfold AnnualLeave.body. intros H.
  step H tot w1 E1. step H u w2 E2. step H nm w3 E3. step H comp w4 E4.
  step H comp_u w5 E5. step H years w6 E6.
  apply ret_Some in H. destruct H as [-> _]. reflexivity.
Qed.

Lemma contribution_body_emp i w r w' :
  SocialSecurity.body i w = Some (r, w') ->
  SocialSecurity.emp r = emp_id (i + 1).
Proof.
  unfold SocialSecurity.body. intros H.
  step H base w1 E1. cbv zeta in H.
  step H nm w2 E2. step H now w3 E3. step H back w4 E4.
  step H paid w5 E5. step H st w6 E6.
  apply ret_Some in H. destruct H as [-> _]. reflexivity.
Qed.

Lemma trip_body_emp i w r w' :
  BusinessTrip.body i w = Some (r, w') ->
  exists n, 1 <= n <= 20 /\ BusinessTrip.emp r = emp_id n.
Proof.
  unfold BusinessTrip.body. intros H.
  step H now1 w1 E1. step H from w2 E2. step H now2 w3 E3.
  step H start w4 E4. step H n w5 E5. step H finish w6 E6.
  step H daily w7 E7. step H room w8 E8. step H tr w9 E9.
  step H mr w10 E10. step H now3 w11 E11. step H emp_no w12 En.
  step H nm w13 E13. step H dest w14 E14. step H why w15 E15.
  step H appr w16 E16.
  apply ret_Some in H. destruct H as [-> _].
  apply randint_Some in En. exists emp_no. split; [exact En | reflexivity].
Qed.

Lemma meal_body_emp i w r w' :
  Meal.body i w = Some (r, w') ->
  exists n, 1 <= n <= 20 /\ Meal.emp r = emp_id n.
Proof.
  unfold Meal.body. intros H.
  step H mt w1 E1. step H pr w2 E2. step H u w3 E3. step H f w4 E4.
  step H emp_no w5 En. step H nm w6 E6. step H now w7 E7.
  step H back w8 E8. step H day w9 E9. step H place w10 E10.
  step H pay w11 E11. step H stars w12 E12.
  apply ret_Some in H. destruct H as [-> _].
  apply randint_Some in En. exists emp_no. split; [exact En | reflexivity].
Qed.

Lemma onboarding_body_emp i w r w' :
  Onboarding.body i w = Some (r, w') -> Onboarding.emp r = emp_id (i + 1).
Proof.
  unfold Onboarding.body. intros H.
  step H now1 w1 E1. step H from w2 E2. step H now2 w3 E3.
  step H created w4 E4. step H nm w5 E5. step H st w6 E6.
  step H ch w7 E7. step H rr w8 E8. step H done w9 E9.
  step H full w10 E10. step H by_whom w11 E11.
  apply ret_Some in H. destruct H as [-> _]. reflexivity.
Qed.

(** X20. In the tables one run of [main] makes, every employee identifier
    written in the attendance, leave, contribution, trip, meal and
    onboarding tables is the identifier of a row of the employee table. *)
Theorem main_references_resolve w t :
  run main w = Some t -> references_resolve t.
Proof.
  intros H. apply run_Some in H. destruct H as (w' & H). unfold main in H.
  step H e w1 Ee. step H d w2 Ed. step H a w3 Ea. step H l w4 El.
  step H c w5 Ec. step H tr w6 Et. step H m w7 Em. step H o w8 Eo.
  apply ret_Some in H. destruct H as [-> _].
  apply run_of_Some in Ee, Ea, El, Ec, Et, Em, Eo.
  assert (K : forall n, 1 <= n <= 20 -> In (emp_id n) (map Employee.emp e)).
  { intros n Hn. apply (employees_have_ids 20 w e n Ee). lia. }
  unfold references_resolve, known_ids.
  cbn [t_employees t_attendance t_leaves t_contributions t_trips t_meals
       t_onboarding].
  repeat split; apply Forall_forall; intros r Hin.
  - destruct (for_range_In _ _ _ _ Ea r Hin) as (j & wa & wb & Hj & Hb).
    apply attendance_body_emp in Hb. destruct Hb as (n & Hn & ->).
    apply K. exact Hn.
  - destruct (for_range_In _ _ _ _ El r Hin) as (j & wa & wb & Hj & Hb).
    apply leave_body_emp in Hb. rewrite Hb. apply K. lia.
  - destruct (for_range_In _ _ _ _ Ec r Hin) as (j & wa & wb & Hj & Hb).
    apply contribution_body_emp in Hb. rewrite Hb. apply K. lia.
  - destruct (for_range_In _ _ _ _ Et r Hin) as (j & wa & wb & Hj & Hb).
    apply trip_body_emp in Hb. destruct Hb as (n & Hn & ->).
    apply K. exact Hn.
  - destruct (for_range_In _ _ _ _ Em r Hin) as (j & wa & wb & Hj & Hb).
    apply meal_body_emp in Hb. destruct Hb as (n & Hn & ->).
    apply K. exact Hn.
  - destruct (for_range_In _ _ _ _ Eo r Hin) as (j & wa & wb & Hj & Hb).
    apply onboarding_body_emp in Hb. rewrite Hb. apply K. lia.
Qed.

Lemma main_references_resolve_witness :
  run main steady_world = Some sample_tables /\
  references_resolve sample_tables.
Proof.
  split; [vm_compute; reflexivity|].
  apply (main_references_resolve steady_world).
  vm_compute. reflexivity.
Defined.

(** ** Dates of the rows against the clock *)

Lemma succeeds_rows_all {A} c (body : Z -> M A) (P : A -> Prop) count :
  (forall j, succeeds c (body j) P) ->
  succeeds c (for_range count body) (Forall P).
Proof.
  intros H. eapply succeeds_weaken.
  - apply (succeeds_for_range c body (fun _ => P) count H).
  - intros rows [_ N]. apply Forall_nth_error. exact N.
Qed.

Lemma succeeds_attendance_body_date c i :
  sane_clock c ->
  succeeds c (Attendance.body i)
           (fun r => dated_back c 1 30 (Attendance.date r)).
Proof.
  intros S. unfold Attendance.body.
  eapply succeeds_bind; [apply succeeds_now; exact S|]. intros now R.
  eapply succeeds_bind; [apply succeeds_randint; lia|]. intros back Hb.
  cbv beta in Hb.
  eapply succeeds_bind; [apply (succeeds_days_back c now back S R); lia|].
  intros day (Vd & Od & _).
  eapply succeeds_bind; [apply succeeds_randint; lia|]. intros m0 Hm0.
  cbv beta in Hm0.
  eapply succeeds_bind.
  { eapply succeeds_lift_any.
    apply dt_replace_total; destruct (30 <? m0) eqn:C;
      [apply Z.ltb_lt in C | apply Z.ltb_ge in C | apply Z.ltb_lt in C
       | apply Z.ltb_ge in C]; lia. }
  intros cin _.
  eapply succeeds_bind; [apply succeeds_randint; lia|]. intros oh Hoh.
  cbv beta in Hoh.
  eapply succeeds_bind.
  { apply (succeeds_weaken c _ (fun x => 0 <= x <= 59) (fun x => 0 <= x <= 59)).
    - destruct (oh =? 17).
      + eapply succeeds_weaken; [apply succeeds_randint; lia|].
        intros x Hx. cbv beta in Hx. lia.
      + apply succeeds_randint; lia.
    - intros x Hx. exact Hx. }
  intros om Hom. cbv beta in Hom.
  eapply succeeds_bind.
  { eapply succeeds_lift_any. apply dt_replace_total; lia. }
  intros cout _.
  eapply succeeds_bind with (P := fun _ => True).
  { destruct (_ && _); [apply succeeds_ret; exact I|].
    destruct (oh <? 18); [apply succeeds_ret; exact I|].
    eapply succeeds_weaken; [apply succeeds_choice; discriminate|].
    intros; exact I. }
  intros st _.
  eapply succeeds_bind; [apply succeeds_randint; lia|]. intros emp_no _.
  eapply succeeds_bind; [apply succeeds_generate_name|]. intros nm _.
  eapply succeeds_bind; [apply succeeds_choice; discriminate|]. intros loc _.
  eapply succeeds_bind; [apply succeeds_choice; discriminate|]. intros src _.
  eapply succeeds_bind with (P := fun _ => True).
  { destruct (String.eqb st Attendance.NORMAL); [apply succeeds_ret; exact I|].
    eapply succeeds_weaken; [apply succeeds_choice; discriminate|].
    intros; exact I. }
  intros rem _. apply succeeds_ret. cbn [Attendance.date].
  exists now, (ordinal day).
  split; [exact R|]. split; [apply date_ordinal_strftime; exact Vd | lia].
Qed.

Lemma succeeds_meal_body_date c i :
  sane_clock c ->
  succeeds c (Meal.body i) (fun r => dated_back c 1 30 (Meal.date r)).
Proof.
  intros S. unfold Meal.body.
  eapply succeeds_bind; [apply succeeds_choice; discriminate|].
  intros mt Hmt. cbv beta in Hmt.
  assert (L : exists lo hi, Meal.lookup mt Meal.meal_types = Some (lo, hi)
                            /\ 0 <= lo <= hi /\ hi <= 35).
  { cbn in Hmt. destruct Hmt as [<-|[<-|[<-|[]]]];
      eexists; eexists; (split; [reflexivity | lia]). }
  destruct L as (lo & hi & El & Hl).
  eapply succeeds_bind;
    [apply (succeeds_lift c _ (lo, hi) (fun x => x = (lo, hi)) El eq_refl)|].
  intros pr ->. cbn [fst snd].
  eapply succeeds_bind.
  { apply succeeds_uniform;
      [lia | apply Z.le_lt_trans with 35; [lia | reflexivity]]. }
  intros u _.
  eapply succeeds_bind; [apply succeeds_choice; discriminate|]. intros f _.
  eapply succeeds_bind; [apply succeeds_randint; lia|]. intros emp_no _.
  eapply succeeds_bind; [apply succeeds_generate_name|]. intros nm _.
  eapply succeeds_bind; [apply succeeds_now; exact S|]. intros now R.
  eapply succeeds_bind; [apply succeeds_randint; lia|]. intros back Hb.
  cbv beta in Hb.
  eapply succeeds_bind; [apply (succeeds_days_back c now back S R); lia|].
  intros day (Vd & Od & _).
  eapply succeeds_bind; [apply succeeds_choice; discriminate|]. intros pl _.
  eapply succeeds_bind; [apply succeeds_choice; discriminate|]. intros pay _.
  eapply succeeds_bind; [apply succeeds_randint; lia|]. intros stars _.
  apply succeeds_ret. cbn [Meal.date].
  exists now, (ordinal day).
  split; [exact R|]. split; [apply date_ordinal_strftime; exact Vd | lia].
Qed.

(** X21. With a sane clock, every attendance row and every meal row is
    dated from 1 to 30 days before the date of a reading of the clock:
    never the day of the run itself, never a later day. *)
Theorem attendance_and_meal_dates_recent count w :
  sane_clock (clock w) ->
  (exists rows,
     run (Attendance.generate_attendance count) w = Some rows /\
     Forall (fun r => dated_back (clock w) 1 30 (Attendance.date r)) rows) /\
  (exists rows,
     run (Meal.generate_meal_records count) w = Some rows /\
     Forall (fun r => dated_back (clock w) 1 30 (Meal.date r)) rows).
Proof.
  intros S. split; apply succeeds_run; apply succeeds_rows_all; intros j.
  - apply succeeds_attendance_body_date. exact S.
  - apply succeeds_meal_body_date. exact S.
Qed.

Lemma attendance_and_meal_dates_recent_witness :
  sane_clock (clock steady_world) /\
  (exists rows,
     run (Attendance.generate_attendance 3) steady_world = Some rows /\
     Forall (fun r => dated_back (clock steady_world) 1 30 (Attendance.date r))
            rows) /\
  (exists rows,
     run (Meal.generate_meal_records 3) steady_world = Some rows /\
     Forall (fun r => dated_back (clock steady_world) 1 30 (Meal.date r))
            rows).
Proof.
  split; [exact steady_clock_sane|].
  apply (attendance_and_meal_dates_recent 3 steady_world).
  exact steady_clock_sane.
Defined.

(** The start drawn by [random_date] between a reading moved back [k]
    days and a later reading: not before the former, a day or more before
    the latter. *)
Lemma succeeds_start_before c now1 now2 from k :
  sane_clock c -> reading c now1 -> reading c now2 -> 60 <= k <= 90 ->
  valid_datetime from -> ordinal from = ordinal now1 - k ->
  dt_key from = dt_key now1 - k * 86400000000 ->
  succeeds c (random_date from now2)
           (fun d => valid_datetime d /\ 1 <= ordinal d <= MAXORDINAL - 7 /\
                     ordinal now1 - k <= ordinal d /\
                     ordinal d + 1 <= ordinal now2).
Proof.
  intros S R1 R2 Hk Vf Of Kf.
  destruct (reading_sane c now1 S R1) as (V1 & O1 & n1 & K1).
  destruct (reading_sane c now2 S R2) as (V2 & O2 & n2 & K2).
  destruct S as [_ Hs]. specialize (Hs n1 n2).
  assert (Hd : dt_key from + 86400000000 <= dt_key now2) by lia.
  intros w Hw.
  destruct (succeeds_random_date c from now2 Vf V2 Hd w Hw)
    as (d & w' & E & (Vd & _) & Hc).
  exists d, w'. split; [exact E|]. split; [|exact Hc].
  destruct (random_date_Some _ _ _ _ _ Vf E) as (j & Hj & Ed & _).
  rewrite dt_sub_days in Hj.
  pose proof (Z.mul_div_le (dt_key now2 - dt_key from) 86400000000
                ltac:(lia)) as L.
  pose proof (dt_key_bounds from Vf) as Bf.
  pose proof (dt_key_bounds now2 V2) as B2.
  assert (Od : ordinal d = ordinal from + j) by (rewrite Ed; reflexivity).
  split; [exact Vd|]. lia.
Qed.

Lemma succeeds_trip_body_date c i :
  sane_clock c ->
  succeeds c (BusinessTrip.body i)
           (fun r => exists o,
                       date_ordinal (BusinessTrip.start_date r) = Some o /\
                       drawn_before c 90 o).
Proof.
  intros S. unfold BusinessTrip.body.
  eapply succeeds_bind; [apply succeeds_now; exact S|]. intros now1 R1.
  eapply succeeds_bind; [apply (succeeds_days_back c now1 90 S R1); lia|].
  intros from (Vf & Of & Kf).
  eapply succeeds_bind; [apply succeeds_now; exact S|]. intros now2 R2.
  eapply succeeds_bind;
    [apply (succeeds_start_before c now1 now2 from 90 S R1 R2);
     try assumption; lia|].
  intros start (Vs & Os & Lo & Hi).
  eapply succeeds_bind; [apply succeeds_randint; lia|]. intros n Hn.
  cbv beta in Hn.
  eapply succeeds_bind.
  { eapply succeeds_lift_any. apply dt_add_days_total; [exact Vs | lia]. }
  intros finish _.
  eapply succeeds_bind; [apply succeeds_choice; discriminate|]. intros daily _.
  eapply succeeds_bind; [apply succeeds_randint; lia|]. intros room _.
  eapply succeeds_bind; [apply succeeds_randint; lia|]. intros tr _.
  eapply succeeds_bind; [apply succeeds_randint; lia|]. intros mr _.
  eapply succeeds_bind; [apply succeeds_now; exact S|]. intros now3 _.
  eapply succeeds_bind; [apply succeeds_randint; lia|]. intros emp_no _.
  eapply succeeds_bind; [apply succeeds_generate_name|]. intros nm _.
  eapply succeeds_bind; [apply succeeds_choice; discriminate|]. intros dest _.
  eapply succeeds_bind; [apply succeeds_choice; discriminate|]. intros why _.
  eapply succeeds_bind; [apply succeeds_choice; discriminate|]. intros appr _.
  apply succeeds_ret. cbn [BusinessTrip.start_date].
  exists (ordinal start).
  split; [apply date_ordinal_strftime; exact Vs|].
  exists now1, now2. split; [exact R1|]. split; [exact R2|]. lia.
Qed.

Lemma succeeds_onboarding_body_date c i :
  sane_clock c ->
  succeeds c (Onboarding.body i)
           (fun r => exists o t,
                       read_timestamp (Onboarding.created r) = Some (o, t) /\
                       drawn_before c 60 o).
Proof.
  intros S. unfold Onboarding.body.
  eapply succeeds_bind; [apply succeeds_now; exact S|]. intros now1 R1.
  eapply succeeds_bind; [apply (succeeds_days_back c now1 60 S R1); lia|].
  intros from (Vf & Of & Kf).
  eapply succeeds_bind; [apply succeeds_now; exact S|]. intros now2 R2.
  eapply succeeds_bind;
    [apply (succeeds_start_before c now1 now2 from 60 S R1 R2);
     try assumption; lia|].
  intros created (Vc & Oc & Lo & Hi).
  eapply succeeds_bind; [apply succeeds_generate_name|]. intros nm _.
  eapply succeeds_bind; [apply succeeds_choice; discriminate|]. intros st _.
  eapply succeeds_bind; [apply succeeds_choice; discriminate|]. intros ch _.
  eapply succeeds_bind; [apply succeeds_random|]. intros r _.
  eapply succeeds_bind with (P := fun _ => True).
  { destruct (negb (Qle_bool r 0.3)); [|apply succeeds_ret; exact I].
    eapply succeeds_bind; [apply succeeds_randint; lia|]. intros n Hn.
    cbv beta in Hn.
    eapply succeeds_bind.
    { eapply succeeds_lift_any. apply dt_add_days_total; [exact Vc | lia]. }
    intros d _. apply succeeds_ret. exact I. }
  intros done _.
  eapply succeeds_bind; [apply succeeds_choice; discriminate|]. intros full _.
  eapply succeeds_bind; [apply succeeds_choice; discriminate|]. intros by_whom _.
  apply succeeds_ret. cbn [Onboarding.created].
  exists (ordinal created), (hour created, minute created, second created).
  split; [apply read_timestamp_strftime; exact Vc|].
  exists now1, now2. split; [exact R1|]. split; [exact R2|]. lia.
Qed.

(** X22. With a sane clock, every trip starts, and every onboarding row
    is created, at least one day before the date of a reading of the
    clock, and at most 90 days (trips) or 60 days (onboarding) before the
    date of a reading. *)
Theorem trip_and_onboarding_dates_before_clock count w :
  sane_clock (clock w) ->
  (exists rows,
     run (BusinessTrip.generate_business_trips count) w = Some rows /\
     Forall (fun r => exists o,
                 date_ordinal (BusinessTrip.start_date r) = Some o /\
                 drawn_before (clock w) 90 o) rows) /\
  (exists rows,
     run (Onboarding.generate_onboarding count) w = Some rows /\
     Forall (fun r => exists o t,
                 read_timestamp (Onboarding.created r) = Some (o, t) /\
                 drawn_before (clock w) 60 o) rows).
Proof.
  intros S. split; apply succeeds_run; apply succeeds_rows_all; intros j.
  - apply succeeds_trip_body_date. exact S.
  - apply succeeds_onboarding_body_date. exact S.
Qed.

Lemma trip_and_onboarding_dates_before_clock_witness :
  sane_clock (clock steady_world) /\
  (exists rows,
     run (BusinessTrip.generate_business_trips 3) steady_world = Some rows /\
     Forall (fun r => exists o,
                 date_ordinal (BusinessTrip.start_date r) = Some o /\
                 drawn_before (clock steady_world) 90 o) rows) /\
  (exists rows,
     run (Onboarding.generate_onboarding 3) steady_world = Some rows /\
     Forall (fun r => exists o t,
                 read_timestamp (Onboarding.created r) = Some (o, t) /\
                 drawn_before (clock steady_world) 60 o) rows).
Proof.
  split; [exact steady_clock_sane|].
  apply (trip_and_onboarding_dates_before_clock 3 steady_world).
  exact steady_clock_sane.
Defined.
